(** * The sensor domain layer (domain/utils/crud.py, domain/utils/db.py)

    A shallow embedding of the data-access layer of the sensor-monitoring
    platform: the entity classes of [domain/models], the CRUD helpers of
    [domain/utils/crud.py] and the relationship helpers and index
    provisioning of [domain/utils/db.py].

    The document store (MongoDB through motor) and the [bson] identifiers
    are external to the repository.  They are modelled here by the small
    part of their behaviour the layer relies on: collections are lists of
    documents in insertion order, [_id] is a primary key, [update_one]
    touches the first matching document, [$set] merges fields, and every
    store call may be rejected by the store. *)

From Stdlib Require Import ZArith NArith Ascii String List.
From stdpp Require Import base option list gmap strings sorting.

Local Open Scope string_scope.
Local Open Scope list_scope.
Local Open Scope Z_scope.

(** ** bson.ObjectId *)

Module ObjectId.

(** A 12-byte identifier, read as a big-endian number. *)
Definition t := N.

Definition hex_digit (c : ascii) : option N :=
  let n := N_of_ascii c in
  if ((48 <=? n) && (n <=? 57))%N then Some (n - 48)%N
  else if ((97 <=? n) && (n <=? 102))%N then Some (n - 87)%N
  else if ((65 <=? n) && (n <=? 70))%N then Some (n - 55)%N
  else None.

Fixpoint fromhex (acc : N) (s : string) : option N :=
  match s with
  | EmptyString => Some acc
  | String c s' =>
      match hex_digit c with
      | Some d => fromhex (16 * acc + d)%N s'
      | None => None
      end
  end.

(** [ObjectId(s)] for a string [s] of 24 hexadecimal digits: the strings
    that stand for a 12-byte identifier. *)
Definition of_str (s : string) : option t :=
  if (String.length s =? 24)%nat then fromhex 0%N s else None.

(** [ObjectId.is_valid(s)] for a string [s], as far as the identifiers of
    the model go: [s] stands for a 12-byte identifier. *)
Definition is_valid (s : string) : bool :=
  match of_str s with Some _ => true | None => false end.

(** The white space [bytes.fromhex] skips before a byte. *)
Definition whitespace (c : ascii) : bool :=
  let n := N_of_ascii c in
  (((9 <=? n) && (n <=? 13)) || (n =? 32))%N.

(** [bytes.fromhex(s)]: the bytes written in [s], two hexadecimal digits
    each, with white space allowed before a byte and at the end. *)
Fixpoint bytes_fromhex (s : string) : option (list N) :=
  match s with
  | EmptyString => Some nil
  | String c s' =>
      if whitespace c then bytes_fromhex s'
      else
        match hex_digit c, s' with
        | Some top, String c' s'' =>
            match hex_digit c', bytes_fromhex s'' with
            | Some bot, Some bs => Some (cons (16 * top + bot)%N bs)
            | _, _ => None
            end
        | _, _ => None
        end
  end.

(** The strings bson itself takes for an identifier: 24 characters that
    [bytes.fromhex] reads.  Those with white space among them stand for
    fewer than 12 bytes, an identifier the model does not have: [is_valid]
    refuses them, and a statement about refused strings is one about the
    strings that are not [accepted]. *)
Definition accepted (s : string) : bool :=
  (String.length s =? 24)%nat
  && match bytes_fromhex s with Some _ => true | None => false end.

End ObjectId.

(** ** Stored values and documents *)

Definition datetime := Z.

(** A Python float is only stored and returned by this layer: it is kept
    as its binary64 bit pattern. *)
Definition float := Z.

#[warnings="-register-all"]
Inductive value :=
| VBool (b : bool)
| VInt (n : Z)
| VFloat (bits : float)
| VStr (s : string)
| VOid (o : ObjectId.t)
| VDate (t : datetime)
| VDict (kvs : list (string * value)).

#[global] Instance value_eq_dec : EqDecision value.
Proof.
  unfold EqDecision, Decision. fix go 1. intros v w.
  pose (go' := go : EqDecision value).
  destruct v as [a|a|a|a|a|a|a], w as [b|b|b|b|b|b|b];
    try (right; discriminate);
    (destruct (decide (a = b)); [left; congruence | right; congruence]).
Defined.

(** [str | ObjectId]: what the helpers accept as an identifier. *)
Inductive id_arg :=
| Str (s : string)
| Oid (o : ObjectId.t).

(** [if isinstance(x, str) and ObjectId.is_valid(x): x = ObjectId(x)] *)
Definition normalize (x : id_arg) : id_arg :=
  match x with
  | Str s =>
      if ObjectId.is_valid s then
        match ObjectId.of_str s with Some o => Oid o | None => Str s end
      else Str s
  | Oid o => Oid o
  end.

Definition id_value (x : id_arg) : value :=
  match x with
  | Str s => VStr s
  | Oid o => VOid o
  end.

(** ** The store: queries *)

Inductive operator := Gte | Lte.

Inductive condition :=
| Equals (v : value)
| Compare (ops : list (operator * value)).

(** Range operators compare values of one type only; the order of
    floats, strings and embedded documents, and of an integer with a
    float, is not modelled: a statement about a caller's query is one
    about a [covered_query]. *)
Definition bson_compare (v w : value) : option comparison :=
  match v, w with
  | VInt a, VInt b => Some (a ?= b)
  | VDate a, VDate b => Some (a ?= b)
  | VOid a, VOid b => Some (a ?= b)%N
  | VBool a, VBool b => Some (Z.b2z a ?= Z.b2z b)
  | _, _ => None
  end.

Definition holds (op : operator) (v bound : value) : bool :=
  match op, bson_compare v bound with
  | Gte, Some (Eq | Gt) => true
  | Lte, Some (Eq | Lt) => true
  | _, _ => false
  end.

Definition satisfies (c : condition) (field : option value) : bool :=
  match c, field with
  | Equals v, _ => bool_decide (field = Some v)
  | Compare ops, Some x => forallb (fun ov => holds ov.1 x ov.2) ops
  | Compare _, None => false
  end.

Definition matches (q : list (string * condition)) (doc : gmap string value) : bool :=
  forallb (fun fc => satisfies fc.2 (doc !! fc.1)) q.

(** ** The store: sort order *)

Inductive direction := ASCENDING | DESCENDING.

(** The key a field sorts by: the rank of its type, then its value.  A
    missing field sorts as null, before everything else.  The order of
    floats, strings and embedded documents among themselves is not
    modelled (they tie): a statement about a caller's sort key is one
    about documents that are [sortable_by] it. *)
Definition sort_key (field : option value) : Z * Z :=
  match field with
  | None => (1, 0)
  | Some (VInt n) => (2, n)
  | Some (VFloat _) => (2, 0)
  | Some (VStr _) => (3, 0)
  | Some (VDict _) => (4, 0)
  | Some (VOid o) => (5, Z.of_N o)
  | Some (VBool b) => (6, Z.b2z b)
  | Some (VDate t) => (7, t)
  end.

Definition key_le (a b : Z * Z) : Prop :=
  a.1 < b.1 ∨ (a.1 = b.1 ∧ a.2 <= b.2).

Definition precedes (field : string) (dir : direction)
    (d1 d2 : gmap string value) : Prop :=
  match dir with
  | ASCENDING => key_le (sort_key (d1 !! field)) (sort_key (d2 !! field))
  | DESCENDING => key_le (sort_key (d2 !! field)) (sort_key (d1 !! field))
  end.

#[global] Instance key_le_dec a b : Decision (key_le a b).
Proof. unfold key_le. apply _. Defined.

#[global] Instance precedes_dec field dir d1 d2 : Decision (precedes field dir d1 d2).
Proof. unfold precedes. destruct dir; apply _. Defined.

(** ** Exceptions, the world and the monad of the helpers *)

Inductive exception :=
| ValidationError      (* pydantic: a field failed validation *)
| DuplicateKeyError    (* pymongo: a unique index rejected a write *)
| OperationFailure     (* pymongo: any other rejection by the store *)
| ConnectionFailure.   (* pymongo: the store could not be reached *)

Inductive result (A : Type) :=
| Ok (a : A)
| Raise (e : exception).

Arguments Ok {A} a.
Arguments Raise {A} e.

Record IndexModel := {
  keys : list (string * direction);
  unique : bool
}.

Record Collection := {
  docs : list (gmap string value);
  indexes : list IndexModel
}.

(** What an awaited call can read and change: the database, the wall
    clock ([time] is what [datetime.now()] returns next, [elapsed] how far
    the clock moves after each read), the generator of fresh identifiers,
    and the answers of the store to the coming calls ([Some e]: the call
    is rejected with [e] and changes nothing; the tape, once empty,
    accepts every call). *)
Record World := {
  database : gmap string Collection;
  time : datetime;
  elapsed : list Z;
  next_oid : ObjectId.t;
  faults : list (option exception)
}.

Definition M (A : Type) : Type := World → result A * World.

#[global] Instance M_ret : MRet M := λ A a w, (Ok a, w).

#[global] Instance M_bind : MBind M := λ A B f m w,
  match m w with
  | (Ok a, w') => f a w'
  | (Raise e, w') => (Raise e, w')
  end.

Definition raise {A} (e : exception) : M A := λ w, (Raise e, w).

Definition set_database (d : gmap string Collection) (w : World) : World :=
  {| database := d; time := time w; elapsed := elapsed w;
     next_oid := next_oid w; faults := faults w |}.

Definition set_faults (fs : list (option exception)) (w : World) : World :=
  {| database := database w; time := time w; elapsed := elapsed w;
     next_oid := next_oid w; faults := fs |}.

(** The world once the clock has been read. *)
Definition tick (w : World) : World :=
  {| database := database w;
     time := time w + default 0 (head (elapsed w));
     elapsed := tail (elapsed w);
     next_oid := next_oid w; faults := faults w |}.

(** [datetime.now()] *)
Definition datetime_now : M datetime := λ w, (Ok (time w), tick w).

(** The world once an identifier has been generated. *)
Definition generated (w : World) : World :=
  {| database := database w; time := time w; elapsed := elapsed w;
     next_oid := (next_oid w + 1)%N; faults := faults w |}.

(** [ObjectId()] *)
Definition new_oid : M ObjectId.t := λ w, (Ok (next_oid w), generated w).

(** ** The store: calls *)

Definition empty_collection : Collection := {| docs := []; indexes := [] |}.

(** [db[name]] *)
Definition coll (d : gmap string Collection) (name : string) : Collection :=
  default empty_collection (d !! name).

Definition set_docs (name : string) (ds : list (gmap string value))
    (d : gmap string Collection) : gmap string Collection :=
  <[name := {| docs := ds; indexes := indexes (coll d name) |}]> d.

Definition set_indexes (name : string) (ixs : list IndexModel)
    (d : gmap string Collection) : gmap string Collection :=
  <[name := {| docs := docs (coll d name); indexes := ixs |}]> d.

(** The store's answer to the [n]-th coming call, and the world once the
    next call has been answered. *)
Definition answer (n : nat) (w : World) : option exception :=
  mjoin (faults w !! n).

Definition next_call (w : World) : World :=
  set_faults (tail (faults w)) w.

(** Every awaited store call first takes the store's answer. *)
Definition store_call {A} (op : M A) : M A := λ w,
  match answer 0 w with
  | Some e => (Raise e, next_call w)
  | None => op (next_call w)
  end.

Definition ids (ds : list (gmap string value)) : list (option value) :=
  (.!! "_id") <$> ds.

Definition append_doc (name : string) (i : value) (doc : gmap string value)
    : M value := λ w,
  let c := coll (database w) name in
  if decide (Some i ∈ ids (docs c)) then (Raise DuplicateKeyError, w)
  else (Ok i, set_database
                (set_docs name (docs c ++ [<["_id" := i]> doc]) (database w)) w).

(** [insert_one(doc)]: the driver gives a document without [_id] a fresh
    one; the primary key rejects an [_id] already in the collection. *)
Definition insert_one (name : string) (doc : gmap string value) : M value :=
  store_call (
    i ← match doc !! "_id" return M value with
        | Some i => mret i
        | None => o ← new_oid; mret (VOid o)
        end;
    append_doc name i doc).

Definition hit (q : list (string * condition)) (doc : gmap string value) : Prop :=
  matches q doc = true.

#[global] Instance hit_dec q doc : Decision (hit q doc).
Proof. unfold hit. apply _. Defined.

(** [update_one(q, {"$set": upd})]: the first document matching [q] gets
    the fields of [upd]; the call answers [matched_count].  The keys of
    [upd] are taken as names of top-level fields: a dotted key, which the
    store follows into an embedded document, is not modelled, and a
    statement about a caller's update is one about keys that are each a
    [field_name]. *)
Definition update_one (name : string) (q : list (string * condition))
    (upd : gmap string value) : M nat :=
  store_call (λ w,
    let c := coll (database w) name in
    match list_find (hit q) (docs c) with
    | Some (i, x) =>
        (Ok 1%nat,
         set_database (set_docs name (<[i := upd ∪ x]> (docs c)) (database w)) w)
    | None => (Ok 0%nat, w)
    end).

(** [update_many(q, {"$set": upd})] *)
Definition update_many (name : string) (q : list (string * condition))
    (upd : gmap string value) : M nat :=
  store_call (λ w,
    let c := coll (database w) name in
    match filter (hit q) (docs c) with
    | [] => (Ok 0%nat, w)
    | hits =>
        (Ok (length hits),
         set_database
           (set_docs name
              ((λ x, if matches q x then upd ∪ x else x) <$> docs c)
              (database w)) w)
    end).

(** [delete_one(q)]: answers [deleted_count]. *)
Definition delete_one (name : string) (q : list (string * condition)) : M nat :=
  store_call (λ w,
    let c := coll (database w) name in
    match list_find (hit q) (docs c) with
    | Some (i, _) =>
        (Ok 1%nat, set_database (set_docs name (delete i (docs c)) (database w)) w)
    | None => (Ok 0%nat, w)
    end).

(** A cursor is a query that has not run yet. *)
Record Cursor := {
  source : string;
  query : list (string * condition);
  order : option (string * direction)
}.

Definition find (name : string) (q : list (string * condition)) : Cursor :=
  {| source := name; query := q; order := None |}.

Definition sort (field : string) (dir : direction) (c : Cursor) : Cursor :=
  {| source := source c; query := query c; order := Some (field, dir) |}.

(** [cursor.to_list(length=None)] *)
Definition to_list (c : Cursor) : M (list (gmap string value)) :=
  store_call (λ w,
    let found := filter (hit (query c)) (docs (coll (database w) (source c))) in
    (Ok match order c with
        | Some (field, dir) => merge_sort (precedes field dir) found
        | None => found
        end, w)).

(** [find_one(q)] *)
Definition find_one (name : string) (q : list (string * condition))
    : M (option (gmap string value)) :=
  store_call (λ w,
    (Ok (snd <$> list_find (hit q) (docs (coll (database w) name))), w)).

#[global] Instance direction_eq_dec : EqDecision direction.
Proof. solve_decision. Defined.

#[global] Instance IndexModel_eq_dec : EqDecision IndexModel.
Proof. solve_decision. Defined.

Definition add_index (ixs : list IndexModel) (ix : IndexModel) : list IndexModel :=
  if decide (ix ∈ ixs) then ixs else ixs ++ [ix].

(** [create_indexes(models)]: an index that exists with the same
    definition is left as it is. *)
Definition create_indexes (name : string) (models : list IndexModel) : M () :=
  store_call (λ w,
    let c := coll (database w) name in
    (Ok (), set_database
              (set_indexes name (foldl add_index (indexes c) models) (database w)) w)).

(** ** domain/models/base.py *)

(** [PyObjectId.validate] *)
Definition PyObjectId_validate (v : value) : option ObjectId.t :=
  match v with
  | VOid o => Some o
  | VStr s => if ObjectId.is_valid s then ObjectId.of_str s else None
  | _ => None
  end.

(** Validation of a field of a declared type.  A value of another type
    is a validation error: the coercions of pydantic are not modelled. *)
Definition as_date (v : value) : option datetime :=
  match v with VDate t => Some t | _ => None end.
Definition as_str (v : value) : option string :=
  match v with VStr s => Some s | _ => None end.
Definition as_bool (v : value) : option bool :=
  match v with VBool b => Some b | _ => None end.
Definition as_int (v : value) : option Z :=
  match v with VInt n => Some n | _ => None end.
Definition as_float (v : value) : option float :=
  match v with VFloat x => Some x | _ => None end.
Definition as_dict (v : value) : option (list (string * value)) :=
  match v with VDict kvs => Some kvs | _ => None end.
Definition as_floats (v : value) : option (list (string * float)) :=
  match v with
  | VDict kvs => mapM (M := option) (λ kv, (kv.1,.) <$> as_float kv.2) kvs
  | _ => None
  end.

Definition check {A} (read : value → option A) (v : value) : M A :=
  match read v with
  | Some a => mret a
  | None => raise ValidationError
  end.

(** [Field(...)]: the field is required. *)
Definition required {A} (read : value → option A)
    (kwargs : gmap string value) (field : string) : M A :=
  match kwargs !! field with
  | Some v => check read v
  | None => raise ValidationError
  end.

(** [Field(None)] *)
Definition optional {A} (read : value → option A)
    (kwargs : gmap string value) (field : string) : M (option A) :=
  match kwargs !! field with
  | Some v => a ← check read v; mret (Some a)
  | None => mret None
  end.

(** [Field(default=...)] and [Field(default_factory=...)] *)
Definition defaulted {A} (read : value → option A) (dflt : M A)
    (kwargs : gmap string value) (field : string) : M A :=
  match kwargs !! field with
  | Some v => check read v
  | None => dflt
  end.

(** [id: PyObjectId | None = Field(default_factory=PyObjectId, alias="_id")] *)
Definition id_field (kwargs : gmap string value) : M (option ObjectId.t) :=
  o ← defaulted PyObjectId_validate new_oid kwargs "_id"; mret (Some o).

(** An unset optional field is left out of the document
    ([exclude_none=True]). *)
Definition set_opt (field : string) (v : option value)
    (doc : gmap string value) : gmap string value :=
  match v with
  | Some x => <[field := x]> doc
  | None => doc
  end.

(** What [crud.py] and [db.py] use of an entity class: its collection
    ([Config.collection]), its constructor (which validates its keyword arguments) and [.dict(by_alias=True, exclude_none=True)]. *)
Class MongoBaseModel (T : Type) := {
  collection : string;
  init : gmap string value → M T;
  dict : T → gmap string value
}.

(** ** domain/models/machine.py *)

Module Machine.

Record t := {
  id : option ObjectId.t;
  machine_id : string;
  first_seen : datetime;
  last_seen : datetime
}.

Definition init (kwargs : gmap string value) : M t :=
  i ← id_field kwargs;
  m ← required as_str kwargs "machine_id";
  f ← defaulted as_date datetime_now kwargs "first_seen";
  l ← defaulted as_date datetime_now kwargs "last_seen";
  mret {| id := i; machine_id := m; first_seen := f; last_seen := l |}.

Definition dict (m : t) : gmap string value :=
  set_opt "_id" (VOid <$> id m)
    (<["machine_id" := VStr (machine_id m)]>
       (<["first_seen" := VDate (first_seen m)]>
          {["last_seen" := VDate (last_seen m)]})).

#[global] Instance model : MongoBaseModel t :=
  Build_MongoBaseModel t "machines" init dict.

End Machine.

(** ** domain/models/failure.py *)

Module Failure.

Record t := {
  id : option ObjectId.t;
  start_time : datetime;
  end_time : option datetime;
  is_active : bool;
  machine_id : ObjectId.t
}.

Definition init (kwargs : gmap string value) : M t :=
  i ← id_field kwargs;
  s ← required as_date kwargs "start_time";
  e ← optional as_date kwargs "end_time";
  a ← defaulted as_bool (mret true) kwargs "is_active";
  m ← required PyObjectId_validate kwargs "machine_id";
  mret {| id := i; start_time := s; end_time := e; is_active := a;
          machine_id := m |}.

Definition dict (f : t) : gmap string value :=
  set_opt "_id" (VOid <$> id f)
    (<["start_time" := VDate (start_time f)]>
       (set_opt "end_time" (VDate <$> end_time f)
          (<["is_active" := VBool (is_active f)]>
             {["machine_id" := VOid (machine_id f)]}))).

#[global] Instance model : MongoBaseModel t :=
  Build_MongoBaseModel t "failures" init dict.

End Failure.

(** ** domain/models/reading.py *)

Module SensorReading.

Record t := {
  id : option ObjectId.t;
  timestamp : datetime;
  values : list (string * float);
  machine_id : ObjectId.t;
  failure_id : option ObjectId.t
}.

Definition init (kwargs : gmap string value) : M t :=
  i ← id_field kwargs;
  ts ← required as_date kwargs "timestamp";
  vs ← required as_floats kwargs "values";
  m ← required PyObjectId_validate kwargs "machine_id";
  f ← optional PyObjectId_validate kwargs "failure_id";
  mret {| id := i; timestamp := ts; values := vs; machine_id := m;
          failure_id := f |}.

Definition dict (r : t) : gmap string value :=
  set_opt "_id" (VOid <$> id r)
    (<["timestamp" := VDate (timestamp r)]>
       (<["values" := VDict ((λ kv, (kv.1, VFloat kv.2)) <$> values r)]>
          (<["machine_id" := VOid (machine_id r)]>
             (set_opt "failure_id" (VOid <$> failure_id r) ∅)))).

#[global] Instance model : MongoBaseModel t :=
  Build_MongoBaseModel t "readings" init dict.

End SensorReading.

(** ** domain/models/prediction.py *)

Module SensorPrediction.

Record t := {
  id : option ObjectId.t;
  cluster_id : Z;
  model_version : string;
  confidence_score : option float;
  prediction_time : datetime;
  mlflow_run_id : option string;
  model_name : string;
  reading_id : ObjectId.t
}.

Definition init (kwargs : gmap string value) : M t :=
  i ← id_field kwargs;
  c ← required as_int kwargs "cluster_id";
  v ← required as_str kwargs "model_version";
  s ← optional as_float kwargs "confidence_score";
  p ← defaulted as_date datetime_now kwargs "prediction_time";
  r ← optional as_str kwargs "mlflow_run_id";
  n ← defaulted as_str (mret "sensor_failure_clustering") kwargs "model_name";
  rd ← required PyObjectId_validate kwargs "reading_id";
  mret {| id := i; cluster_id := c; model_version := v; confidence_score := s;
          prediction_time := p; mlflow_run_id := r; model_name := n;
          reading_id := rd |}.

Definition dict (p : t) : gmap string value :=
  set_opt "_id" (VOid <$> id p)
    (<["cluster_id" := VInt (cluster_id p)]>
       (<["model_version" := VStr (model_version p)]>
          (set_opt "confidence_score" (VFloat <$> confidence_score p)
             (<["prediction_time" := VDate (prediction_time p)]>
                (set_opt "mlflow_run_id" (VStr <$> mlflow_run_id p)
                   (<["model_name" := VStr (model_name p)]>
                      {["reading_id" := VOid (reading_id p)]})))))).

#[global] Instance model : MongoBaseModel t :=
  Build_MongoBaseModel t "predictions" init dict.

End SensorPrediction.

(** ** domain/models/cluster.py *)

Module Cluster.

Record t := {
  id : option ObjectId.t;
  mlflow_run_id : string;
  mlflow_model_version : Z;
  created_at : datetime;
  is_active : bool;
  n_clusters : Z;
  silhouette_score : float;
  cluster_profiles : list (string * value)
}.

Definition init (kwargs : gmap string value) : M t :=
  i ← id_field kwargs;
  r ← required as_str kwargs "mlflow_run_id";
  v ← required as_int kwargs "mlflow_model_version";
  c ← defaulted as_date datetime_now kwargs "created_at";
  a ← defaulted as_bool (mret false) kwargs "is_active";
  n ← required as_int kwargs "n_clusters";
  s ← required as_float kwargs "silhouette_score";
  p ← required as_dict kwargs "cluster_profiles";
  mret {| id := i; mlflow_run_id := r; mlflow_model_version := v;
          created_at := c; is_active := a; n_clusters := n;
          silhouette_score := s; cluster_profiles := p |}.

Definition dict (c : t) : gmap string value :=
  set_opt "_id" (VOid <$> id c)
    (<["mlflow_run_id" := VStr (mlflow_run_id c)]>
       (<["mlflow_model_version" := VInt (mlflow_model_version c)]>
          (<["created_at" := VDate (created_at c)]>
             (<["is_active" := VBool (is_active c)]>
                (<["n_clusters" := VInt (n_clusters c)]>
                   (<["silhouette_score" := VFloat (silhouette_score c)]>
                      {["cluster_profiles" := VDict (cluster_profiles c)]})))))).

#[global] Instance model : MongoBaseModel t :=
  Build_MongoBaseModel t "clusters" init dict.

End Cluster.

(** ** domain/models/drift.py *)

Module DriftEvent.

Record t := {
  id : option ObjectId.t;
  detection_time : datetime;
  drift_score : float;
  reference_distribution : list (string * value);
  current_distribution : list (string * value)
}.

Definition init (kwargs : gmap string value) : M t :=
  i ← id_field kwargs;
  d ← defaulted as_date datetime_now kwargs "detection_time";
  s ← required as_float kwargs "drift_score";
  r ← required as_dict kwargs "reference_distribution";
  c ← required as_dict kwargs "current_distribution";
  mret {| id := i; detection_time := d; drift_score := s;
          reference_distribution := r; current_distribution := c |}.

Definition dict (d : t) : gmap string value :=
  set_opt "_id" (VOid <$> id d)
    (<["detection_time" := VDate (detection_time d)]>
       (<["drift_score" := VFloat (drift_score d)]>
          (<["reference_distribution" := VDict (reference_distribution d)]>
             {["current_distribution" := VDict (current_distribution d)]}))).

#[global] Instance model : MongoBaseModel t :=
  Build_MongoBaseModel t "drift" init dict.

End DriftEvent.

(** ** domain/models/version.py *)

Module ModelVersion.

Record t := {
  id : option ObjectId.t;
  version : string;
  run_id : string;
  created_at : datetime;
  is_processed : bool
}.

Definition init (kwargs : gmap string value) : M t :=
  i ← id_field kwargs;
  v ← required as_str kwargs "version";
  r ← required as_str kwargs "run_id";
  c ← defaulted as_date datetime_now kwargs "created_at";
  p ← defaulted as_bool (mret false) kwargs "is_processed";
  mret {| id := i; version := v; run_id := r; created_at := c;
          is_processed := p |}.

Definition dict (v : t) : gmap string value :=
  set_opt "_id" (VOid <$> id v)
    (<["version" := VStr (version v)]>
       (<["run_id" := VStr (run_id v)]>
          (<["created_at" := VDate (created_at v)]>
             {["is_processed" := VBool (is_processed v)]}))).

#[global] Instance model : MongoBaseModel t :=
  Build_MongoBaseModel t "versions" init dict.

End ModelVersion.

(** ** domain/utils/crud.py *)

Definition create_document {T} `{MongoBaseModel T} (document : T) : M value :=
  insert_one (collection (T := T)) (dict document).

Definition by_id (i : id_arg) : list (string * condition) :=
  [("_id", Equals (id_value i))].

Definition update_document (name : string) (doc_id : id_arg)
    (update_data : gmap string value) : M bool :=
  let doc_id := normalize doc_id in
  matched_count ← update_one name (by_id doc_id) update_data;
  mret (0 <? matched_count)%nat.

Definition delete_document (name : string) (doc_id : id_arg) : M bool :=
  let doc_id := normalize doc_id in
  deleted_count ← delete_one name (by_id doc_id);
  mret (0 <? deleted_count)%nat.

Definition create_machine (machine_id : string) : M value :=
  first ← datetime_now;
  last ← datetime_now;
  machine ← Machine.init
    (<["machine_id" := VStr machine_id]>
       (<["first_seen" := VDate first]> {["last_seen" := VDate last]}));
  create_document machine.

Definition update_machine_last_seen (machine_id : id_arg) : M bool :=
  let machine_id := normalize machine_id in
  now ← datetime_now;
  matched_count ← update_one (collection (T := Machine.t)) (by_id machine_id)
                    {["last_seen" := VDate now]};
  mret (0 <? matched_count)%nat.

(** [x or datetime.now()]: a datetime is never falsy. *)
Definition or_now (x : option datetime) : M datetime :=
  match x with
  | Some t => mret t
  | None => datetime_now
  end.

Definition create_sensor_reading (machine_id : id_arg)
    (values : list (string * float)) (timestamp : option datetime)
    (failure_id : option id_arg) : M value :=
  let machine_id := normalize machine_id in
  let failure_id := normalize <$> failure_id in
  ts ← or_now timestamp;
  reading ← SensorReading.init
    (<["timestamp" := VDate ts]>
       (<["values" := VDict ((λ kv, (kv.1, VFloat kv.2)) <$> values)]>
          (<["machine_id" := id_value machine_id]>
             (set_opt "failure_id" (id_value <$> failure_id) ∅))));
  reading_id ← create_document reading;
  _ ← update_machine_last_seen machine_id;
  mret reading_id.

Definition create_failure (machine_id : id_arg) (start_time : option datetime)
    : M value :=
  let machine_id := normalize machine_id in
  st ← or_now start_time;
  failure ← Failure.init
    (<["start_time" := VDate st]>
       (<["is_active" := VBool true]> {["machine_id" := id_value machine_id]}));
  create_document failure.

Definition resolve_failure (failure_id : id_arg) (end_time : option datetime)
    : M bool :=
  let failure_id := normalize failure_id in
  et ← or_now end_time;
  matched_count ← update_one (collection (T := Failure.t))
                    [("_id", Equals (id_value failure_id));
                     ("is_active", Equals (VBool true))]
                    (<["end_time" := VDate et]> {["is_active" := VBool false]});
  mret (0 <? matched_count)%nat.

Definition create_prediction (reading_id : id_arg) (cluster_id : Z)
    (model_version : string) (confidence_score : option float)
    (mlflow_run_id : option string) (model_name : string) : M value :=
  let reading_id := normalize reading_id in
  now ← datetime_now;
  prediction ← SensorPrediction.init
    (<["cluster_id" := VInt cluster_id]>
       (<["model_version" := VStr model_version]>
          (set_opt "confidence_score" (VFloat <$> confidence_score)
             (<["prediction_time" := VDate now]>
                (set_opt "mlflow_run_id" (VStr <$> mlflow_run_id)
                   (<["model_name" := VStr model_name]>
                      {["reading_id" := id_value reading_id]}))))));
  create_document prediction.

Definition create_cluster_model (mlflow_run_id : string)
    (mlflow_model_version n_clusters : Z) (silhouette_score : float)
    (cluster_profiles : list (string * value)) (is_active : bool) : M value :=
  _ ← (if is_active
       then update_many (collection (T := Cluster.t))
              [("is_active", Equals (VBool true))]
              {["is_active" := VBool false]}
       else mret 0%nat);
  now ← datetime_now;
  cluster ← Cluster.init
    (<["mlflow_run_id" := VStr mlflow_run_id]>
       (<["mlflow_model_version" := VInt mlflow_model_version]>
          (<["created_at" := VDate now]>
             (<["is_active" := VBool is_active]>
                (<["n_clusters" := VInt n_clusters]>
                   (<["silhouette_score" := VFloat silhouette_score]>
                      {["cluster_profiles" := VDict cluster_profiles]}))))));
  create_document cluster.

Definition create_drift_event (drift_score : float)
    (reference_distribution current_distribution : list (string * value))
    : M value :=
  now ← datetime_now;
  drift ← DriftEvent.init
    (<["detection_time" := VDate now]>
       (<["drift_score" := VFloat drift_score]>
          (<["reference_distribution" := VDict reference_distribution]>
             {["current_distribution" := VDict current_distribution]})));
  create_document drift.

Definition create_model_version (version run_id : string) (is_processed : bool)
    : M value :=
  now ← datetime_now;
  model_version ← ModelVersion.init
    (<["version" := VStr version]>
       (<["run_id" := VStr run_id]>
          (<["created_at" := VDate now]>
             {["is_processed" := VBool is_processed]})));
  create_document model_version.

Definition mark_model_version_processed (version_id : id_arg) : M bool :=
  let version_id := normalize version_id in
  matched_count ← update_one (collection (T := ModelVersion.t)) (by_id version_id)
                    {["is_processed" := VBool true]};
  mret (0 <? matched_count)%nat.

(** ** domain/utils/db.py *)

Definition IndexModel_ (ks : list (string * direction)) : IndexModel :=
  {| keys := ks; unique := false |}.

Definition IndexModel_unique (ks : list (string * direction)) : IndexModel :=
  {| keys := ks; unique := true |}.

(** The index definitions [init_db] asks for, collection by collection. *)
Definition machines_indexes : list IndexModel :=
  [IndexModel_unique [("machine_id", ASCENDING)];
   IndexModel_ [("last_seen", DESCENDING)]].

Definition failures_indexes : list IndexModel :=
  [IndexModel_ [("machine_id", ASCENDING)];
   IndexModel_ [("start_time", DESCENDING)];
   IndexModel_ [("is_active", ASCENDING)]].

Definition readings_indexes : list IndexModel :=
  [IndexModel_ [("machine_id", ASCENDING)];
   IndexModel_ [("timestamp", DESCENDING)];
   IndexModel_ [("failure_id", ASCENDING)]].

Definition predictions_indexes : list IndexModel :=
  [IndexModel_ [("reading_id", ASCENDING)];
   IndexModel_ [("prediction_time", DESCENDING)];
   IndexModel_unique [("reading_id", ASCENDING); ("model_version", ASCENDING)]].

Definition clusters_indexes : list IndexModel :=
  [IndexModel_unique [("mlflow_run_id", ASCENDING)];
   IndexModel_ [("created_at", DESCENDING)];
   IndexModel_ [("is_active", ASCENDING)]].

Definition drift_indexes : list IndexModel :=
  [IndexModel_ [("detection_time", DESCENDING)]].

Definition versions_indexes : list IndexModel :=
  [IndexModel_ [("version", ASCENDING)];
   IndexModel_ [("created_at", DESCENDING)];
   IndexModel_ [("is_processed", ASCENDING)]].

(** [init_db], on the database the client is opened on. *)
Definition init_db : M () :=
  _ ← create_indexes (collection (T := Machine.t)) machines_indexes;
  _ ← create_indexes (collection (T := Failure.t)) failures_indexes;
  _ ← create_indexes (collection (T := SensorReading.t)) readings_indexes;
  _ ← create_indexes (collection (T := SensorPrediction.t)) predictions_indexes;
  _ ← create_indexes (collection (T := Cluster.t)) clusters_indexes;
  _ ← create_indexes (collection (T := DriftEvent.t)) drift_indexes;
  create_indexes (collection (T := ModelVersion.t)) versions_indexes.

Definition get_document_by_id {T} `{MongoBaseModel T} (name : string)
    (doc_id : id_arg) : M (option T) :=
  let doc_id := normalize doc_id in
  doc ← find_one name (by_id doc_id);
  match doc with
  | Some d => x ← init (T := T) d; mret (Some x)
  | None => mret None
  end.

Definition get_machine_readings (machine_id : id_arg) : M (list SensorReading.t) :=
  let machine_id := normalize machine_id in
  let cursor := sort "timestamp" DESCENDING
                  (find (collection (T := SensorReading.t))
                     [("machine_id", Equals (id_value machine_id))]) in
  found ← to_list cursor;
  mapM SensorReading.init found.

Definition get_machine_failures (machine_id : id_arg) : M (list Failure.t) :=
  let machine_id := normalize machine_id in
  let cursor := sort "start_time" DESCENDING
                  (find (collection (T := Failure.t))
                     [("machine_id", Equals (id_value machine_id))]) in
  found ← to_list cursor;
  mapM Failure.init found.

Definition get_failure_readings (failure_id : id_arg) : M (list SensorReading.t) :=
  let failure_id := normalize failure_id in
  let cursor := sort "timestamp" DESCENDING
                  (find (collection (T := SensorReading.t))
                     [("failure_id", Equals (id_value failure_id))]) in
  found ← to_list cursor;
  mapM SensorReading.init found.

Definition get_reading_predictions (reading_id : id_arg)
    : M (list SensorPrediction.t) :=
  let reading_id := normalize reading_id in
  let cursor := find (collection (T := SensorPrediction.t))
                  [("reading_id", Equals (id_value reading_id))] in
  found ← to_list cursor;
  mapM SensorPrediction.init found.

Definition get_active_failures : M (list Failure.t) :=
  let cursor := sort "start_time" DESCENDING
                  (find (collection (T := Failure.t))
                     [("is_active", Equals (VBool true))]) in
  found ← to_list cursor;
  mapM Failure.init found.

Definition get_readings_in_timerange (machine_id : id_arg)
    (start_time end_time : value) : M (list SensorReading.t) :=
  let machine_id := normalize machine_id in
  let cursor := sort "timestamp" DESCENDING
                  (find (collection (T := SensorReading.t))
                     [("machine_id", Equals (id_value machine_id));
                      ("timestamp", Compare [(Gte, start_time); (Lte, end_time)])]) in
  found ← to_list cursor;
  mapM SensorReading.init found.


(** ** Vocabulary of the statements *)

(** The documents of a collection, in the store's order. *)
Definition docs_of (name : string) (w : World) : list (gmap string value) :=
  docs (coll (database w) name).

(** [_id] is a primary key. *)
Definition unique_ids (ds : list (gmap string value)) : Prop :=
  NoDup (ids ds).

#[global] Instance unique_ids_dec ds : Decision (unique_ids ds).
Proof. unfold unique_ids. apply _. Defined.

Definition active (d : gmap string value) : Prop :=
  d !! "is_active" = Some (VBool true).

#[global] Instance active_dec d : Decision (active d).
Proof. unfold active. apply _. Defined.

Definition active_count (ds : list (gmap string value)) : nat :=
  length (filter active ds).

(** The store accepts the next [n] calls. *)
Definition accepts (n : nat) (w : World) : Prop :=
  Forall (λ a, a = None) (take n (faults w)).

#[global] Instance accepts_dec n w : Decision (accepts n w).
Proof. unfold accepts. apply _. Defined.

#[global] Instance exception_eq_dec : EqDecision exception.
Proof. solve_decision. Defined.

#[global] Instance result_eq_dec {A} `{EqDecision A} : EqDecision (result A).
Proof. solve_decision. Defined.

#[global] Instance id_arg_eq_dec : EqDecision id_arg.
Proof. solve_decision. Defined.

(** Calls to [resolve_failure] one after another, with what each
    answered. *)
Fixpoint resolve_all (calls : list (id_arg * option datetime)) (w : World)
    : list (id_arg * result bool) * World :=
  match calls with
  | [] => ([], w)
  | (failure_id, end_time) :: calls' =>
      let '(r, w') := resolve_failure failure_id end_time w in
      let '(log, w'') := resolve_all calls' w' in
      ((failure_id, r) :: log, w'')
  end.

(** How many calls of a log moved the failure [i] from active to
    resolved. *)
Definition transitions (i : value) (log : list (id_arg * result bool)) : nat :=
  length (filter (λ c, id_value (normalize c.1) = i ∧ c.2 = Ok true) log).

(** The world once [x or datetime.now()] has been evaluated. *)
Definition clock_read (x : option datetime) (w : World) : World :=
  match x with
  | Some _ => w
  | None => tick w
  end.

(** No document with the identifier [i] is active. *)
Definition settled (i : value) (ds : list (gmap string value)) : Prop :=
  ∀ d, d ∈ ds → d !! "_id" = Some i → ¬ active d.

(** What the deactivation of every active document leaves of a
    document. *)
Definition deactivated (d : gmap string value) : gmap string value :=
  if decide (active d) then <["is_active" := VBool false]> d else d.

(** The same awaited call, [n] times in a row. *)
Fixpoint repeat_call {A} (m : M A) (n : nat) (w : World) : list (result A) * World :=
  match n with
  | O => ([], w)
  | S n' => let '(r, w') := m w in
            let '(rs, w'') := repeat_call m n' w' in (r :: rs, w'')
  end.

Definition exec {A} (m : M A) (w : World) : World := (m w).2.

(** ** Sample worlds *)

(** An empty database, a clock at 1000 and a store that accepts every
    call. *)
Definition empty_world : World :=
  {| database := ∅; time := 1000; elapsed := [5; 7; 11; 13]; next_oid := 1%N;
     faults := [] |}.

Definition oid1 : string := "000000000000000000000001".
Definition oid3 : string := "000000000000000000000003".
Definition oid9 : string := "000000000000000000000009".

(** One machine (identifier 1), one reading of it (2) taken during its one
    open failure (3), one active clustering model (4) and one model
    version (5). *)
Definition sample_world : World :=
  exec (create_model_version "v1" "run-1" false)
    (exec (create_cluster_model "run-1" 1 3 0 [] true)
       (exec (create_failure (Str oid1) (Some 900))
          (exec (create_sensor_reading (Str oid1) [("temperature", 42)] None None)
             (exec (create_machine "M-1") empty_world)))).

(** The sample world with a store that accepts one call and cannot be
    reached for the next. *)
Definition unreachable_world : World :=
  set_faults [None; Some ConnectionFailure] sample_world.



Definition reading_at (i : ObjectId.t) (t : datetime) (m : ObjectId.t)
    : SensorReading.t :=
  {| SensorReading.id := Some i; SensorReading.timestamp := t;
     SensorReading.values := [("temperature", 42)];
     SensorReading.machine_id := m; SensorReading.failure_id := None |}.

(** Three readings of machine 1, stored out of order, and one of
    machine 2. *)
Definition stored_readings : list SensorReading.t :=
  [reading_at 11%N 100 1%N; reading_at 12%N 300 1%N; reading_at 13%N 200 1%N;
   reading_at 14%N 150 2%N].

Definition readings_world : World :=
  set_database
    (set_docs "readings" (SensorReading.dict <$> stored_readings) ∅)
    empty_world.

(** The index definitions enumerated by the specification, read as
    narrowly as its words allow: one index per phrase, the
    "machine-id + time-descending" ones compound. *)
Definition enumerated_indexes (name : string) : list IndexModel :=
  if decide (name = "machines") then
    [IndexModel_unique [("machine_id", ASCENDING)]]
  else if decide (name = "readings") then
    [IndexModel_ [("machine_id", ASCENDING); ("timestamp", DESCENDING)]]
  else if decide (name = "failures") then
    [IndexModel_ [("machine_id", ASCENDING); ("start_time", DESCENDING)];
     IndexModel_ [("is_active", ASCENDING)]]
  else if decide (name = "predictions") then
    [IndexModel_unique [("reading_id", ASCENDING); ("model_version", ASCENDING)]]
  else if decide (name = "clusters") then
    [IndexModel_unique [("mlflow_run_id", ASCENDING)];
     IndexModel_ [("is_active", ASCENDING)]]
  else if decide (name = "drift") then
    [IndexModel_ [("detection_time", DESCENDING)]]
  else if decide (name = "versions") then
    [IndexModel_ [("created_at", DESCENDING)]]
  else [].

(** The same enumeration read as widely as its words allow: the
    "machine-id + time-descending" ones as two indexes each. *)
Definition enumerated_indexes_wide (name : string) : list IndexModel :=
  if decide (name = "readings") then
    [IndexModel_ [("machine_id", ASCENDING)];
     IndexModel_ [("timestamp", DESCENDING)]]
  else if decide (name = "failures") then
    [IndexModel_ [("machine_id", ASCENDING)];
     IndexModel_ [("start_time", DESCENDING)];
     IndexModel_ [("is_active", ASCENDING)]]
  else enumerated_indexes name.

Definition indexes_of (name : string) (w : World) : list IndexModel :=
  indexes (coll (database w) name).

(** The empty database once [init_db] has run. *)
Definition provisioned_world : World := exec init_db empty_world.

(** ** The helpers as operations of the layer *)

(** The helpers for one kind of entity: what [crud.py] offers besides
    its generic [create_document], [update_document], [delete_document]
    and [get_documents], and the lookups and [init_db] of [db.py]. *)
Inductive operation :=
| CreateMachine (machine_id : string)
| UpdateMachineLastSeen (machine_id : id_arg)
| CreateSensorReading (machine_id : id_arg) (values : list (string * float))
    (timestamp : option datetime) (failure_id : option id_arg)
| CreateFailure (machine_id : id_arg) (start_time : option datetime)
| ResolveFailure (failure_id : id_arg) (end_time : option datetime)
| CreatePrediction (reading_id : id_arg) (cluster_id : Z)
    (model_version : string) (confidence_score : option float)
    (mlflow_run_id : option string) (model_name : string)
| CreateClusterModel (mlflow_run_id : string)
    (mlflow_model_version n_clusters : Z) (silhouette_score : float)
    (cluster_profiles : list (string * value)) (is_active : bool)
| CreateDriftEvent (drift_score : float)
    (reference_distribution current_distribution : list (string * value))
| CreateModelVersion (version run_id : string) (is_processed : bool)
| MarkModelVersionProcessed (version_id : id_arg)
| InitDb
| GetMachineReadings (machine_id : id_arg)
| GetMachineFailures (machine_id : id_arg)
| GetFailureReadings (failure_id : id_arg)
| GetReadingPredictions (reading_id : id_arg)
| GetActiveFailures
| GetReadingsInTimerange (machine_id : id_arg) (start_time end_time : value).

Definition perform (op : operation) : World → World :=
  match op with
  | CreateMachine machine_id => exec (create_machine machine_id)
  | UpdateMachineLastSeen machine_id => exec (update_machine_last_seen machine_id)
  | CreateSensorReading machine_id values timestamp failure_id =>
      exec (create_sensor_reading machine_id values timestamp failure_id)
  | CreateFailure machine_id start_time =>
      exec (create_failure machine_id start_time)
  | ResolveFailure failure_id end_time =>
      exec (resolve_failure failure_id end_time)
  | CreatePrediction reading_id cluster_id model_version confidence_score
      mlflow_run_id model_name =>
      exec (create_prediction reading_id cluster_id model_version
              confidence_score mlflow_run_id model_name)
  | CreateClusterModel mlflow_run_id mlflow_model_version n_clusters
      silhouette_score cluster_profiles is_active =>
      exec (create_cluster_model mlflow_run_id mlflow_model_version n_clusters
              silhouette_score cluster_profiles is_active)
  | CreateDriftEvent drift_score reference_distribution current_distribution =>
      exec (create_drift_event drift_score reference_distribution
              current_distribution)
  | CreateModelVersion version run_id is_processed =>
      exec (create_model_version version run_id is_processed)
  | MarkModelVersionProcessed version_id =>
      exec (mark_model_version_processed version_id)
  | InitDb => exec init_db
  | GetMachineReadings machine_id => exec (get_machine_readings machine_id)
  | GetMachineFailures machine_id => exec (get_machine_failures machine_id)
  | GetFailureReadings failure_id => exec (get_failure_readings failure_id)
  | GetReadingPredictions reading_id => exec (get_reading_predictions reading_id)
  | GetActiveFailures => exec get_active_failures
  | GetReadingsInTimerange machine_id start_time end_time =>
      exec (get_readings_in_timerange machine_id start_time end_time)
  end.

Definition perform_all (ops : list operation) (w : World) : World :=
  foldl (λ w op, perform op w) w ops.

(** A failure document is active exactly when it has no end time. *)
Definition consistent (d : gmap string value) : Prop :=
  active d ↔ d !! "end_time" = None.

#[global] Instance consistent_dec d : Decision (consistent d).
Proof. unfold consistent. apply _. Defined.

(** A helper that leaves the documents of a collection as they are. *)
Definition frames (name : string) {A} (m : M A) : Prop :=
  ∀ w, docs_of name (m w).2 = docs_of name w.

(** ** The part of the store's language that is modelled *)

(** The name of a top-level field.  A dotted name is a path into an
    embedded document and a name that starts with a dollar is an
    operator: the model knows neither. *)
Definition field_name (s : string) : bool :=
  negb (existsb (λ c, Ascii.eqb c ".") (list_ascii_of_string s))
  && negb (String.prefix "$" s).

(** Values the store matches as the model does, by equality.  A number
    also matches the equal number of the other numeric type, and an
    embedded document is matched field by field. *)
Definition exact (v : value) : bool :=
  match v with
  | VBool _ | VStr _ | VOid _ | VDate _ => true
  | _ => false
  end.

(** Bounds the store compares as [bson_compare] does. *)
Definition comparable (v : value) : bool :=
  match v with
  | VBool _ | VOid _ | VDate _ => true
  | _ => false
  end.

#[global] Instance operator_eq_dec : EqDecision operator.
Proof. solve_decision. Defined.

(** A condition as a Python dict can hold it and as the model reads it:
    an [exact] value, or operators, at least one and each once, with
    [comparable] bounds. *)
Definition covered_condition (c : condition) : bool :=
  match c with
  | Equals v => exact v
  | Compare ops =>
      negb (bool_decide (ops = []))
      && bool_decide (NoDup ops.*1)
      && forallb (λ ov, comparable ov.2) ops
  end.

(** A query the model reads as the store does: every field named once,
    by a [field_name], with a [covered_condition]. *)
Definition covered_query (q : list (string * condition)) : bool :=
  bool_decide (NoDup q.*1)
  && forallb (λ fc, field_name fc.1 && covered_condition fc.2) q.

(** A query by equality alone.  Without a sort the store answers it in
    its own order, the order of insertion, whichever index it reads; the
    order in which it answers a range is not modelled. *)
Definition by_equality (q : list (string * condition)) : bool :=
  forallb (λ fc, match fc.2 with Equals _ => true | Compare _ => false end) q.

(** Sort keys the model reads as the driver does: every field named once,
    by a [field_name]. *)
Definition covered_sort (keys : list (string * direction)) : bool :=
  bool_decide (NoDup keys.*1) && forallb (λ k, field_name k.1) keys.

(** A field the store orders as [sort_key] does: a missing field, an
    integer, a boolean, an identifier or a date.  A document is
    [sortable_by] keys when each of them names such a field of it. *)
Definition sortable (field : option value) : bool :=
  match field with
  | None | Some (VInt _ | VBool _ | VOid _ | VDate _) => true
  | Some _ => false
  end.

Definition sortable_by (keys : list (string * direction))
    (doc : gmap string value) : bool :=
  forallb (λ k, sortable (doc !! k.1)) keys.

(** ** Further vocabulary and sample data *)

(** A call that raised a validation error without a call to the store:
    the database and the answers to come are as they were. *)
Definition refused {A} (w : World) (rw : result A * World) : Prop :=
  rw.1 = Raise ValidationError ∧ database rw.2 = database w
  ∧ faults rw.2 = faults w.

(** An entity class whose documents are read back as they were written:
    [identifier] is the [id] attribute of the class. *)
Class Stored (T : Type) `{MongoBaseModel T} := {
  identifier : T → option ObjectId.t;
  dict_id : ∀ x : T, dict x !! "_id" = VOid <$> identifier x;
  init_dict : ∀ (x : T) (w : World),
    is_Some (identifier x) → init (dict x) w = (Ok x, w)
}.

Definition failure_at (i : ObjectId.t) (start : datetime)
    (stop : option datetime) (m : ObjectId.t) : Failure.t :=
  {| Failure.id := Some i; Failure.start_time := start;
     Failure.end_time := stop;
     Failure.is_active := match stop with Some _ => false | None => true end;
     Failure.machine_id := m |}.

(** Two failures of machine 1, the older one resolved, and an open one of
    machine 2. *)
Definition stored_failures : list Failure.t :=
  [failure_at 21%N 100 (Some 150) 1%N; failure_at 22%N 300 None 1%N;
   failure_at 23%N 200 None 2%N].

Definition failures_world : World :=
  set_database (set_docs "failures" (Failure.dict <$> stored_failures) ∅)
    empty_world.

Definition prediction_of (i reading : ObjectId.t) (version : string)
    : SensorPrediction.t :=
  {| SensorPrediction.id := Some i; SensorPrediction.cluster_id := 2;
     SensorPrediction.model_version := version;
     SensorPrediction.confidence_score := None;
     SensorPrediction.prediction_time := 400;
     SensorPrediction.mlflow_run_id := Some "run-1";
     SensorPrediction.model_name := "sensor_failure_clustering";
     SensorPrediction.reading_id := reading |}.

(** Two predictions for reading 11, by two versions of the model, and
    one for reading 12. *)
Definition stored_predictions : list SensorPrediction.t :=
  [prediction_of 31%N 11%N "v1"; prediction_of 32%N 12%N "v1";
   prediction_of 33%N 11%N "v2"].

Definition predictions_world : World :=
  set_database
    (set_docs "predictions" (SensorPrediction.dict <$> stored_predictions) ∅)
    empty_world.

(** The readings of the failure 21 among two readings of machine 1. *)
Definition failure_readings : list SensorReading.t :=
  [{| SensorReading.id := Some 41%N; SensorReading.timestamp := 110;
      SensorReading.values := [("temperature", 90)];
      SensorReading.machine_id := 1%N; SensorReading.failure_id := Some 21%N |};
   reading_at 42%N 160 1%N;
   {| SensorReading.id := Some 43%N; SensorReading.timestamp := 140;
      SensorReading.values := [("temperature", 95)];
      SensorReading.machine_id := 1%N; SensorReading.failure_id := Some 21%N |}].

Definition failure_readings_world : World :=
  set_database
    (set_docs "readings" (SensorReading.dict <$> failure_readings) ∅)
    empty_world.

(** A call that raised the error [e] and left the database as it was. *)
Definition surfaces {A} (e : exception) (w : World) (rw : result A * World)
    : Prop :=
  rw.1 = Raise e ∧ database rw.2 = database w.

(** The index definitions [init_db] asks for on a collection. *)
Definition provisioned (name : string) : list IndexModel :=
  if decide (name = "machines") then machines_indexes
  else if decide (name = "failures") then failures_indexes
  else if decide (name = "readings") then readings_indexes
  else if decide (name = "predictions") then predictions_indexes
  else if decide (name = "clusters") then clusters_indexes
  else if decide (name = "drift") then drift_indexes
  else if decide (name = "versions") then versions_indexes
  else [].

(** One drift event on record. *)
Definition stored_drift : list DriftEvent.t :=
  [{| DriftEvent.id := Some 51%N; DriftEvent.detection_time := 500;
      DriftEvent.drift_score := 3;
      DriftEvent.reference_distribution := [("mean", VFloat 1)];
      DriftEvent.current_distribution := [("mean", VFloat 4)] |}].

Definition drift_world : World :=
  set_database (set_docs "drift" (DriftEvent.dict <$> stored_drift) ∅)
    empty_world.

(** *** [get_documents] of crud.py *)

(** [cursor.sort(keys)] with a list of keys: documents are ordered by the
    first key and, where they tie on it, by the keys that follow. *)
Fixpoint precedes_by (keys : list (string * direction))
    (d1 d2 : gmap string value) : Prop :=
  match keys with
  | [] => True
  | (field, dir) :: rest =>
      precedes field dir d1 d2 ∧
      (precedes field dir d2 d1 → precedes_by rest d1 d2)
  end.

#[global] Instance precedes_by_dec keys d1 d2 : Decision (precedes_by keys d1 d2).
Proof.
  induction keys as [|[field dir] rest IH]; simpl; apply _.
Defined.

(** A cursor with the options [get_documents] uses: the keys to sort by
    (none: the order of the store), the number of documents to skip and
    the most to return ([0]: all of them).  Counts are natural numbers:
    the driver refuses a negative one. *)
Record Page := {
  page_source : string;
  page_query : list (string * condition);
  page_sort : list (string * direction);
  page_skip : nat;
  page_limit : nat
}.

Definition find_page (name : string) (q : list (string * condition)) : Page :=
  {| page_source := name; page_query := q; page_sort := []; page_skip := 0;
     page_limit := 0 |}.

Definition sort_page (keys : list (string * direction)) (c : Page) : Page :=
  {| page_source := page_source c; page_query := page_query c;
     page_sort := keys; page_skip := page_skip c;
     page_limit := page_limit c |}.

Definition skip_page (n : nat) (c : Page) : Page :=
  {| page_source := page_source c; page_query := page_query c;
     page_sort := page_sort c; page_skip := n; page_limit := page_limit c |}.

Definition limit_page (n : nat) (c : Page) : Page :=
  {| page_source := page_source c; page_query := page_query c;
     page_sort := page_sort c; page_skip := page_skip c; page_limit := n |}.

(** The store sorts, then skips, then limits, in whatever order the
    options were set. *)
Definition page_to_list (c : Page) : M (list (gmap string value)) :=
  store_call (λ w,
    let found :=
      filter (hit (page_query c)) (docs (coll (database w) (page_source c))) in
    let sorted :=
      match page_sort c with
      | [] => found
      | keys => merge_sort (precedes_by keys) found
      end in
    let skipped := drop (page_skip c) sorted in
    (Ok match page_limit c with
        | O => skipped
        | n => take n skipped
        end, w)).

Definition get_documents {T} `{MongoBaseModel T} (name : string)
    (query : option (list (string * condition)))
    (sort_by : option (list (string * direction))) (limit skip : nat)
    : M (list T) :=
  let query := default [] query in
  let cursor := find_page name query in
  let cursor :=
    match sort_by with
    | Some (key :: keys) => sort_page (key :: keys) cursor
    | _ => cursor
    end in
  let cursor := if (skip =? 0)%nat then cursor else skip_page skip cursor in
  let cursor := if (limit =? 0)%nat then cursor else limit_page limit cursor in
  found ← page_to_list cursor;
  mapM (init (T := T)) found.

(** * Properties *)

(** ** The monad and the store *)

Lemma bind_run {A B} (m : M A) (f : A → M B) (w : World) :
  (m ≫= f) w = match m w with
               | (Ok a, w') => f a w'
               | (Raise e, w') => (Raise e, w')
               end.
Proof. reflexivity. Qed.

Lemma answer_next_call n w : answer n (next_call w) = answer (S n) w.
Proof.
  unfold answer, next_call. simpl. by destruct (faults w).
Qed.

Lemma store_call_accepted {A} (op : M A) w :
  answer 0 w = None → store_call op w = op (next_call w).
Proof. intros H. unfold store_call. by rewrite H. Qed.

Lemma store_call_rejected {A} (op : M A) w e :
  answer 0 w = Some e → store_call op w = (Raise e, next_call w).
Proof. intros H. unfold store_call. by rewrite H. Qed.

Lemma docs_of_set_docs name ds d w :
  docs_of name (set_database (set_docs name ds d) w) = ds.
Proof. unfold docs_of, set_docs, coll. simpl. by rewrite lookup_insert_eq. Qed.

Lemma docs_of_set_docs_ne name name' ds w w' :
  name ≠ name' →
  docs_of name' (set_database (set_docs name ds (database w)) w') = docs_of name' w.
Proof.
  intros Hne. unfold docs_of, set_docs, coll. simpl.
  by rewrite lookup_insert_ne.
Qed.

Lemma normalize_idemp x : normalize (normalize x) = normalize x.
Proof.
  destruct x as [s|o]; [|done]. unfold normalize, ObjectId.is_valid.
  destruct (ObjectId.of_str s) eqn:E; [done|]. by rewrite E.
Qed.

Lemma hit_by_id i d : hit (by_id i) d ↔ d !! "_id" = Some (id_value i).
Proof.
  unfold hit, by_id, matches. simpl. rewrite andb_true_r.
  apply bool_decide_eq_true.
Qed.

Lemma list_find_by_id i ds :
  list_find (hit (by_id i)) ds = list_find (λ d, d !! "_id" = Some (id_value i)) ds.
Proof. apply list_find_ext. intros d. apply hit_by_id. Qed.

Lemma update_one_run name q upd w :
  answer 0 w = None →
  update_one name q upd w =
    match list_find (hit q) (docs_of name w) with
    | Some (k, d) =>
        (Ok 1%nat,
         set_database (set_docs name (<[k := upd ∪ d]> (docs_of name w)) (database w))
           (next_call w))
    | None => (Ok 0%nat, next_call w)
    end.
Proof. intros H. unfold update_one. by rewrite store_call_accepted. Qed.

Lemma update_document_run name doc_id upd w :
  answer 0 w = None →
  update_document name doc_id upd w =
    match list_find (λ d, d !! "_id" = Some (id_value (normalize doc_id)))
            (docs_of name w) with
    | Some (k, d) =>
        (Ok true,
         set_database (set_docs name (<[k := upd ∪ d]> (docs_of name w)) (database w))
           (next_call w))
    | None => (Ok false, next_call w)
    end.
Proof.
  intros H. unfold update_document. rewrite bind_run, update_one_run by done.
  rewrite list_find_by_id. by destruct (list_find _ _) as [[k d]|].
Qed.

(** ** C6: the generic update *)

(** C6.  For an update whose keys are names of top-level fields,
    [update_document] merges the given fields into the document whose
    [_id] is the given identifier and answers [True]; when no document
    has that [_id] it answers [False] and leaves the database as it was.
    In both cases the collection keeps its number of documents: no
    document is ever created. *)
Theorem update_document_merges_or_reports_absent
    (name : string) (doc_id : id_arg) (update_data : gmap string value)
    (w : World) :
  map_Forall (λ field _, field_name field = true) update_data →
  answer 0 w = None →
  let i := id_value (normalize doc_id) in
  let '(found, w') := update_document name doc_id update_data w in
  match list_find (λ d, d !! "_id" = Some i) (docs_of name w) with
  | Some (k, d) =>
      found = Ok true ∧
      docs_of name w' = <[k := update_data ∪ d]> (docs_of name w)
  | None => found = Ok false ∧ database w' = database w
  end ∧
  length (docs_of name w') = length (docs_of name w).
Proof.
  intros _ H i. rewrite update_document_run by done. fold i.
  destruct (list_find _ _) as [[k d]|].
  - rewrite docs_of_set_docs. by rewrite length_insert.
  - done.
Qed.

(** The theorem above on the sample world: the machine is found. *)
Lemma update_document_merges_or_reports_absent_witness :
  map_Forall (λ field _, field_name field = true)
    ({["last_seen" := VDate 2000]} : gmap string value) ∧
  answer 0 sample_world = None ∧
  length (docs_of "machines"
            (exec (update_document "machines" (Str oid1)
                     {["last_seen" := VDate 2000]}) sample_world))
  = length (docs_of "machines" sample_world).
Proof.
  assert (map_Forall (λ field _, field_name field = true)
            ({["last_seen" := VDate 2000]} : gmap string value)) as Hkeys
    by (by apply map_Forall_singleton).
  split_and!; [exact Hkeys|reflexivity|].
  pose proof (update_document_merges_or_reports_absent "machines" (Str oid1)
                {["last_seen" := VDate 2000]} sample_world Hkeys eq_refl) as H.
  unfold exec. simpl in H.
  destruct (update_document _ _ _ _) as [found w']. apply H.
Defined.

(** ** C8: marking a model version processed *)

Lemma accepts_S n w :
  accepts (S n) w ↔ answer 0 w = None ∧ accepts n (next_call w).
Proof.
  unfold accepts, answer, next_call. simpl.
  destruct (faults w) as [|a fs]; simpl.
  - rewrite take_nil. split; [done|]. intros _. constructor.
  - rewrite Forall_cons. by destruct a.
Qed.

Lemma set_docs_same name (w : World) k x :
  docs_of name w !! k = Some x →
  set_docs name (docs_of name w) (database w) = database w.
Proof.
  unfold docs_of, set_docs, coll. intros H.
  destruct (database w !! name) as [c|] eqn:E; simpl in *.
  - apply insert_id. rewrite E. by destruct c.
  - by rewrite lookup_nil in H.
Qed.

Lemma mark_model_version_processed_run version_id w :
  mark_model_version_processed version_id w
  = update_document "versions" version_id {["is_processed" := VBool true]} w.
Proof. reflexivity. Qed.

Lemma mark_model_version_processed_again version_id k d n :
  ∀ w,
    accepts n w →
    list_find (λ x, x !! "_id" = Some (id_value (normalize version_id)))
      (docs_of "versions" w) = Some (k, d) →
    d !! "is_processed" = Some (VBool true) →
    ∃ wn,
      repeat_call (mark_model_version_processed version_id) n w
      = (replicate n (Ok true), wn) ∧
      database wn = database w.
Proof.
  induction n as [|n IH]; intros w Hacc Hfind Hd.
  - by exists w.
  - apply accepts_S in Hacc as [H0 Hacc]. simpl.
    rewrite mark_model_version_processed_run, update_document_run, Hfind by done.
    apply list_find_Some in Hfind as Hk. destruct Hk as (Hk & _ & _).
    assert ({["is_processed" := VBool true]} ∪ d = d) as ->.
    { rewrite <-insert_union_singleton_l. by apply insert_id. }
    rewrite list_insert_id, (set_docs_same _ _ k d) by done.
    destruct (IH (set_database (database w) (next_call w))) as (wn & -> & Hdb);
      [done|done|done|].
    by exists wn.
Qed.

(** C8.  On an existing model version the first call sets [is_processed]
    (and nothing else) and answers [True]; each of the [n] calls that
    follow answers [True] again and leaves the database as it is. *)
Theorem mark_model_version_processed_idempotent
    (version_id : id_arg) (k : nat) (d : gmap string value) (n : nat)
    (w : World) :
  accepts (S n) w →
  list_find (λ x, x !! "_id" = Some (id_value (normalize version_id)))
    (docs_of "versions" w) = Some (k, d) →
  let '(first, w1) := mark_model_version_processed version_id w in
  let '(again, wn) :=
    repeat_call (mark_model_version_processed version_id) n w1 in
  first = Ok true ∧
  docs_of "versions" w1
  = <[k := <["is_processed" := VBool true]> d]> (docs_of "versions" w) ∧
  again = replicate n (Ok true) ∧
  database wn = database w1.
Proof.
  intros [H0 Hacc]%accepts_S Hfind.
  rewrite mark_model_version_processed_run, update_document_run, Hfind by done.
  rewrite <-insert_union_singleton_l.
  apply list_find_Some in Hfind as Hk. destruct Hk as (Hk & Hid & Hfirst).
  set (w1 := set_database _ _).
  assert (docs_of "versions" w1
          = <[k := <["is_processed" := VBool true]> d]> (docs_of "versions" w))
    as Hdocs by apply docs_of_set_docs.
  destruct (mark_model_version_processed_again version_id k
              (<["is_processed" := VBool true]> d) n w1) as (wn & -> & Hdb).
  - done.
  - rewrite Hdocs. apply list_find_Some. split_and!.
    + apply list_lookup_insert_eq. by eapply lookup_lt_Some.
    + by rewrite lookup_insert_ne.
    + intros j y Hj Hlt. rewrite list_lookup_insert_ne in Hj by lia. eauto.
  - apply lookup_insert_eq.
  - done.
Qed.

(** The theorem above on the sample world, for three calls in all. *)
Lemma mark_model_version_processed_idempotent_witness :
  accepts 3 sample_world ∧
  (repeat_call (mark_model_version_processed (Oid 5%N)) 2
     (exec (mark_model_version_processed (Oid 5%N)) sample_world)).1
  = [Ok true; Ok true].
Proof.
  assert (accepts 3 sample_world) as Hacc by (vm_compute; constructor).
  split; [exact Hacc|].
  destruct (list_find (λ x, x !! "_id" = Some (id_value (normalize (Oid 5%N))))
              (docs_of "versions" sample_world)) as [[k d]|] eqn:Hfind;
    [|by vm_compute in Hfind].
  pose proof (mark_model_version_processed_idempotent (Oid 5%N) k d 2
                sample_world Hacc Hfind) as H.
  unfold exec.
  destruct (mark_model_version_processed _ _) as [first w1]. cbn [snd].
  destruct (repeat_call _ _ _) as [again wn]. apply H.
Defined.

(** ** C2: resolving a failure *)

Lemma or_now_run x w : or_now x w = (Ok (default (time w) x), clock_read x w).
Proof. by destruct x. Qed.

Lemma hit_active_with_id i d :
  hit [("_id", Equals i); ("is_active", Equals (VBool true))] d
  ↔ d !! "_id" = Some i ∧ active d.
Proof.
  unfold hit, matches, active. simpl. rewrite andb_true_r, andb_true_iff.
  by rewrite !bool_decide_eq_true.
Qed.

Lemma resolve_failure_run failure_id end_time w :
  resolve_failure failure_id end_time w =
    let w0 := next_call (clock_read end_time w) in
    match answer 0 w with
    | Some e => (Raise e, w0)
    | None =>
        match list_find (λ d, d !! "_id" = Some (id_value (normalize failure_id))
                              ∧ active d) (docs_of "failures" w) with
        | Some (k, d) =>
            (Ok true,
             set_database
               (set_docs "failures"
                  (<[k := <["end_time" := VDate (default (time w) end_time)]>
                            (<["is_active" := VBool false]> d)]>
                     (docs_of "failures" w)) (database w)) w0)
        | None => (Ok false, w0)
        end
    end.
Proof.
  unfold resolve_failure. rewrite bind_run, or_now_run, bind_run.
  assert (answer 0 (clock_read end_time w) = answer 0 w) as Ha
    by by destruct end_time.
  assert (docs_of "failures" (clock_read end_time w) = docs_of "failures" w) as Hd
    by by destruct end_time.
  assert (database (clock_read end_time w) = database w) as Hdb
    by by destruct end_time.
  destruct (answer 0 w) as [e|] eqn:E; simpl.
  - unfold update_one. rewrite (store_call_rejected _ _ e); [done|congruence].
  - rewrite update_one_run by congruence.
    rewrite (list_find_ext _ _ _ (hit_active_with_id _)), Hd, Hdb.
    destruct (list_find _ _) as [[k d]|]; [|done].
    by rewrite <-insert_union_l, <-insert_union_singleton_l.
Qed.

Lemma docs_of_next_call_clock_read name x w :
  docs_of name (next_call (clock_read x w)) = docs_of name w.
Proof. by destruct x. Qed.

Lemma ids_insert_same ds k (d d' : gmap string value) :
  ds !! k = Some d → d' !! "_id" = d !! "_id" → ids (<[k := d']> ds) = ids ds.
Proof.
  intros Hk Hid. unfold ids. rewrite list_fmap_insert. apply list_insert_id.
  rewrite list_lookup_fmap, Hk. simpl. by rewrite Hid.
Qed.

(** What a call leaves in the failures collection: the documents that
    were there, except that one active document may have been resolved. *)
Lemma resolve_failure_effect failure_id end_time w :
  let '(r, w') := resolve_failure failure_id end_time w in
  (r ≠ Ok true ∧ docs_of "failures" w' = docs_of "failures" w) ∨
  (r = Ok true ∧
   ∃ k d, docs_of "failures" w !! k = Some d ∧
          d !! "_id" = Some (id_value (normalize failure_id)) ∧ active d ∧
          docs_of "failures" w'
          = <[k := <["end_time" := VDate (default (time w) end_time)]>
                     (<["is_active" := VBool false]> d)]>
              (docs_of "failures" w)).
Proof.
  rewrite resolve_failure_run. simpl.
  destruct (answer 0 w) as [e|].
  { left. by rewrite docs_of_next_call_clock_read. }
  destruct (list_find _ _) as [[k d]|] eqn:Hfind.
  - right. split; [done|]. exists k, d.
    apply list_find_Some in Hfind as (Hk & [Hid Hact] & _).
    by rewrite docs_of_set_docs.
  - left. by rewrite docs_of_next_call_clock_read.
Qed.

Lemma resolve_failure_unique_ids failure_id end_time w :
  unique_ids (docs_of "failures" w) →
  unique_ids (docs_of "failures" (resolve_failure failure_id end_time w).2).
Proof.
  intros Hu. pose proof (resolve_failure_effect failure_id end_time w) as H.
  destruct (resolve_failure _ _ _) as [r w']. simpl.
  destruct H as [[_ ->]|(_ & k & d & Hk & _ & _ & ->)]; [done|].
  unfold unique_ids. erewrite ids_insert_same; [done..|].
  by rewrite !lookup_insert_ne.
Qed.

Lemma resolve_failure_settled i failure_id end_time w :
  settled i (docs_of "failures" w) →
  settled i (docs_of "failures" (resolve_failure failure_id end_time w).2).
Proof.
  intros Hs. pose proof (resolve_failure_effect failure_id end_time w) as H.
  destruct (resolve_failure _ _ _) as [r w']. simpl.
  destruct H as [[_ ->]|(_ & k & d & Hk & _ & _ & ->)]; [done|].
  intros d0 [j Hj]%list_elem_of_lookup Hid.
  apply list_lookup_insert_Some in Hj as [(-> & <- & _)|[_ Hj]].
  - unfold active. by rewrite lookup_insert_ne, lookup_insert_eq.
  - apply Hs; [|done]. by eapply list_elem_of_lookup_2.
Qed.

Lemma resolve_failure_settled_fails failure_id end_time w :
  settled (id_value (normalize failure_id)) (docs_of "failures" w) →
  (resolve_failure failure_id end_time w).1 ≠ Ok true.
Proof.
  intros Hs. pose proof (resolve_failure_effect failure_id end_time w) as H.
  destruct (resolve_failure _ _ _) as [r w']. simpl.
  destruct H as [[? _]|(_ & k & d & Hk & Hid & Hact & _)]; [done|].
  destruct (Hs d); [by eapply list_elem_of_lookup_2|done..].
Qed.

Lemma resolve_failure_settles failure_id end_time w :
  unique_ids (docs_of "failures" w) →
  (resolve_failure failure_id end_time w).1 = Ok true →
  settled (id_value (normalize failure_id))
    (docs_of "failures" (resolve_failure failure_id end_time w).2).
Proof.
  intros Hu. pose proof (resolve_failure_effect failure_id end_time w) as H.
  destruct (resolve_failure _ _ _) as [r w']. simpl. intros ->.
  destruct H as [[? _]|(_ & k & d & Hk & Hid & Hact & ->)]; [done|].
  intros d0 [j Hj]%list_elem_of_lookup Hid0.
  apply list_lookup_insert_Some in Hj as [(-> & <- & _)|[Hne Hj]].
  - unfold active. by rewrite lookup_insert_ne, lookup_insert_eq.
  - destruct Hne. eapply (NoDup_lookup _ _ _ _ Hu).
    + unfold ids. by rewrite list_lookup_fmap, Hk; simpl; rewrite Hid.
    + unfold ids. by rewrite list_lookup_fmap, Hj; simpl; rewrite Hid0.
Qed.

Lemma transitions_cons i failure_id r log :
  transitions i ((failure_id, r) :: log)
  = ((if decide (id_value (normalize failure_id) = i ∧ r = Ok true)
      then 1 else 0) + transitions i log)%nat.
Proof.
  unfold transitions. rewrite filter_cons. simpl. by case_decide.
Qed.

Lemma transitions_settled i calls :
  ∀ w, settled i (docs_of "failures" w) →
       transitions i (resolve_all calls w).1 = 0%nat.
Proof.
  induction calls as [|[failure_id end_time] calls IH]; intros w Hs; [done|].
  simpl.
  pose proof (resolve_failure_settled i failure_id end_time w Hs) as Hs'.
  pose proof (resolve_failure_settled_fails failure_id end_time w) as Hf.
  destruct (resolve_failure _ _ _) as [r w']. simpl in *.
  specialize (IH w' Hs'). destruct (resolve_all calls w') as [log w''].
  simpl in *. rewrite transitions_cons, IH.
  case_decide as Hd; [|done]. destruct Hd as [<- ->]. by destruct Hf.
Qed.

Lemma transitions_at_most_once i calls :
  ∀ w, unique_ids (docs_of "failures" w) →
       (transitions i (resolve_all calls w).1 ≤ 1)%nat.
Proof.
  induction calls as [|[failure_id end_time] calls IH]; intros w Hu.
  { simpl. unfold transitions. simpl. lia. }
  simpl.
  pose proof (resolve_failure_unique_ids failure_id end_time w Hu) as Hu'.
  pose proof (resolve_failure_settles failure_id end_time w Hu) as Hs.
  destruct (resolve_failure _ _ _) as [r w']. simpl in *.
  specialize (IH w' Hu').
  pose proof (transitions_settled i calls w') as H0.
  destruct (resolve_all calls w') as [log w'']. simpl in *.
  rewrite transitions_cons. case_decide as Hd; [|lia].
  destruct Hd as [<- ->]. rewrite H0; [lia|]. by apply Hs.
Qed.

(** C2.  [resolve_failure] updates the first failure document that has
    the given [_id] and is active: it sets [end_time] (the given time,
    else the clock's) and [is_active = False] and answers [True].  When
    no document has that [_id], or when it is not active any more, the call
    answers [False] and leaves the database as it was.  Hence, identifiers
    being unique, whatever calls are made one after another, at most one
    of them moves a given failure from active to resolved. *)
Theorem resolve_failure_at_most_once
    (failure_id : id_arg) (end_time : option datetime)
    (calls : list (id_arg * option datetime)) (w : World) :
  answer 0 w = None →
  unique_ids (docs_of "failures" w) →
  let i := id_value (normalize failure_id) in
  (let '(resolved, w') := resolve_failure failure_id end_time w in
   match list_find (λ d, d !! "_id" = Some i ∧ active d)
           (docs_of "failures" w) with
   | Some (k, d) =>
       resolved = Ok true ∧
       docs_of "failures" w'
       = <[k := <["end_time" := VDate (default (time w) end_time)]>
                  (<["is_active" := VBool false]> d)]>
           (docs_of "failures" w)
   | None => resolved = Ok false ∧ database w' = database w
   end) ∧
  (transitions i (resolve_all calls w).1 ≤ 1)%nat.
Proof.
  intros Ha Hu i. split; [|by apply transitions_at_most_once].
  rewrite resolve_failure_run, Ha. simpl. fold i.
  destruct (list_find _ _) as [[k d]|].
  - by rewrite docs_of_set_docs.
  - split; [done|]. by destruct end_time.
Qed.

(** The theorem above on the sample world: three calls for its one
    failure. *)
Lemma resolve_failure_at_most_once_witness :
  answer 0 sample_world = None ∧
  unique_ids (docs_of "failures" sample_world) ∧
  (transitions (id_value (normalize (Str oid3)))
     (resolve_all [(Str oid3, None); (Oid 3%N, Some 5000%Z); (Str oid3, None)]
        sample_world).1 ≤ 1)%nat.
Proof.
  assert (unique_ids (docs_of "failures" sample_world)) as Hu
    by (apply (bool_decide_unpack _); vm_compute; exact I).
  split_and!; [reflexivity|exact Hu|].
  pose proof (resolve_failure_at_most_once (Str oid3) None
                [(Str oid3, None); (Oid 3%N, Some 5000%Z); (Str oid3, None)]
                sample_world eq_refl Hu) as H.
  cbv zeta in H. destruct H as [_ H]. exact H.
Defined.

(** ** C3: registering a clustering model *)

Lemma Cluster_init_run mlflow_run_id mlflow_model_version created_at is_active
    n_clusters silhouette_score cluster_profiles w :
  Cluster.init
    (<["mlflow_run_id" := VStr mlflow_run_id]>
       (<["mlflow_model_version" := VInt mlflow_model_version]>
          (<["created_at" := VDate created_at]>
             (<["is_active" := VBool is_active]>
                (<["n_clusters" := VInt n_clusters]>
                   (<["silhouette_score" := VFloat silhouette_score]>
                      {["cluster_profiles" := VDict cluster_profiles]})))))) w
  = (Ok {| Cluster.id := Some (next_oid w);
           Cluster.mlflow_run_id := mlflow_run_id;
           Cluster.mlflow_model_version := mlflow_model_version;
           Cluster.created_at := created_at;
           Cluster.is_active := is_active;
           Cluster.n_clusters := n_clusters;
           Cluster.silhouette_score := silhouette_score;
           Cluster.cluster_profiles := cluster_profiles |}, generated w).
Proof. reflexivity. Qed.

Lemma hit_active d : hit [("is_active", Equals (VBool true))] d ↔ active d.
Proof.
  unfold hit, matches, active. simpl. rewrite andb_true_r.
  apply bool_decide_eq_true.
Qed.

Lemma update_many_run name q upd w :
  answer 0 w = None →
  ∃ D,
    update_many name q upd w
    = (Ok (length (filter (hit q) (docs_of name w))), set_database D (next_call w)) ∧
    docs (coll D name) = (λ x, if matches q x then upd ∪ x else x) <$> docs_of name w ∧
    ∀ name', name' ≠ name → coll D name' = coll (database w) name'.
Proof.
  intros Ha. unfold update_many. rewrite store_call_accepted by done.
  change (docs (coll (database (next_call w)) name)) with (docs_of name w).
  destruct (filter (hit q) (docs_of name w)) as [|x hits] eqn:E.
  - exists (database w). split_and!; [done| |done].
    symmetry. etrans; [|apply list_fmap_id].
    apply list_fmap_ext. intros k d Hk. simpl.
    destruct (matches q d) eqn:Hm; [|done].
    assert (d ∈ filter (hit q) (docs_of name w)) as Hin.
    { apply list_elem_of_filter. split; [done|]. by eapply list_elem_of_lookup_2. }
    rewrite E in Hin. by apply not_elem_of_nil in Hin.
  - eexists. split_and!; [done|..].
    + unfold set_docs, coll. by rewrite lookup_insert_eq.
    + intros name' Hne. unfold set_docs, coll. by rewrite lookup_insert_ne.
Qed.

Lemma insert_one_run name doc i w :
  answer 0 w = None →
  doc !! "_id" = Some i →
  Some i ∉ ids (docs_of name w) →
  insert_one name doc w
  = (Ok i,
     set_database (set_docs name (docs_of name w ++ [doc]) (database w))
       (next_call w)).
Proof.
  intros Ha Hi Hfresh. unfold insert_one.
  rewrite store_call_accepted, Hi, bind_run by done. simpl.
  unfold append_doc.
  change (docs (coll (database (next_call w)) name)) with (docs_of name w).
  rewrite decide_False by done. by rewrite insert_id.
Qed.

Lemma deactivate_all (ds : list (gmap string value)) :
  (λ x, if matches [("is_active", Equals (VBool true))] x
        then {["is_active" := VBool false]} ∪ x else x) <$> ds
  = deactivated <$> ds.
Proof.
  apply list_fmap_ext. intros k d _. unfold deactivated.
  rewrite <-insert_union_singleton_l.
  destruct (matches _ d) eqn:Hm.
  - rewrite decide_True; [done|]. by apply hit_active.
  - rewrite decide_False; [done|]. intros Ha%hit_active.
    unfold hit in Ha. congruence.
Qed.

Lemma ids_deactivated (ds : list (gmap string value)) :
  ids (deactivated <$> ds) = ids ds.
Proof.
  unfold ids. rewrite <-list_fmap_compose. apply list_fmap_ext.
  intros k d _. simpl. unfold deactivated.
  case_decide; [|done]. by rewrite lookup_insert_ne.
Qed.

Lemma active_count_deactivated (ds : list (gmap string value)) :
  active_count (deactivated <$> ds) = 0%nat.
Proof.
  unfold active_count. induction ds as [|d ds IH]; [done|].
  rewrite fmap_cons, filter_cons_False; [done|].
  unfold deactivated, active. case_decide as Ha; [|done].
  by rewrite lookup_insert_eq.
Qed.

Lemma active_count_snoc ds d :
  active_count (ds ++ [d])
  = (active_count ds + if decide (active d) then 1 else 0)%nat.
Proof.
  unfold active_count. rewrite filter_app, length_app. f_equal.
  rewrite filter_cons, filter_nil. by case_decide.
Qed.

(** C3.  Registering a clustering model stores one new document.  When
    the model is marked active, every document of the collection that was
    active is deactivated first, so that the new document is the one
    active document afterwards; when it is not, the documents already
    there are left as they are and the number of active ones does not
    change.  Either way a collection with at most one active document
    still has at most one. *)
Theorem create_cluster_model_single_active
    (mlflow_run_id : string) (mlflow_model_version n_clusters : Z)
    (silhouette_score : float) (cluster_profiles : list (string * value))
    (is_active : bool) (w : World) :
  accepts (if is_active then 2 else 1) w →
  Some (VOid (next_oid w)) ∉ ids (docs_of "clusters" w) →
  let new :=
    Cluster.dict
      {| Cluster.id := Some (next_oid w);
         Cluster.mlflow_run_id := mlflow_run_id;
         Cluster.mlflow_model_version := mlflow_model_version;
         Cluster.created_at := time w;
         Cluster.is_active := is_active;
         Cluster.n_clusters := n_clusters;
         Cluster.silhouette_score := silhouette_score;
         Cluster.cluster_profiles := cluster_profiles |} in
  let '(r, w') :=
    create_cluster_model mlflow_run_id mlflow_model_version n_clusters
      silhouette_score cluster_profiles is_active w in
  r = Ok (VOid (next_oid w)) ∧
  (if is_active
   then docs_of "clusters" w' = (deactivated <$> docs_of "clusters" w) ++ [new] ∧
        active_count (docs_of "clusters" w') = 1%nat
   else docs_of "clusters" w' = docs_of "clusters" w ++ [new] ∧
        active_count (docs_of "clusters" w')
        = active_count (docs_of "clusters" w)) ∧
  ((active_count (docs_of "clusters" w) ≤ 1)%nat →
   (active_count (docs_of "clusters" w') ≤ 1)%nat).
Proof.
  intros Hacc Hfresh new. unfold create_cluster_model.
  destruct is_active.
  - apply accepts_S in Hacc as [Ha0 Hacc]. apply accepts_S in Hacc as [Ha1 _].
    destruct (update_many_run "clusters" [("is_active", Equals (VBool true))]
                {["is_active" := VBool false]} w Ha0) as (D & Hrun & HD & _).
    rewrite deactivate_all in HD.
    rewrite bind_run. simpl collection. rewrite Hrun.
    rewrite bind_run. unfold datetime_now at 1.
    rewrite bind_run, Cluster_init_run.
    unfold create_document. simpl collection.
    set (w2 := generated (tick (set_database D (next_call w)))).
    change (next_oid (tick (set_database D (next_call w)))) with (next_oid w).
    change (time (set_database D (next_call w))) with (time w).
    change (dict _) with new.
    assert (docs_of "clusters" w2 = deactivated <$> docs_of "clusters" w) as Hd2
      by exact HD.
    rewrite (insert_one_run _ _ (VOid (next_oid w)));
      [|done|done|by rewrite Hd2, ids_deactivated].
    rewrite docs_of_set_docs, Hd2.
    assert (active_count ((deactivated <$> docs_of "clusters" w) ++ [new]) = 1%nat)
      as Hone.
    { rewrite active_count_snoc, active_count_deactivated.
      by rewrite decide_True. }
    split_and!; [done..|]. intros _. by rewrite Hone.
  - apply accepts_S in Hacc as [Ha0 _].
    rewrite bind_run. simpl. rewrite bind_run. unfold datetime_now at 1.
    rewrite bind_run, Cluster_init_run.
    unfold create_document. simpl collection.
    change (next_oid (tick w)) with (next_oid w).
    change (dict _) with new.
    rewrite (insert_one_run _ _ (VOid (next_oid w))); [|done..].
    rewrite docs_of_set_docs.
    change (docs_of "clusters" (generated (tick w))) with (docs_of "clusters" w).
    assert (active_count (docs_of "clusters" w ++ [new])
            = active_count (docs_of "clusters" w)) as Hsame.
    { rewrite active_count_snoc. rewrite decide_False; [lia|done]. }
    split_and!; [done..|]. by rewrite Hsame.
Qed.

(** The theorem above on the sample world, whose one clustering model is
    active. *)
Lemma create_cluster_model_single_active_witness :
  accepts 2 sample_world ∧
  (Some (VOid (next_oid sample_world)) ∉ ids (docs_of "clusters" sample_world)) ∧
  active_count
    (docs_of "clusters"
       (exec (create_cluster_model "run-2" 2 4 0 [] true) sample_world)) = 1%nat.
Proof.
  assert (accepts 2 sample_world) as Hacc by (vm_compute; constructor).
  assert (Some (VOid (next_oid sample_world)) ∉ ids (docs_of "clusters" sample_world))
    as Hfresh by (apply (bool_decide_unpack _); vm_compute; exact I).
  split_and!; [exact Hacc|exact Hfresh|].
  pose proof (create_cluster_model_single_active "run-2" 2 4 0 [] true
                sample_world Hacc Hfresh) as H.
  unfold exec. cbv zeta in H.
  destruct (create_cluster_model _ _ _ _ _ _ _) as [r w']. apply H.
Defined.

(** ** C1 and C7: ingesting a reading *)

Lemma as_floats_VDict values :
  as_floats (VDict ((λ kv, (kv.1, VFloat kv.2)) <$> values)) = Some values.
Proof.
  simpl. apply mapM_Some.
  induction values as [|[k x] values IH]; csimpl; by constructor.
Qed.

Lemma SensorReading_dict_lookups r :
  SensorReading.dict r !! "_id" = VOid <$> SensorReading.id r ∧
  SensorReading.dict r !! "timestamp" = Some (VDate (SensorReading.timestamp r)) ∧
  SensorReading.dict r !! "values"
  = Some (VDict ((λ kv, (kv.1, VFloat kv.2)) <$> SensorReading.values r)) ∧
  SensorReading.dict r !! "machine_id" = Some (VOid (SensorReading.machine_id r)) ∧
  SensorReading.dict r !! "failure_id" = VOid <$> SensorReading.failure_id r.
Proof. destruct r as [[i|] ts vs m [f|]]; split_and!; reflexivity. Qed.

Lemma SensorReading_init_run timestamp values (m : value) mo
    (f : option value) fo w :
  PyObjectId_validate m = Some mo →
  option_Forall2 (λ v o, PyObjectId_validate v = Some o) f fo →
  SensorReading.init
    (<["timestamp" := VDate timestamp]>
       (<["values" := VDict ((λ kv, (kv.1, VFloat kv.2)) <$> values)]>
          (<["machine_id" := m]> (set_opt "failure_id" f ∅)))) w
  = (Ok {| SensorReading.id := Some (next_oid w);
           SensorReading.timestamp := timestamp;
           SensorReading.values := values;
           SensorReading.machine_id := mo;
           SensorReading.failure_id := fo |}, generated w).
Proof.
  intros Hm Hf. unfold SensorReading.init.
  set (kwargs := <["timestamp" := _]> _).
  assert (kwargs !! "_id" = None) as H1 by by destruct Hf.
  assert (kwargs !! "timestamp" = Some (VDate timestamp)) as H2 by by destruct Hf.
  assert (kwargs !! "values"
          = Some (VDict ((λ kv, (kv.1, VFloat kv.2)) <$> values))) as H3
    by by destruct Hf.
  assert (kwargs !! "machine_id" = Some m) as H4 by by destruct Hf.
  assert (kwargs !! "failure_id" = f) as H5 by by destruct Hf.
  clearbody kwargs.
  unfold id_field, required, optional, defaulted, check.
  rewrite H1, H2, H3, H4, H5, as_floats_VDict, Hm.
  destruct Hf as [v o Hv|]; [rewrite Hv|]; reflexivity.
Qed.

Lemma create_sensor_reading_run machine_id values timestamp failure_id mo fo w :
  PyObjectId_validate (id_value (normalize machine_id)) = Some mo →
  option_Forall2 (λ y o, PyObjectId_validate (id_value (normalize y)) = Some o)
    failure_id fo →
  answer 0 w = None →
  Some (VOid (next_oid w)) ∉ ids (docs_of "readings" w) →
  let reading :=
    {| SensorReading.id := Some (next_oid w);
       SensorReading.timestamp := default (time w) timestamp;
       SensorReading.values := values;
       SensorReading.machine_id := mo;
       SensorReading.failure_id := fo |} in
  let w1 :=
    set_database
      (set_docs "readings" (docs_of "readings" w ++ [SensorReading.dict reading])
         (database w))
      (next_call (generated (clock_read timestamp w))) in
  create_sensor_reading machine_id values timestamp failure_id w =
    match answer 1 w with
    | Some e => (Raise e, next_call (tick w1))
    | None =>
        match list_find (λ d, d !! "_id" = Some (id_value (normalize machine_id)))
                (docs_of "machines" w) with
        | Some (k, d) =>
            (Ok (VOid (next_oid w)),
             set_database
               (set_docs "machines"
                  (<[k := <["last_seen" := VDate (time (clock_read timestamp w))]> d]>
                     (docs_of "machines" w)) (database w1))
               (next_call (tick w1)))
        | None => (Ok (VOid (next_oid w)), next_call (tick w1))
        end
    end.
Proof.
  intros Hm Hf Ha Hfresh reading w1. unfold create_sensor_reading.
  rewrite bind_run, or_now_run, bind_run.
  rewrite (SensorReading_init_run _ _ _ mo _ fo); [|done|by destruct Hf; constructor].
  assert (next_oid (clock_read timestamp w) = next_oid w) as -> by by destruct timestamp.
  fold reading. rewrite bind_run. unfold create_document. simpl collection.
  change (dict reading) with (SensorReading.dict reading).
  assert (docs_of "readings" (generated (clock_read timestamp w))
          = docs_of "readings" w) as Hd by by destruct timestamp.
  assert (database (generated (clock_read timestamp w)) = database w) as Hdb
    by by destruct timestamp.
  rewrite (insert_one_run _ _ (VOid (next_oid w)));
    [|by destruct timestamp
     |by rewrite (proj1 (SensorReading_dict_lookups reading))
     |by rewrite Hd].
  rewrite Hd, Hdb. fold w1.
  rewrite bind_run. unfold update_machine_last_seen.
  rewrite bind_run. unfold datetime_now at 1. rewrite bind_run.
  simpl collection.
  assert (answer 0 (tick w1) = answer 1 w) as Ha1.
  { unfold w1, answer. destruct timestamp; simpl; by destruct (faults w). }
  assert (time w1 = time (clock_read timestamp w)) as -> by done.
  destruct (answer 1 w) as [e|] eqn:E.
  - unfold update_one. by rewrite (store_call_rejected _ _ e).
  - rewrite update_one_run, list_find_by_id, normalize_idemp by done.
    assert (docs_of "machines" (tick w1) = docs_of "machines" w) as ->.
    { unfold w1. apply docs_of_set_docs_ne; done. }
    destruct (list_find _ _) as [[k d]|]; [|done].
    by rewrite <-insert_union_singleton_l.
Qed.

(** C7.  Once the store has accepted the reading, the reading is in the
    readings collection exactly as it was inserted, whatever becomes of the
    touch of the machine that follows: when the store rejects the touch,
    the error is what the caller gets and the reading stays; when the touch
    is accepted, whether or not it finds the machine, the caller gets
    the identifier of the reading. *)
Theorem reading_survives_failed_touch
    (machine_id : id_arg) (values : list (string * float))
    (timestamp : option datetime) (failure_id : option id_arg)
    (mo : ObjectId.t) (fo : option ObjectId.t) (w : World) :
  PyObjectId_validate (id_value (normalize machine_id)) = Some mo →
  option_Forall2 (λ y o, PyObjectId_validate (id_value (normalize y)) = Some o)
    failure_id fo →
  answer 0 w = None →
  Some (VOid (next_oid w)) ∉ ids (docs_of "readings" w) →
  let reading :=
    {| SensorReading.id := Some (next_oid w);
       SensorReading.timestamp := default (time w) timestamp;
       SensorReading.values := values;
       SensorReading.machine_id := mo;
       SensorReading.failure_id := fo |} in
  let '(r, w') := create_sensor_reading machine_id values timestamp failure_id w in
  docs_of "readings" w' = docs_of "readings" w ++ [SensorReading.dict reading] ∧
  r = match answer 1 w with
      | Some e => Raise e
      | None => Ok (VOid (next_oid w))
      end.
Proof.
  intros Hm Hf Ha Hfresh reading.
  rewrite (create_sensor_reading_run _ _ _ _ mo fo) by done. fold reading.
  set (w1 := set_database (set_docs "readings" _ _) _).
  assert (docs_of "readings" w1
          = docs_of "readings" w ++ [SensorReading.dict reading]) as Hd
    by apply docs_of_set_docs.
  destruct (answer 1 w) as [e|]; [done|].
  destruct (list_find _ _) as [[k d]|]; [|done].
  split; [|done]. rewrite <-Hd. by apply docs_of_set_docs_ne.
Qed.

(** The theorem above on the sample world, with a store that accepts the
    reading and cannot be reached for the touch. *)
Lemma reading_survives_failed_touch_witness :
  PyObjectId_validate (id_value (normalize (Str oid1))) = Some 1%N ∧
  answer 0 unreachable_world = None ∧
  (Some (VOid (next_oid unreachable_world))
   ∉ ids (docs_of "readings" unreachable_world)) ∧
  (create_sensor_reading (Str oid1) [("temperature", 43)] None None
     unreachable_world).1
  = Raise ConnectionFailure ∧
  length (docs_of "readings"
            (exec (create_sensor_reading (Str oid1) [("temperature", 43)] None None)
               unreachable_world))
  = 2%nat.
Proof.
  assert (Some (VOid (next_oid unreachable_world))
          ∉ ids (docs_of "readings" unreachable_world)) as Hfresh
    by (apply (bool_decide_unpack _); vm_compute; exact I).
  split_and!; [reflexivity|reflexivity|exact Hfresh|..];
    pose proof (reading_survives_failed_touch (Str oid1) [("temperature", 43)]
                  None None 1%N None unreachable_world eq_refl (None_Forall2 _)
                  eq_refl Hfresh) as H;
    unfold exec; cbv zeta in H;
    destruct (create_sensor_reading _ _ _ _ _) as [r w']; destruct H as [Hd Hr].
  - exact Hr.
  - cbn [snd]. rewrite Hd. by rewrite length_app.
Defined.

(** C1, as the code has it.  Ingesting a reading stores the reading and
    touches the machine: when a machine document has the given [_id], its
    [last_seen] is set to the time of the touch and nothing else changes in
    the machines collection; when none has, the machines collection is
    left as it is.  No machine document is ever created. *)
Theorem ingest_touches_last_seen_only
    (machine_id : id_arg) (values : list (string * float))
    (timestamp : option datetime) (failure_id : option id_arg)
    (mo : ObjectId.t) (fo : option ObjectId.t) (w : World) :
  PyObjectId_validate (id_value (normalize machine_id)) = Some mo →
  option_Forall2 (λ y o, PyObjectId_validate (id_value (normalize y)) = Some o)
    failure_id fo →
  accepts 2 w →
  Some (VOid (next_oid w)) ∉ ids (docs_of "readings" w) →
  let '(r, w') := create_sensor_reading machine_id values timestamp failure_id w in
  r = Ok (VOid (next_oid w)) ∧
  match list_find (λ d, d !! "_id" = Some (id_value (normalize machine_id)))
          (docs_of "machines" w) with
  | Some (k, d) =>
      docs_of "machines" w'
      = <[k := <["last_seen" := VDate (time (clock_read timestamp w))]> d]>
          (docs_of "machines" w)
  | None => docs_of "machines" w' = docs_of "machines" w
  end ∧
  length (docs_of "machines" w') = length (docs_of "machines" w).
Proof.
  intros Hm Hf [Ha0 [Ha1 _]%accepts_S]%accepts_S Hfresh.
  rewrite answer_next_call in Ha1.
  rewrite (create_sensor_reading_run _ _ _ _ mo fo), Ha1 by done.
  set (w1 := set_database (set_docs "readings" _ _) _).
  assert (docs_of "machines" w1 = docs_of "machines" w) as Hd
    by by apply docs_of_set_docs_ne.
  destruct (list_find _ _) as [[k d]|].
  - rewrite docs_of_set_docs. by rewrite length_insert.
  - change (docs_of "machines" (next_call (tick w1)))
      with (docs_of "machines" w1).
    by rewrite Hd.
Qed.

(** The theorem above on the sample world and its one machine. *)
Lemma ingest_touches_last_seen_only_witness :
  PyObjectId_validate (id_value (normalize (Str oid1))) = Some 1%N ∧
  accepts 2 sample_world ∧
  (Some (VOid (next_oid sample_world)) ∉ ids (docs_of "readings" sample_world)) ∧
  length (docs_of "machines"
            (exec (create_sensor_reading (Str oid1) [("temperature", 43)] None None)
               sample_world))
  = length (docs_of "machines" sample_world).
Proof.
  assert (accepts 2 sample_world) as Hacc by (vm_compute; constructor).
  assert (Some (VOid (next_oid sample_world))
          ∉ ids (docs_of "readings" sample_world)) as Hfresh
    by (apply (bool_decide_unpack _); vm_compute; exact I).
  split_and!; [reflexivity|exact Hacc|exact Hfresh|].
  pose proof (ingest_touches_last_seen_only (Str oid1) [("temperature", 43)]
                None None 1%N None sample_world eq_refl (None_Forall2 _)
                Hacc Hfresh) as H.
  unfold exec.
  destruct (create_sensor_reading _ _ _ _ _) as [r w']. apply H.
Defined.

(** C1, as the specification has it, fails: a reading ingested for a
    machine the store has never seen is stored and no machine document
    is created; with the external identifier of the machine, which is not
    an [ObjectId], the ingestion is refused and nothing is stored. *)
Lemma ingest_unseen_machine_creates_none :
  docs_of "machines" empty_world = [] ∧
  (create_sensor_reading (Str oid1) [("temperature", 42)] None None
     empty_world).1 = Ok (VOid 1%N) ∧
  docs_of "machines"
    (exec (create_sensor_reading (Str oid1) [("temperature", 42)] None None)
       empty_world) = [] ∧
  (create_sensor_reading (Str "M-1") [("temperature", 42)] None None
     empty_world).1 = Raise ValidationError ∧
  database
    (exec (create_sensor_reading (Str "M-1") [("temperature", 42)] None None)
       empty_world) = ∅.
Proof. split_and!; by vm_compute. Qed.

(** A machine document is created by [create_machine] alone, with the
    clock read twice: once for [first_seen], once for [last_seen]. *)
Lemma create_machine_run machine_id w :
  answer 0 w = None →
  Some (VOid (next_oid w)) ∉ ids (docs_of "machines" w) →
  let machine :=
    {| Machine.id := Some (next_oid w);
       Machine.machine_id := machine_id;
       Machine.first_seen := time w;
       Machine.last_seen := time (tick w) |} in
  create_machine machine_id w
  = (Ok (VOid (next_oid w)),
     set_database
       (set_docs "machines" (docs_of "machines" w ++ [Machine.dict machine])
          (database w))
       (next_call (generated (tick (tick w))))).
Proof.
  intros Ha Hfresh machine. unfold create_machine.
  rewrite bind_run. unfold datetime_now at 1.
  rewrite bind_run. unfold datetime_now at 1.
  rewrite bind_run.
  change (Machine.init _ (tick (tick w))) with (Ok machine, generated (tick (tick w))).
  unfold create_document. simpl collection.
  by rewrite (insert_one_run _ _ (VOid (next_oid w))).
Qed.

(** ** C4: identifiers that are not valid *)

Lemma normalize_invalid s : ObjectId.is_valid s = false → normalize (Str s) = Str s.
Proof. intros H. simpl. by rewrite H. Qed.


Lemma delete_document_run name doc_id w :
  answer 0 w = None →
  delete_document name doc_id w =
    match list_find (λ d, d !! "_id" = Some (id_value (normalize doc_id)))
            (docs_of name w) with
    | Some (k, _) =>
        (Ok true,
         set_database (set_docs name (delete k (docs_of name w)) (database w))
           (next_call w))
    | None => (Ok false, next_call w)
    end.
Proof.
  intros H. unfold delete_document, delete_one.
  rewrite bind_run, store_call_accepted by done.
  change (docs (coll (database (next_call w)) name)) with (docs_of name w).
  rewrite list_find_by_id. by destruct (list_find _ _) as [[k d]|].
Qed.

Lemma update_machine_last_seen_run machine_id w :
  answer 0 w = None →
  update_machine_last_seen machine_id w =
    match list_find (λ d, d !! "_id" = Some (id_value (normalize machine_id)))
            (docs_of "machines" w) with
    | Some (k, d) =>
        (Ok true,
         set_database
           (set_docs "machines"
              (<[k := <["last_seen" := VDate (time w)]> d]> (docs_of "machines" w))
              (database w))
           (next_call (tick w)))
    | None => (Ok false, next_call (tick w))
    end.
Proof.
  intros H. unfold update_machine_last_seen.
  rewrite bind_run. unfold datetime_now at 1.
  rewrite bind_run, update_one_run, list_find_by_id by done.
  change (docs_of _ (tick w)) with (docs_of "machines" w).
  destruct (list_find _ _) as [[k d]|]; [|done].
  by rewrite <-insert_union_singleton_l.
Qed.





(** ** C5: the readings of a machine in a time range *)

#[global] Instance key_le_trans : Transitive key_le.
Proof. intros a b c. unfold key_le. lia. Qed.

#[global] Instance key_le_total : Total key_le.
Proof. intros a b. unfold key_le. lia. Qed.

#[global] Instance precedes_trans field dir : Transitive (precedes field dir).
Proof.
  intros a b c. unfold precedes. destruct dir; intros H1 H2.
  - by etrans.
  - by etrans.
Qed.

#[global] Instance precedes_total field dir : Total (precedes field dir).
Proof. intros a b. unfold precedes. destruct dir; apply total, _. Qed.

Lemma filter_fmap {A B} (f : A → B) (P : B → Prop) `{∀ y, Decision (P y)}
    (l : list A) :
  filter P (f <$> l) = f <$> filter (P ∘ f) l.
Proof.
  induction l as [|x l IH]; [done|].
  rewrite fmap_cons, !filter_cons, IH. simpl. by case_decide.
Qed.

Lemma StronglySorted_fmap_inv {A B} (f : A → B) (R1 : relation A)
    (R2 : relation B) (l : list A) :
  (∀ x y, R2 (f x) (f y) → R1 x y) →
  StronglySorted R2 (f <$> l) → StronglySorted R1 l.
Proof.
  intros HR. induction l as [|x l IH]; [constructor|].
  rewrite fmap_cons, !StronglySorted_cons, Forall_fmap.
  intros [Hall Hs]. split; [|by apply IH].
  eapply Forall_impl; [done|]. simpl. auto.
Qed.

(** A stored reading is read back as it was written. *)
Lemma SensorReading_init_dict r w :
  is_Some (SensorReading.id r) →
  SensorReading.init (SensorReading.dict r) w = (Ok r, w).
Proof.
  intros [i Hi].
  destruct (SensorReading_dict_lookups r) as (H1 & H2 & H3 & H4 & H5).
  unfold SensorReading.init, id_field, required, optional, defaulted, check.
  rewrite H1, H2, H3, H4, H5, as_floats_VDict, Hi.
  destruct r as [i' ts vs m [f|]]; simpl in *; by subst.
Qed.

Lemma mapM_SensorReading_init rs w :
  Forall (λ r, is_Some (SensorReading.id r)) rs →
  mapM SensorReading.init (SensorReading.dict <$> rs) w = (Ok rs, w).
Proof.
  induction 1 as [|r rs Hr _ IH]; [done|].
  rewrite fmap_cons. simpl. rewrite bind_run, SensorReading_init_dict by done.
  by rewrite bind_run, IH.
Qed.

Lemma hit_timerange (m : value) t0 t1 r :
  hit [("machine_id", Equals m);
       ("timestamp", Compare [(Gte, VDate t0); (Lte, VDate t1)])]
    (SensorReading.dict r)
  ↔ VOid (SensorReading.machine_id r) = m
    ∧ t0 ≤ SensorReading.timestamp r ≤ t1.
Proof.
  destruct (SensorReading_dict_lookups r) as (_ & H2 & _ & H4 & _).
  unfold hit, matches. simpl. rewrite H2, H4. simpl.
  rewrite !andb_true_r, !andb_true_iff, bool_decide_eq_true.
  unfold holds. simpl.
  destruct (Z.compare_spec (SensorReading.timestamp r) t0),
    (Z.compare_spec (SensorReading.timestamp r) t1);
    split; intros [Hm [? ?]]; (try done); (try lia);
      (split_and!; [congruence|first [done|lia]..]).
Qed.

Lemma precedes_timestamp_desc a b :
  precedes "timestamp" DESCENDING (SensorReading.dict a) (SensorReading.dict b)
  → SensorReading.timestamp b ≤ SensorReading.timestamp a.
Proof.
  destruct (SensorReading_dict_lookups a) as (_ & Ha & _).
  destruct (SensorReading_dict_lookups b) as (_ & Hb & _).
  unfold precedes, key_le. rewrite Ha, Hb. simpl. lia.
Qed.

(** C5.  On a readings collection that holds stored readings,
    [get_readings_in_timerange] answers the readings whose machine is the
    given one and whose timestamp lies between the two bounds, both
    included: all of them, each as often as it is stored, and no other,
    the newest first. *)
Theorem get_readings_in_timerange_exact
    (machine_id : id_arg) (t0 t1 : datetime)
    (stored : list SensorReading.t) (w : World) :
  answer 0 w = None →
  docs_of "readings" w = SensorReading.dict <$> stored →
  Forall (λ r, is_Some (SensorReading.id r)) stored →
  ∃ rs,
    get_readings_in_timerange machine_id (VDate t0) (VDate t1) w
    = (Ok rs, next_call w) ∧
    rs ≡ₚ filter (λ r, VOid (SensorReading.machine_id r)
                       = id_value (normalize machine_id)
                       ∧ t0 ≤ SensorReading.timestamp r ≤ t1) stored ∧
    StronglySorted
      (λ a b, SensorReading.timestamp b ≤ SensorReading.timestamp a) rs.
Proof.
  intros Ha Hstored Hids.
  unfold get_readings_in_timerange, to_list. simpl collection.
  rewrite bind_run, store_call_accepted by done. simpl.
  change (docs (coll (database w) "readings")) with (docs_of "readings" w).
  rewrite Hstored, filter_fmap.
  set (q := [("machine_id", _); _]).
  set (found := filter (hit q ∘ SensorReading.dict) stored).
  assert (found = filter (λ r, VOid (SensorReading.machine_id r)
                               = id_value (normalize machine_id)
                               ∧ t0 ≤ SensorReading.timestamp r ≤ t1) stored)
    as Hfound.
  { apply list_filter_iff. intros r. apply hit_timerange. }
  pose proof (merge_sort_Permutation (precedes "timestamp" DESCENDING)
                (SensorReading.dict <$> found)) as Hperm.
  pose proof (StronglySorted_merge_sort (precedes "timestamp" DESCENDING)
                (SensorReading.dict <$> found)) as Hsorted.
  destruct (Permutation_map_inv _ _ Hperm) as (rs & Hrs & Hp).
  change (map SensorReading.dict rs) with (SensorReading.dict <$> rs) in Hrs.
  rewrite Hrs in Hsorted |- *.
  exists rs. split_and!.
  - apply mapM_SensorReading_init.
    apply Forall_forall. intros r Hr.
    assert (r ∈ stored) as Hin.
    { rewrite <-Hp in Hr.
      unfold found in Hr. by apply list_elem_of_filter in Hr as [_ ?]. }
    rewrite Forall_forall in Hids. by apply Hids.
  - by rewrite <-Hp, <-Hfound.
  - eapply StronglySorted_fmap_inv; [|done]. apply precedes_timestamp_desc.
Qed.

(** The theorem above on three readings of one machine and one of
    another. *)
Lemma get_readings_in_timerange_exact_witness :
  answer 0 readings_world = None ∧
  docs_of "readings" readings_world = SensorReading.dict <$> stored_readings ∧
  Forall (λ r, is_Some (SensorReading.id r)) stored_readings ∧
  ∃ rs,
    get_readings_in_timerange (Str oid1) (VDate 100) (VDate 250) readings_world
    = (Ok rs, next_call readings_world) ∧
    rs ≡ₚ filter (λ r, VOid (SensorReading.machine_id r)
                       = id_value (normalize (Str oid1))
                       ∧ 100 ≤ SensorReading.timestamp r ≤ 250) stored_readings ∧
    StronglySorted
      (λ a b, SensorReading.timestamp b ≤ SensorReading.timestamp a) rs.
Proof.
  assert (Forall (λ r, is_Some (SensorReading.id r)) stored_readings) as Hids
    by (repeat constructor; by eexists).
  split_and!; [reflexivity|reflexivity|exact Hids|].
  exact (get_readings_in_timerange_exact (Str oid1) 100 250 stored_readings
           readings_world eq_refl eq_refl Hids).
Defined.

(** Both bounds are included, and the newest reading comes first. *)
Lemma get_readings_in_timerange_sample :
  (get_readings_in_timerange (Str oid1) (VDate 100) (VDate 300) readings_world).1
  = Ok [reading_at 12%N 300 1%N; reading_at 13%N 200 1%N;
        reading_at 11%N 100 1%N].
Proof. by vm_compute. Qed.

(** ** C9: the indexes *)

Lemma create_indexes_run name models w :
  answer 0 w = None →
  create_indexes name models w
  = (Ok (),
     set_database
       (set_indexes name (foldl add_index (indexes_of name w) models) (database w))
       (next_call w)).
Proof. intros Ha. unfold create_indexes. by rewrite store_call_accepted. Qed.

Lemma indexes_of_set_indexes name ixs d w :
  indexes_of name (set_database (set_indexes name ixs d) w) = ixs.
Proof. unfold indexes_of, set_indexes, coll. simpl. by rewrite lookup_insert_eq. Qed.

Lemma indexes_of_set_indexes_ne name name' ixs w w' :
  name ≠ name' →
  indexes_of name' (set_database (set_indexes name ixs (database w)) w')
  = indexes_of name' w.
Proof.
  intros Hne. unfold indexes_of, set_indexes, coll. simpl.
  by rewrite lookup_insert_ne.
Qed.

Lemma docs_of_set_indexes name name' ixs w w' :
  docs_of name' (set_database (set_indexes name ixs (database w)) w')
  = docs_of name' w.
Proof.
  unfold docs_of, set_indexes, coll. simpl.
  destruct (decide (name = name')) as [->|Hne].
  - by rewrite lookup_insert_eq.
  - by rewrite lookup_insert_ne.
Qed.

(** What one [create_indexes] call of [init_db] leaves. *)
Lemma create_indexes_effect name models w :
  answer 0 w = None →
  ∃ w',
    create_indexes name models w = (Ok (), w') ∧
    answer 0 w' = answer 1 w ∧
    (∀ n, accepts n w' ↔ accepts n (next_call w)) ∧
    indexes_of name w' = foldl add_index (indexes_of name w) models ∧
    (∀ name', name ≠ name' → indexes_of name' w' = indexes_of name' w) ∧
    (∀ name', docs_of name' w' = docs_of name' w).
Proof.
  intros Ha. eexists. split; [by apply create_indexes_run|].
  split_and!.
  - apply (answer_next_call 0).
  - done.
  - apply indexes_of_set_indexes.
  - intros name' Hne. by apply indexes_of_set_indexes_ne.
  - intros name'. apply docs_of_set_indexes.
Qed.

Ltac create_indexes_step Hacc w' :=
  let Ha := fresh "Ha" in
  let Hrun := fresh "Hrun" in
  let Hnext := fresh "Hnext" in
  let Hacc' := fresh "Hacc" in
  let Hix := fresh "Hix" in
  let Hne := fresh "Hne" in
  let Hd := fresh "Hd" in
  apply accepts_S in Hacc as [Ha Hacc];
  match goal with
  | |- context [create_indexes ?name ?models ?w] =>
      destruct (create_indexes_effect name models w Ha)
        as (w' & Hrun & Hnext & Hacc' & Hix & Hne & Hd);
      rewrite Hrun; apply Hacc' in Hacc
  end.

(** C9, as the code has it.  On a database without indexes, [init_db]
    leaves exactly these index definitions: on machines, a unique one on
    [machine_id] and one on [last_seen] descending; on failures, on
    readings, on predictions, on clusters and on model versions, three
    each; on drift events, one; all of them on a single field, but for the
    unique one on the pair of [reading_id] and [model_version].  It creates
    no index elsewhere and changes no document. *)
Theorem init_db_creates_its_indexes (w : World) :
  accepts 7 w →
  (∀ name, indexes_of name w = []) →
  let '(r, w') := init_db w in
  r = Ok () ∧
  indexes_of "machines" w'
  = [IndexModel_unique [("machine_id", ASCENDING)];
     IndexModel_ [("last_seen", DESCENDING)]] ∧
  indexes_of "failures" w'
  = [IndexModel_ [("machine_id", ASCENDING)];
     IndexModel_ [("start_time", DESCENDING)];
     IndexModel_ [("is_active", ASCENDING)]] ∧
  indexes_of "readings" w'
  = [IndexModel_ [("machine_id", ASCENDING)];
     IndexModel_ [("timestamp", DESCENDING)];
     IndexModel_ [("failure_id", ASCENDING)]] ∧
  indexes_of "predictions" w'
  = [IndexModel_ [("reading_id", ASCENDING)];
     IndexModel_ [("prediction_time", DESCENDING)];
     IndexModel_unique [("reading_id", ASCENDING); ("model_version", ASCENDING)]] ∧
  indexes_of "clusters" w'
  = [IndexModel_unique [("mlflow_run_id", ASCENDING)];
     IndexModel_ [("created_at", DESCENDING)];
     IndexModel_ [("is_active", ASCENDING)]] ∧
  indexes_of "drift" w' = [IndexModel_ [("detection_time", DESCENDING)]] ∧
  indexes_of "versions" w'
  = [IndexModel_ [("version", ASCENDING)];
     IndexModel_ [("created_at", DESCENDING)];
     IndexModel_ [("is_processed", ASCENDING)]] ∧
  (∀ name,
     name ∉ ["machines"; "failures"; "readings"; "predictions"; "clusters";
             "drift"; "versions"] →
     indexes_of name w' = []) ∧
  (∀ name, docs_of name w' = docs_of name w).
Proof.
  intros Hacc Hnone. unfold init_db. simpl collection.
  rewrite bind_run. create_indexes_step Hacc w1.
  rewrite bind_run. create_indexes_step Hacc w2.
  rewrite bind_run. create_indexes_step Hacc w3.
  rewrite bind_run. create_indexes_step Hacc w4.
  rewrite bind_run. create_indexes_step Hacc w5.
  rewrite bind_run. create_indexes_step Hacc w6.
  create_indexes_step Hacc w7.
  split; [done|].
  split_and!.
  - rewrite Hne5, Hne4, Hne3, Hne2, Hne1, Hne0, Hix, Hnone by done. reflexivity.
  - rewrite Hne5, Hne4, Hne3, Hne2, Hne1, Hix0, Hne, Hnone by done. reflexivity.
  - rewrite Hne5, Hne4, Hne3, Hne2, Hix1, Hne0, Hne, Hnone by done. reflexivity.
  - rewrite Hne5, Hne4, Hne3, Hix2, Hne1, Hne0, Hne, Hnone by done. reflexivity.
  - rewrite Hne5, Hne4, Hix3, Hne2, Hne1, Hne0, Hne, Hnone by done. reflexivity.
  - rewrite Hne5, Hix4, Hne3, Hne2, Hne1, Hne0, Hne, Hnone by done. reflexivity.
  - rewrite Hix5, Hne4, Hne3, Hne2, Hne1, Hne0, Hne, Hnone by done. reflexivity.
  - intros name Hname.
    rewrite !not_elem_of_cons in Hname.
    destruct Hname as (? & ? & ? & ? & ? & ? & ? & _).
    rewrite Hne5, Hne4, Hne3, Hne2, Hne1, Hne0, Hne by done. apply Hnone.
  - intros name. by rewrite Hd5, Hd4, Hd3, Hd2, Hd1, Hd0, Hd.
Qed.

(** The theorem above on an empty database. *)
Lemma init_db_creates_its_indexes_witness :
  accepts 7 empty_world ∧
  (∀ name, indexes_of name empty_world = []) ∧
  indexes_of "machines" (exec init_db empty_world)
  = [IndexModel_unique [("machine_id", ASCENDING)];
     IndexModel_ [("last_seen", DESCENDING)]].
Proof.
  assert (accepts 7 empty_world) as Hacc by (vm_compute; constructor).
  assert (∀ name, indexes_of name empty_world = []) as Hnone
    by (intros name; reflexivity).
  split_and!; [exact Hacc|exact Hnone|].
  pose proof (init_db_creates_its_indexes empty_world Hacc Hnone) as H.
  unfold exec. destruct (init_db empty_world) as [r w']. apply H.
Defined.

(** C9, as the specification has it, fails: besides the enumerated
    indexes [init_db] creates one on [last_seen] of machines, one on
    [failure_id] of readings, two more on predictions, one on [created_at]
    of clusters and two more on model versions; and the indexes on the
    machine and on the time of readings and of failures are two indexes on
    one field each, not one index on both. *)
Lemma init_db_indexes_not_as_enumerated :
  (init_db empty_world).1 = Ok () ∧
  (indexes_of "machines" provisioned_world ≠ enumerated_indexes "machines") ∧
  (indexes_of "machines" provisioned_world ≠ enumerated_indexes_wide "machines") ∧
  (IndexModel_ [("last_seen", DESCENDING)] ∈ indexes_of "machines" provisioned_world) ∧
  (IndexModel_ [("last_seen", DESCENDING)] ∉ enumerated_indexes_wide "machines") ∧
  (IndexModel_ [("failure_id", ASCENDING)] ∈ indexes_of "readings" provisioned_world) ∧
  (IndexModel_ [("failure_id", ASCENDING)] ∉ enumerated_indexes_wide "readings") ∧
  (IndexModel_ [("prediction_time", DESCENDING)]
    ∈ indexes_of "predictions" provisioned_world) ∧
  (IndexModel_ [("prediction_time", DESCENDING)]
    ∉ enumerated_indexes_wide "predictions") ∧
  (IndexModel_ [("created_at", DESCENDING)] ∈ indexes_of "clusters" provisioned_world) ∧
  (IndexModel_ [("created_at", DESCENDING)] ∉ enumerated_indexes_wide "clusters") ∧
  (IndexModel_ [("is_processed", ASCENDING)] ∈ indexes_of "versions" provisioned_world) ∧
  (IndexModel_ [("is_processed", ASCENDING)] ∉ enumerated_indexes_wide "versions") ∧
  (IndexModel_ [("machine_id", ASCENDING); ("timestamp", DESCENDING)]
    ∉ indexes_of "readings" provisioned_world) ∧
  (IndexModel_ [("machine_id", ASCENDING); ("start_time", DESCENDING)]
    ∉ indexes_of "failures" provisioned_world).
Proof.
  split_and!; first [by vm_compute | apply (bool_decide_unpack _); by vm_compute].
Qed.

(** ** C10: a failure is active exactly while it has no end time *)

Create HintDb frames discriminated.

Section frames.
Context (name : string).

Lemma frames_ret {A} (a : A) : frames name (mret a).
Proof. by intros w. Qed.

Lemma frames_raise {A} e : frames name (raise (A := A) e).
Proof. by intros w. Qed.

Lemma frames_bind {A B} (m : M A) (f : A → M B) :
  frames name m → (∀ a, frames name (f a)) → frames name (m ≫= f).
Proof.
  intros Hm Hf w. rewrite bind_run. specialize (Hm w).
  destruct (m w) as [[a|e] w']; simpl in *; [|done]. by rewrite Hf.
Qed.

Lemma frames_datetime_now : frames name datetime_now.
Proof. by intros w. Qed.

Lemma frames_new_oid : frames name new_oid.
Proof. by intros w. Qed.

Lemma frames_or_now x : frames name (or_now x).
Proof. by destruct x. Qed.

Lemma frames_store_call {A} (op : M A) :
  frames name op → frames name (store_call op).
Proof.
  intros Hop w. unfold store_call. destruct (answer 0 w); [done|].
  by rewrite Hop.
Qed.

Lemma frames_append_doc name' i doc :
  name' ≠ name → frames name (append_doc name' i doc).
Proof.
  intros Hne w. unfold append_doc. case_decide; [done|]. simpl.
  by apply docs_of_set_docs_ne.
Qed.

Lemma frames_insert_one name' doc :
  name' ≠ name → frames name (insert_one name' doc).
Proof.
  intros Hne. unfold insert_one.
  apply frames_store_call, frames_bind.
  - destruct (doc !! "_id"); [apply frames_ret|].
    apply frames_bind; [apply frames_new_oid|]. intros o. apply frames_ret.
  - intros i. by apply frames_append_doc.
Qed.

Lemma frames_update_one name' q upd :
  name' ≠ name → frames name (update_one name' q upd).
Proof.
  intros Hne. apply frames_store_call. intros w. cbv beta zeta.
  destruct (list_find (hit q) _) as [[k d]|]; [|done]. simpl.
  by apply docs_of_set_docs_ne.
Qed.

Lemma frames_update_many name' q upd :
  name' ≠ name → frames name (update_many name' q upd).
Proof.
  intros Hne. apply frames_store_call. intros w. cbv beta zeta.
  destruct (filter (hit q) _); [done|]. simpl. by apply docs_of_set_docs_ne.
Qed.

Lemma frames_create_indexes name' models : frames name (create_indexes name' models).
Proof. apply frames_store_call. intros w. simpl. apply docs_of_set_indexes. Qed.

Lemma frames_to_list c : frames name (to_list c).
Proof. apply frames_store_call. by intros w. Qed.

Lemma frames_check {A} (read : value → option A) v : frames name (check read v).
Proof. unfold check. destruct (read v); [apply frames_ret|apply frames_raise]. Qed.

Lemma frames_required {A} (read : value → option A) kwargs field :
  frames name (required read kwargs field).
Proof.
  unfold required. destruct (kwargs !! field); [apply frames_check|].
  apply frames_raise.
Qed.

Lemma frames_optional {A} (read : value → option A) kwargs field :
  frames name (optional read kwargs field).
Proof.
  unfold optional. destruct (kwargs !! field); [|apply frames_ret].
  apply frames_bind; [apply frames_check|]. intros a. apply frames_ret.
Qed.

Lemma frames_defaulted {A} (read : value → option A) dflt kwargs field :
  frames name dflt → frames name (defaulted read dflt kwargs field).
Proof. intros H. unfold defaulted. destruct (kwargs !! field); [apply frames_check|done]. Qed.

Lemma frames_id_field kwargs : frames name (id_field kwargs).
Proof.
  unfold id_field. apply frames_bind.
  - apply frames_defaulted, frames_new_oid.
  - intros o. apply frames_ret.
Qed.

Lemma frames_mapM {A B} (f : A → M B) l :
  (∀ x, frames name (f x)) → frames name (mapM f l).
Proof.
  intros Hf. induction l as [|x l IH]; [apply frames_ret|].
  simpl. apply frames_bind; [done|]. intros y.
  apply frames_bind; [done|]. intros ys. apply frames_ret.
Qed.

End frames.

#[global] Hint Resolve frames_ret frames_raise frames_datetime_now frames_new_oid
  frames_or_now frames_create_indexes frames_to_list frames_required
  frames_optional frames_defaulted frames_id_field frames_mapM : frames.
#[global] Hint Extern 1 (frames _ (_ ≫= _)) => apply frames_bind; [|intros ?] : frames.
#[global] Hint Extern 1 (frames _ (insert_one _ _)) =>
  apply frames_insert_one; discriminate : frames.
#[global] Hint Extern 1 (frames _ (update_one _ _ _)) =>
  apply frames_update_one; discriminate : frames.
#[global] Hint Extern 1 (frames _ (update_many _ _ _)) =>
  apply frames_update_many; discriminate : frames.

Lemma frames_Machine_init name kwargs : frames name (Machine.init kwargs).
Proof. unfold Machine.init. auto 20 with frames. Qed.

Lemma frames_Failure_init name kwargs : frames name (Failure.init kwargs).
Proof. unfold Failure.init. auto 20 with frames. Qed.

Lemma frames_SensorReading_init name kwargs : frames name (SensorReading.init kwargs).
Proof. unfold SensorReading.init. auto 20 with frames. Qed.

Lemma frames_SensorPrediction_init name kwargs :
  frames name (SensorPrediction.init kwargs).
Proof. unfold SensorPrediction.init. auto 20 with frames. Qed.

Lemma frames_Cluster_init name kwargs : frames name (Cluster.init kwargs).
Proof. unfold Cluster.init. auto 20 with frames. Qed.

Lemma frames_DriftEvent_init name kwargs : frames name (DriftEvent.init kwargs).
Proof. unfold DriftEvent.init. auto 20 with frames. Qed.

Lemma frames_ModelVersion_init name kwargs : frames name (ModelVersion.init kwargs).
Proof. unfold ModelVersion.init. auto 20 with frames. Qed.

#[global] Hint Resolve frames_Machine_init frames_Failure_init
  frames_SensorReading_init frames_SensorPrediction_init frames_Cluster_init
  frames_DriftEvent_init frames_ModelVersion_init : frames.

#[global] Hint Extern 1 (frames _ (create_document _)) =>
  unfold create_document; simpl collection : frames.

(** Only [create_failure] and [resolve_failure] write failure
    documents. *)
Lemma perform_frames_failures op w :
  (∀ machine_id start_time, op ≠ CreateFailure machine_id start_time) →
  (∀ failure_id end_time, op ≠ ResolveFailure failure_id end_time) →
  docs_of "failures" (perform op w) = docs_of "failures" w.
Proof.
  intros Hcreate Hresolve.
  assert (∀ A (m : M A), frames "failures" m →
                         docs_of "failures" (exec m w) = docs_of "failures" w)
    as Hexec by (intros A m Hm; apply Hm).
  destruct op; simpl; try (by edestruct Hcreate); try (by edestruct Hresolve);
    apply Hexec.
  - unfold create_machine. auto 20 with frames.
  - unfold update_machine_last_seen. simpl collection. auto 20 with frames.
  - unfold create_sensor_reading, update_machine_last_seen. simpl collection.
    auto 20 with frames.
  - unfold create_prediction. auto 20 with frames.
  - unfold create_cluster_model. simpl collection.
    destruct is_active; auto 20 with frames.
  - unfold create_drift_event. auto 20 with frames.
  - unfold create_model_version. auto 20 with frames.
  - unfold mark_model_version_processed. simpl collection. auto 20 with frames.
  - unfold init_db. auto 20 with frames.
  - unfold get_machine_readings. auto 20 with frames.
  - unfold get_machine_failures. auto 20 with frames.
  - unfold get_failure_readings. auto 20 with frames.
  - unfold get_reading_predictions. auto 20 with frames.
  - unfold get_active_failures. auto 20 with frames.
  - unfold get_readings_in_timerange. auto 20 with frames.
Qed.

Lemma insert_one_effect name doc w :
  docs_of name (insert_one name doc w).2 = docs_of name w ∨
  ∃ i, docs_of name (insert_one name doc w).2
       = docs_of name w ++ [<["_id" := i]> doc].
Proof.
  unfold insert_one, store_call.
  destruct (answer 0 w); [by left|].
  rewrite bind_run.
  destruct (doc !! "_id") as [i|]; simpl; unfold append_doc;
    case_decide; simpl; try (by left); right; eexists; apply docs_of_set_docs.
Qed.

Lemma Failure_init_open start_time (m : value) w :
  Failure.init
    (<["start_time" := VDate start_time]>
       (<["is_active" := VBool true]> {["machine_id" := m]})) w
  = match PyObjectId_validate m with
    | Some mo =>
        (Ok {| Failure.id := Some (next_oid w);
               Failure.start_time := start_time;
               Failure.end_time := None;
               Failure.is_active := true;
               Failure.machine_id := mo |}, generated w)
    | None => (Raise ValidationError, generated w)
    end.
Proof.
  unfold Failure.init.
  set (kwargs := <["start_time" := _]> _).
  assert (kwargs !! "_id" = None) as H1 by reflexivity.
  assert (kwargs !! "start_time" = Some (VDate start_time)) as H2 by reflexivity.
  assert (kwargs !! "end_time" = None) as H3 by reflexivity.
  assert (kwargs !! "is_active" = Some (VBool true)) as H4 by reflexivity.
  assert (kwargs !! "machine_id" = Some m) as H5 by reflexivity.
  clearbody kwargs.
  unfold id_field, required, optional, defaulted, check.
  rewrite H1, H2, H3, H4, H5.
  by destruct (PyObjectId_validate m).
Qed.

Lemma create_failure_consistent machine_id start_time w :
  Forall consistent (docs_of "failures" w) →
  Forall consistent (docs_of "failures" (exec (create_failure machine_id start_time) w)).
Proof.
  intros Hw. unfold exec, create_failure.
  rewrite bind_run, or_now_run, bind_run, Failure_init_open.
  assert (docs_of "failures" (generated (clock_read start_time w))
          = docs_of "failures" w) as Hd by by destruct start_time.
  destruct (PyObjectId_validate _) as [mo|]; simpl; [|by rewrite Hd].
  unfold create_document. simpl collection.
  match goal with
  | |- context [insert_one ?n ?doc ?w0] =>
      destruct (insert_one_effect n doc w0) as [->|[i ->]]
  end; rewrite Hd; [done|].
  apply Forall_app. split; [done|]. apply Forall_singleton.
  unfold consistent, active. simpl.
  rewrite !lookup_insert_ne by done. split; intros _; reflexivity.
Qed.

Lemma resolve_failure_consistent failure_id end_time w :
  Forall consistent (docs_of "failures" w) →
  Forall consistent (docs_of "failures" (exec (resolve_failure failure_id end_time) w)).
Proof.
  intros Hw. unfold exec.
  pose proof (resolve_failure_effect failure_id end_time w) as H.
  destruct (resolve_failure _ _ _) as [r w']. simpl.
  destruct H as [[_ ->]|(_ & k & d & Hk & _ & _ & ->)]; [done|].
  apply Forall_insert; [done|].
  unfold consistent, active.
  rewrite lookup_insert_eq, lookup_insert_ne, lookup_insert_eq by done.
  split; intros; discriminate.
Qed.

(** C10, as the code has it.  Whatever helpers for a kind of entity are
    called one after another, with whatever arguments and whatever the
    store answers, every failure document stays active exactly when it has
    no end time: [create_failure] stores an active document without
    [end_time], [resolve_failure] sets [end_time] and clears [is_active] in
    one update, and no other of these helpers writes a failure. *)
Theorem failures_stay_consistent (ops : list operation) (w : World) :
  Forall consistent (docs_of "failures" w) →
  Forall consistent (docs_of "failures" (perform_all ops w)).
Proof.
  revert w. induction ops as [|op ops IH]; intros w Hw; [done|].
  simpl. apply IH.
  destruct op;
    try (rewrite perform_frames_failures; [done|discriminate..]).
  - by apply create_failure_consistent.
  - by apply resolve_failure_consistent.
Qed.

(** The theorem above on the sample world: its failure is resolved, twice,
    and another one is opened, among other calls. *)
Lemma failures_stay_consistent_witness :
  Forall consistent (docs_of "failures" sample_world) ∧
  Forall consistent
    (docs_of "failures"
       (perform_all
          [ResolveFailure (Str oid3) None;
           CreateFailure (Str oid1) None;
           CreateSensorReading (Str oid1) [("temperature", 44)] None (Some (Str oid3));
           ResolveFailure (Oid 3%N) (Some 5000);
           GetActiveFailures]
          sample_world)).
Proof.
  assert (Forall consistent (docs_of "failures" sample_world)) as Hw
    by (apply (bool_decide_unpack _); vm_compute; exact I).
  split; [exact Hw|].
  exact (failures_stay_consistent _ sample_world Hw).
Defined.

(** C10, as the specification has it, fails: the generic
    [update_document] is an operation of the layer too, and it can clear
    [is_active] of a failure without setting an end time, or set an end
    time on a failure that stays active. *)
Lemma generic_update_breaks_failure_consistency :
  Forall consistent (docs_of "failures" sample_world) ∧
  (update_document "failures" (Str oid3) {["is_active" := VBool false]}
     sample_world).1 = Ok true ∧
  ¬ Forall consistent
      (docs_of "failures"
         (exec (update_document "failures" (Str oid3)
                  {["is_active" := VBool false]}) sample_world)) ∧
  (update_document "failures" (Str oid3) {["end_time" := VDate 5000]}
     sample_world).1 = Ok true ∧
  ¬ Forall consistent
      (docs_of "failures"
         (exec (update_document "failures" (Str oid3)
                  {["end_time" := VDate 5000]}) sample_world)).
Proof.
  split_and!; first [by vm_compute | apply (bool_decide_unpack _); by vm_compute].
Qed.

(** * Further properties of the layer *)

(** ** Deleting a document *)

Lemma ids_delete (ds : list (gmap string value)) k :
  ids (delete k ds) = delete k (ids ds).
Proof. unfold ids. by rewrite list_fmap_delete. Qed.

Lemma NoDup_delete_lookup {A} (l : list A) k x :
  NoDup l → l !! k = Some x → x ∉ delete k l.
Proof.
  intros Hl Hk. rewrite (delete_Permutation l k x Hk) in Hl.
  by apply NoDup_cons in Hl as [? _].
Qed.

(** X1.  [delete_document] removes the first document with the given
    [_id] and answers [True]: the collection loses that one document and
    keeps the others in their order, and, identifiers being unique, no
    document with that [_id] is left.  When no document has that [_id] it
    answers [False] and leaves the database as it was.  Other collections
    are never touched. *)
Theorem delete_document_removes_one
    (name : string) (doc_id : id_arg) (w : World) :
  answer 0 w = None →
  let i := id_value (normalize doc_id) in
  let '(found, w') := delete_document name doc_id w in
  match list_find (λ d, d !! "_id" = Some i) (docs_of name w) with
  | Some (k, d) =>
      found = Ok true ∧
      docs_of name w' = delete k (docs_of name w) ∧
      S (length (docs_of name w')) = length (docs_of name w) ∧
      (unique_ids (docs_of name w) → Some i ∉ ids (docs_of name w'))
  | None => found = Ok false ∧ database w' = database w
  end ∧
  ∀ name', name ≠ name' → docs_of name' w' = docs_of name' w.
Proof.
  intros Ha i. rewrite delete_document_run by done. fold i.
  destruct (list_find _ _) as [[k d]|] eqn:Hfind; [|done].
  apply list_find_Some in Hfind as (Hk & Hid & _).
  rewrite docs_of_set_docs. split_and!; [done..| | |].
  - rewrite length_delete by eauto. apply lookup_lt_Some in Hk. lia.
  - intros Hu. rewrite ids_delete, <-Hid.
    apply NoDup_delete_lookup; [done|]. unfold ids.
    by rewrite list_lookup_fmap, Hk.
  - intros name' Hne. by apply docs_of_set_docs_ne.
Qed.

(** The theorem above on the sample world: its one reading is deleted. *)
Lemma delete_document_removes_one_witness :
  answer 0 sample_world = None ∧
  (delete_document "readings" (Oid 2%N) sample_world).1 = Ok true.
Proof.
  split; [reflexivity|].
  pose proof (delete_document_removes_one "readings" (Oid 2%N) sample_world
                eq_refl) as H.
  cbv zeta in H.
  destruct (delete_document _ _ _) as [found w'].
  destruct (list_find _ _) as [[k d]|] eqn:E; [|by vm_compute in E].
  apply H.
Defined.

(** ** Registering a machine *)

(** X2.  [create_machine] stores one new machine document under a fresh
    [_id], which it answers.  [first_seen] is the time of a first reading
    of the clock and [last_seen] the time of a second one: the two are
    equal only if the clock has not moved in between.  The helper does not
    look for a machine that already has this external identifier. *)
Theorem create_machine_stores_machine (machine_id : string) (w : World) :
  answer 0 w = None →
  Some (VOid (next_oid w)) ∉ ids (docs_of "machines" w) →
  let '(r, w') := create_machine machine_id w in
  r = Ok (VOid (next_oid w)) ∧
  docs_of "machines" w'
  = docs_of "machines" w
    ++ [Machine.dict
          {| Machine.id := Some (next_oid w);
             Machine.machine_id := machine_id;
             Machine.first_seen := time w;
             Machine.last_seen := time w + default 0 (head (elapsed w)) |}] ∧
  ∀ name, name ≠ "machines" → docs_of name w' = docs_of name w.
Proof.
  intros Ha Hfresh. rewrite create_machine_run by done.
  rewrite docs_of_set_docs. split_and!; [done..|].
  intros name Hne. by apply docs_of_set_docs_ne.
Qed.

(** The theorem above on the sample world. *)
Lemma create_machine_stores_machine_witness :
  answer 0 sample_world = None ∧
  (Some (VOid (next_oid sample_world)) ∉ ids (docs_of "machines" sample_world)) ∧
  (create_machine "M-2" sample_world).1 = Ok (VOid (next_oid sample_world)).
Proof.
  assert (Some (VOid (next_oid sample_world))
          ∉ ids (docs_of "machines" sample_world)) as Hfresh
    by (apply (bool_decide_unpack _); vm_compute; exact I).
  split_and!; [reflexivity|exact Hfresh|].
  pose proof (create_machine_stores_machine "M-2" sample_world eq_refl Hfresh)
    as H.
  destruct (create_machine _ _) as [r w']. apply H.
Defined.

(** ** Identifiers that are not valid, in the helpers that build an entity *)

Lemma PyObjectId_validate_invalid s :
  ObjectId.is_valid s = false → PyObjectId_validate (VStr s) = None.
Proof. intros H. simpl. by rewrite H. Qed.

Lemma SensorReading_init_invalid_machine timestamp values s
    (f : option value) w :
  ObjectId.is_valid s = false →
  ∃ w', SensorReading.init
          (<["timestamp" := VDate timestamp]>
             (<["values" := VDict ((λ kv, (kv.1, VFloat kv.2)) <$> values)]>
                (<["machine_id" := VStr s]> (set_opt "failure_id" f ∅)))) w
        = (Raise ValidationError, w')
        ∧ database w' = database w ∧ faults w' = faults w.
Proof.
  intros Hs. unfold SensorReading.init.
  set (kwargs := <["timestamp" := _]> _).
  assert (kwargs !! "_id" = None) as H1 by by destruct f.
  assert (kwargs !! "timestamp" = Some (VDate timestamp)) as H2 by by destruct f.
  assert (kwargs !! "values"
          = Some (VDict ((λ kv, (kv.1, VFloat kv.2)) <$> values))) as H3
    by by destruct f.
  assert (kwargs !! "machine_id" = Some (VStr s)) as H4 by by destruct f.
  clearbody kwargs.
  unfold id_field, required, optional, defaulted, check.
  rewrite H1, H2, H3, H4, as_floats_VDict, PyObjectId_validate_invalid by done.
  by eexists.
Qed.

Lemma SensorReading_init_invalid_failure timestamp values (m : value) mo s w :
  PyObjectId_validate m = Some mo →
  ObjectId.is_valid s = false →
  ∃ w', SensorReading.init
          (<["timestamp" := VDate timestamp]>
             (<["values" := VDict ((λ kv, (kv.1, VFloat kv.2)) <$> values)]>
                (<["machine_id" := m]> (set_opt "failure_id" (Some (VStr s)) ∅)))) w
        = (Raise ValidationError, w')
        ∧ database w' = database w ∧ faults w' = faults w.
Proof.
  intros Hm Hs. unfold SensorReading.init.
  set (kwargs := <["timestamp" := _]> _).
  assert (kwargs !! "_id" = None) as H1 by reflexivity.
  assert (kwargs !! "timestamp" = Some (VDate timestamp)) as H2 by reflexivity.
  assert (kwargs !! "values"
          = Some (VDict ((λ kv, (kv.1, VFloat kv.2)) <$> values))) as H3
    by reflexivity.
  assert (kwargs !! "machine_id" = Some m) as H4 by reflexivity.
  assert (kwargs !! "failure_id" = Some (VStr s)) as H5 by reflexivity.
  clearbody kwargs.
  unfold id_field, required, optional, defaulted, check.
  rewrite H1, H2, H3, H4, H5, as_floats_VDict, Hm,
    PyObjectId_validate_invalid by done.
  by eexists.
Qed.

Lemma SensorPrediction_init_invalid cluster_id model_version confidence_score
    now mlflow_run_id model_name s w :
  ObjectId.is_valid s = false →
  ∃ w', SensorPrediction.init
          (<["cluster_id" := VInt cluster_id]>
             (<["model_version" := VStr model_version]>
                (set_opt "confidence_score" (VFloat <$> confidence_score)
                   (<["prediction_time" := VDate now]>
                      (set_opt "mlflow_run_id" (VStr <$> mlflow_run_id)
                         (<["model_name" := VStr model_name]>
                            {["reading_id" := VStr s]})))))) w
        = (Raise ValidationError, w')
        ∧ database w' = database w ∧ faults w' = faults w.
Proof.
  intros Hs. unfold SensorPrediction.init.
  set (kwargs := <["cluster_id" := _]> _).
  assert (kwargs !! "_id" = None) as H1
    by by destruct confidence_score, mlflow_run_id.
  assert (kwargs !! "cluster_id" = Some (VInt cluster_id)) as H2
    by by destruct confidence_score, mlflow_run_id.
  assert (kwargs !! "model_version" = Some (VStr model_version)) as H3
    by by destruct confidence_score, mlflow_run_id.
  assert (kwargs !! "confidence_score" = VFloat <$> confidence_score) as H4
    by by destruct confidence_score, mlflow_run_id.
  assert (kwargs !! "prediction_time" = Some (VDate now)) as H5
    by by destruct confidence_score, mlflow_run_id.
  assert (kwargs !! "mlflow_run_id" = VStr <$> mlflow_run_id) as H6
    by by destruct confidence_score, mlflow_run_id.
  assert (kwargs !! "model_name" = Some (VStr model_name)) as H7
    by by destruct confidence_score, mlflow_run_id.
  assert (kwargs !! "reading_id" = Some (VStr s)) as H8
    by by destruct confidence_score, mlflow_run_id.
  clearbody kwargs.
  unfold id_field, required, optional, defaulted, check.
  rewrite H1, H2, H3, H4, H5, H6, H7, H8, PyObjectId_validate_invalid by done.
  destruct confidence_score, mlflow_run_id; by eexists.
Qed.

Lemma hex_digit_not_whitespace c d :
  ObjectId.hex_digit c = Some d → ObjectId.whitespace c = false.
Proof.
  destruct c as [[] [] [] [] [] [] [] []]; intros Hd; vm_compute in Hd |- *;
    congruence.
Qed.

Lemma fromhex_bytes k :
  ∀ s acc n,
    String.length s = (2 * k)%nat →
    ObjectId.fromhex acc s = Some n →
    is_Some (ObjectId.bytes_fromhex s).
Proof.
  induction k as [|k IH]; intros s acc n Hlen Hread.
  { destruct s; [by eexists|done]. }
  destruct s as [|a [|b s]]; [done|simpl in Hlen; lia|].
  simpl in Hlen, Hread.
  destruct (ObjectId.hex_digit a) as [top|] eqn:Ha; [|done].
  destruct (ObjectId.hex_digit b) as [bot|] eqn:Hb; [|done].
  destruct (IH s _ n ltac:(lia) Hread) as [bs Hbs].
  cbn [ObjectId.bytes_fromhex].
  rewrite (hex_digit_not_whitespace a top), Ha, Hb, Hbs by done.
  by eexists.
Qed.

(** Every string that stands for an identifier of the model is one bson
    accepts: a string that is not accepted is not valid. *)
Lemma not_accepted_invalid s :
  ObjectId.accepted s = false → ObjectId.is_valid s = false.
Proof.
  unfold ObjectId.accepted, ObjectId.is_valid, ObjectId.of_str.
  destruct (String.length s =? 24)%nat eqn:Hlen; [|done].
  apply Nat.eqb_eq in Hlen. simpl.
  destruct (ObjectId.fromhex 0 s) as [n|] eqn:Hread; [|done].
  destruct (fromhex_bytes 12 s 0%N n Hlen Hread) as [bs ->]. done.
Qed.

(** X3.  The helpers that build an entity refuse a string that bson does
    not accept as an identifier: [create_failure], [create_sensor_reading]
    (for the machine and for the failure) and [create_prediction] raise a
    validation error, whatever the store would have answered; the store is
    not called and the database is left as it was. *)
Theorem create_helpers_refuse_invalid_id
    (s : string) (start_time timestamp : option datetime)
    (values : list (string * float)) (failure_id : option id_arg)
    (machine_id : id_arg) (mo : ObjectId.t)
    (cluster_id : Z) (model_version : string) (confidence_score : option float)
    (mlflow_run_id : option string) (model_name : string) (w : World) :
  ObjectId.accepted s = false →
  PyObjectId_validate (id_value (normalize machine_id)) = Some mo →
  refused w (create_failure (Str s) start_time w) ∧
  refused w (create_sensor_reading (Str s) values timestamp failure_id w) ∧
  refused w (create_sensor_reading machine_id values timestamp (Some (Str s)) w) ∧
  refused w (create_prediction (Str s) cluster_id model_version confidence_score
               mlflow_run_id model_name w).
Proof.
  intros Hs%not_accepted_invalid Hm.
  assert (∀ x, database (clock_read x w) = database w
               ∧ faults (clock_read x w) = faults w) as Hclock
    by (by intros [t|]).
  assert (∀ A (rw : result A * World) w',
            rw = (Raise ValidationError, w') →
            database w' = database w ∧ faults w' = faults w →
            refused w rw) as Hrefused.
  { intros A rw w' -> [Hd Hf]. by split. }
  refine (conj _ (conj _ (conj _ _))).
  - eapply (Hrefused _ _ (generated (clock_read start_time w)));
      [|apply (Hclock start_time)].
    unfold create_failure.
    rewrite bind_run, or_now_run, bind_run, normalize_invalid by done.
    simpl id_value.
    rewrite Failure_init_open, PyObjectId_validate_invalid by done.
    reflexivity.
  - destruct (SensorReading_init_invalid_machine
                (default (time w) timestamp) values s
                (id_value <$> (normalize <$> failure_id))
                (clock_read timestamp w) Hs) as (w' & Hrun & Hd & Hf).
    eapply (Hrefused _ _ w').
    + unfold create_sensor_reading.
      rewrite bind_run, or_now_run, bind_run, normalize_invalid by done.
      simpl id_value. by rewrite Hrun.
    + rewrite Hd, Hf. apply Hclock.
  - destruct (SensorReading_init_invalid_failure
                (default (time w) timestamp) values
                (id_value (normalize machine_id)) mo s
                (clock_read timestamp w) Hm Hs) as (w' & Hrun & Hd & Hf).
    eapply (Hrefused _ _ w').
    + unfold create_sensor_reading.
      rewrite bind_run, or_now_run, bind_run.
      change (normalize <$> Some (Str s)) with (Some (normalize (Str s))).
      rewrite normalize_invalid by done.
      change (id_value <$> Some (Str s)) with (Some (VStr s)).
      by rewrite Hrun.
    + rewrite Hd, Hf. apply Hclock.
  - destruct (SensorPrediction_init_invalid cluster_id model_version
                confidence_score (time w) mlflow_run_id model_name s
                (tick w) Hs) as (w' & Hrun & Hd & Hf).
    eapply (Hrefused _ _ w').
    + unfold create_prediction.
      rewrite bind_run. unfold datetime_now at 1. cbv beta iota.
      rewrite bind_run, normalize_invalid by done. simpl id_value.
      by rewrite Hrun.
    + by rewrite Hd, Hf.
Qed.

(** The theorem above for the external identifier of a machine, with a
    store that could not have been reached. *)
Lemma create_helpers_refuse_invalid_id_witness :
  ObjectId.accepted "M-1" = false ∧
  PyObjectId_validate (id_value (normalize (Str oid1))) = Some 1%N ∧
  (create_failure (Str "M-1") None unreachable_world).1 = Raise ValidationError.
Proof.
  split_and!; [reflexivity..|].
  pose proof (create_helpers_refuse_invalid_id "M-1" None None [] None
                (Str oid1) 1%N 0 "v1" None None "m" unreachable_world
                eq_refl eq_refl) as H.
  destruct H as [[H _] _]. exact H.
Defined.

(** ** Reading back what was written *)

Lemma Machine_init_dict (x : Machine.t) w :
  is_Some (Machine.id x) → Machine.init (Machine.dict x) w = (Ok x, w).
Proof. destruct x as [[i|] m f l]; intros [? ?]; by simplify_eq. Qed.

Lemma Failure_init_dict (x : Failure.t) w :
  is_Some (Failure.id x) → Failure.init (Failure.dict x) w = (Ok x, w).
Proof. destruct x as [[i|] s [e|] a m]; intros [? ?]; by simplify_eq. Qed.

Lemma SensorPrediction_init_dict (x : SensorPrediction.t) w :
  is_Some (SensorPrediction.id x) →
  SensorPrediction.init (SensorPrediction.dict x) w = (Ok x, w).
Proof.
  destruct x as [[i|] c v [s|] p [r|] n rd]; intros [? ?]; by simplify_eq.
Qed.

Lemma Cluster_init_dict (x : Cluster.t) w :
  is_Some (Cluster.id x) → Cluster.init (Cluster.dict x) w = (Ok x, w).
Proof. destruct x as [[i|] r v c a n s p]; intros [? ?]; by simplify_eq. Qed.

Lemma DriftEvent_init_dict (x : DriftEvent.t) w :
  is_Some (DriftEvent.id x) → DriftEvent.init (DriftEvent.dict x) w = (Ok x, w).
Proof. destruct x as [[i|] d s r c]; intros [? ?]; by simplify_eq. Qed.

Lemma ModelVersion_init_dict (x : ModelVersion.t) w :
  is_Some (ModelVersion.id x) →
  ModelVersion.init (ModelVersion.dict x) w = (Ok x, w).
Proof. destruct x as [[i|] v r c p]; intros [? ?]; by simplify_eq. Qed.

#[global] Instance Machine_stored : Stored Machine.t.
Proof.
  refine {| identifier := Machine.id |}.
  - by intros [[i|] m f l].
  - apply Machine_init_dict.
Defined.

#[global] Instance Failure_stored : Stored Failure.t.
Proof.
  refine {| identifier := Failure.id |}.
  - by intros [[i|] s [e|] a m].
  - apply Failure_init_dict.
Defined.

#[global] Instance SensorReading_stored : Stored SensorReading.t.
Proof.
  refine {| identifier := SensorReading.id |}.
  - intros x. apply SensorReading_dict_lookups.
  - apply SensorReading_init_dict.
Defined.

#[global] Instance SensorPrediction_stored : Stored SensorPrediction.t.
Proof.
  refine {| identifier := SensorPrediction.id |}.
  - by intros [[i|] c v [s|] p [r|] n rd].
  - apply SensorPrediction_init_dict.
Defined.

#[global] Instance Cluster_stored : Stored Cluster.t.
Proof.
  refine {| identifier := Cluster.id |}.
  - by intros [[i|] r v c a n s p].
  - apply Cluster_init_dict.
Defined.

#[global] Instance DriftEvent_stored : Stored DriftEvent.t.
Proof.
  refine {| identifier := DriftEvent.id |}.
  - by intros [[i|] d s r c].
  - apply DriftEvent_init_dict.
Defined.

#[global] Instance ModelVersion_stored : Stored ModelVersion.t.
Proof.
  refine {| identifier := ModelVersion.id |}.
  - by intros [[i|] v r c p].
  - apply ModelVersion_init_dict.
Defined.

(** X4.  A document written for an entity that has its identifier is read
    back by the constructor of its class as the same entity, for each of
    the seven classes, without reading the clock or generating an
    identifier: unset optional fields, left out of the document, come back
    unset. *)
Theorem stored_entities_read_back (w : World) :
  (∀ x, is_Some (Machine.id x) → Machine.init (Machine.dict x) w = (Ok x, w)) ∧
  (∀ x, is_Some (Failure.id x) → Failure.init (Failure.dict x) w = (Ok x, w)) ∧
  (∀ x, is_Some (SensorReading.id x) →
        SensorReading.init (SensorReading.dict x) w = (Ok x, w)) ∧
  (∀ x, is_Some (SensorPrediction.id x) →
        SensorPrediction.init (SensorPrediction.dict x) w = (Ok x, w)) ∧
  (∀ x, is_Some (Cluster.id x) → Cluster.init (Cluster.dict x) w = (Ok x, w)) ∧
  (∀ x, is_Some (DriftEvent.id x) →
        DriftEvent.init (DriftEvent.dict x) w = (Ok x, w)) ∧
  (∀ x, is_Some (ModelVersion.id x) →
        ModelVersion.init (ModelVersion.dict x) w = (Ok x, w)).
Proof.
  split_and!; intros x Hx.
  - by apply Machine_init_dict.
  - by apply Failure_init_dict.
  - by apply SensorReading_init_dict.
  - by apply SensorPrediction_init_dict.
  - by apply Cluster_init_dict.
  - by apply DriftEvent_init_dict.
  - by apply ModelVersion_init_dict.
Qed.

(** The theorem above on a reading. *)
Lemma stored_entities_read_back_witness :
  is_Some (SensorReading.id (reading_at 11%N 100 1%N)) ∧
  SensorReading.init (SensorReading.dict (reading_at 11%N 100 1%N)) empty_world
  = (Ok (reading_at 11%N 100 1%N), empty_world).
Proof.
  assert (is_Some (SensorReading.id (reading_at 11%N 100 1%N))) as Hid
    by by eexists.
  split; [exact Hid|].
  exact (proj1 (proj2 (proj2 (stored_entities_read_back empty_world))) _ Hid).
Defined.

(** ** The lookups of [db.py] *)

Section lookups.
Context {T} `{Stored T}.

Lemma mapM_init_dict (xs : list T) w :
  Forall (λ x, is_Some (identifier x)) xs →
  mapM init (dict <$> xs) w = (Ok xs, w).
Proof.
  induction 1 as [|x xs Hx _ IH]; [done|].
  rewrite fmap_cons. simpl. rewrite bind_run, init_dict by done.
  by rewrite bind_run, IH.
Qed.

(** A sorted lookup answers the stored entities that match the query, each
    as often as it is stored, in the order asked for. *)
Lemma sorted_lookup name q field dir (stored : list T) w :
  answer 0 w = None →
  docs_of name w = dict <$> stored →
  Forall (λ x, is_Some (identifier x)) stored →
  ∃ xs,
    (to_list (sort field dir (find name q)) ≫= λ found, mapM init found) w
    = (Ok xs, next_call w) ∧
    xs ≡ₚ filter (λ x, hit q (dict x)) stored ∧
    StronglySorted (λ a b, precedes field dir (dict a) (dict b)) xs.
Proof.
  intros Ha Hstored Hids. unfold to_list.
  rewrite bind_run, store_call_accepted by done. simpl.
  change (docs (coll (database w) name)) with (docs_of name w).
  rewrite Hstored, filter_fmap.
  set (found := filter (hit q ∘ dict) stored).
  pose proof (merge_sort_Permutation (precedes field dir) (dict <$> found))
    as Hperm.
  pose proof (StronglySorted_merge_sort (precedes field dir) (dict <$> found))
    as Hsorted.
  destruct (Permutation_map_inv _ _ Hperm) as (xs & Hxs & Hp).
  change (map dict xs) with (dict <$> xs) in Hxs.
  rewrite Hxs in Hsorted |- *.
  exists xs. split_and!.
  - apply mapM_init_dict. apply Forall_forall. intros x Hx.
    rewrite <-Hp in Hx. unfold found in Hx.
    apply list_elem_of_filter in Hx as [_ Hx].
    rewrite Forall_forall in Hids. by apply Hids.
  - by rewrite <-Hp.
  - by eapply StronglySorted_fmap_inv.
Qed.

(** A lookup without a sort answers them in the order of the store. *)
Lemma unsorted_lookup name q (stored : list T) w :
  answer 0 w = None →
  docs_of name w = dict <$> stored →
  Forall (λ x, is_Some (identifier x)) stored →
  (to_list (find name q) ≫= λ found, mapM init found) w
  = (Ok (filter (λ x, hit q (dict x)) stored), next_call w).
Proof.
  intros Ha Hstored Hids. unfold to_list.
  rewrite bind_run, store_call_accepted by done. simpl.
  change (docs (coll (database w) name)) with (docs_of name w).
  rewrite Hstored, filter_fmap.
  apply mapM_init_dict. apply Forall_forall. intros x Hx.
  apply list_elem_of_filter in Hx as [_ Hx].
  rewrite Forall_forall in Hids. by apply Hids.
Qed.

End lookups.

Lemma StronglySorted_weaken {A} (R1 R2 : relation A) (l : list A) :
  (∀ x y, R1 x y → R2 x y) → StronglySorted R1 l → StronglySorted R2 l.
Proof.
  intros HR. induction 1 as [|x l _ IH Hall]; constructor; [done|].
  eapply Forall_impl; [done|]. apply HR.
Qed.

Lemma hit_equals field v (d : gmap string value) :
  hit [(field, Equals v)] d ↔ d !! field = Some v.
Proof.
  unfold hit, matches. simpl. rewrite andb_true_r. apply bool_decide_eq_true.
Qed.

Lemma Failure_dict_lookups (x : Failure.t) :
  Failure.dict x !! "start_time" = Some (VDate (Failure.start_time x)) ∧
  Failure.dict x !! "end_time" = VDate <$> Failure.end_time x ∧
  Failure.dict x !! "is_active" = Some (VBool (Failure.is_active x)) ∧
  Failure.dict x !! "machine_id" = Some (VOid (Failure.machine_id x)).
Proof. by destruct x as [[i|] s [e|] a m]. Qed.

Lemma precedes_start_time_desc a b :
  precedes "start_time" DESCENDING (Failure.dict a) (Failure.dict b)
  → Failure.start_time b ≤ Failure.start_time a.
Proof.
  destruct (Failure_dict_lookups a) as (Ha & _).
  destruct (Failure_dict_lookups b) as (Hb & _).
  unfold precedes, key_le. rewrite Ha, Hb. simpl. lia.
Qed.

(** X5.  On a readings collection that holds stored readings,
    [get_machine_readings] answers the readings of the given machine: all
    of them, each as often as it is stored, and no other, the newest
    first. *)
Theorem get_machine_readings_exact
    (machine_id : id_arg) (stored : list SensorReading.t) (w : World) :
  answer 0 w = None →
  docs_of "readings" w = SensorReading.dict <$> stored →
  Forall (λ r, is_Some (SensorReading.id r)) stored →
  ∃ rs,
    get_machine_readings machine_id w = (Ok rs, next_call w) ∧
    rs ≡ₚ filter (λ r, VOid (SensorReading.machine_id r)
                       = id_value (normalize machine_id)) stored ∧
    StronglySorted
      (λ a b, SensorReading.timestamp b ≤ SensorReading.timestamp a) rs.
Proof.
  intros Ha Hstored Hids.
  destruct (sorted_lookup (H0 := SensorReading_stored) "readings"
              [("machine_id", Equals (id_value (normalize machine_id)))]
              "timestamp" DESCENDING stored w Ha Hstored Hids)
    as (rs & Hrun & Hp & Hs).
  exists rs. split_and!.
  - exact Hrun.
  - rewrite Hp. apply reflexive_eq, list_filter_iff. intros r.
    rewrite hit_equals. change (dict r) with (SensorReading.dict r).
    destruct (SensorReading_dict_lookups r) as (_ & _ & _ & -> & _).
    split; congruence.
  - eapply StronglySorted_weaken; [|exact Hs].
    intros a b. apply precedes_timestamp_desc.
Qed.

(** The theorem above on three readings of one machine and one of
    another. *)
Lemma get_machine_readings_exact_witness :
  answer 0 readings_world = None ∧
  docs_of "readings" readings_world = SensorReading.dict <$> stored_readings ∧
  Forall (λ r, is_Some (SensorReading.id r)) stored_readings ∧
  ∃ rs,
    get_machine_readings (Str oid1) readings_world
    = (Ok rs, next_call readings_world) ∧
    rs ≡ₚ filter (λ r, VOid (SensorReading.machine_id r)
                       = id_value (normalize (Str oid1))) stored_readings ∧
    StronglySorted
      (λ a b, SensorReading.timestamp b ≤ SensorReading.timestamp a) rs.
Proof.
  assert (Forall (λ r, is_Some (SensorReading.id r)) stored_readings) as Hids
    by (repeat constructor; by eexists).
  split_and!; [reflexivity|reflexivity|exact Hids|].
  exact (get_machine_readings_exact (Str oid1) stored_readings readings_world
           eq_refl eq_refl Hids).
Defined.

(** X6.  On a readings collection that holds stored readings,
    [get_failure_readings] answers the readings taken during the given
    failure: all of them, each as often as it is stored, and no other, the
    newest first.  A reading without a failure is never among them. *)
Theorem get_failure_readings_exact
    (failure_id : id_arg) (stored : list SensorReading.t) (w : World) :
  answer 0 w = None →
  docs_of "readings" w = SensorReading.dict <$> stored →
  Forall (λ r, is_Some (SensorReading.id r)) stored →
  ∃ rs,
    get_failure_readings failure_id w = (Ok rs, next_call w) ∧
    rs ≡ₚ filter (λ r, VOid <$> SensorReading.failure_id r
                       = Some (id_value (normalize failure_id))) stored ∧
    StronglySorted
      (λ a b, SensorReading.timestamp b ≤ SensorReading.timestamp a) rs.
Proof.
  intros Ha Hstored Hids.
  destruct (sorted_lookup (H0 := SensorReading_stored) "readings"
              [("failure_id", Equals (id_value (normalize failure_id)))]
              "timestamp" DESCENDING stored w Ha Hstored Hids)
    as (rs & Hrun & Hp & Hs).
  exists rs. split_and!.
  - exact Hrun.
  - rewrite Hp. apply reflexive_eq, list_filter_iff. intros r.
    rewrite hit_equals. change (dict r) with (SensorReading.dict r).
    by destruct (SensorReading_dict_lookups r) as (_ & _ & _ & _ & ->).
  - eapply StronglySorted_weaken; [|exact Hs].
    intros a b. apply precedes_timestamp_desc.
Qed.

(** The theorem above on two readings of a failure and one without. *)
Lemma get_failure_readings_exact_witness :
  answer 0 failure_readings_world = None ∧
  docs_of "readings" failure_readings_world
  = SensorReading.dict <$> failure_readings ∧
  Forall (λ r, is_Some (SensorReading.id r)) failure_readings ∧
  ∃ rs,
    get_failure_readings (Oid 21%N) failure_readings_world
    = (Ok rs, next_call failure_readings_world) ∧
    rs ≡ₚ filter (λ r, VOid <$> SensorReading.failure_id r
                       = Some (id_value (normalize (Oid 21%N))))
            failure_readings ∧
    StronglySorted
      (λ a b, SensorReading.timestamp b ≤ SensorReading.timestamp a) rs.
Proof.
  assert (Forall (λ r, is_Some (SensorReading.id r)) failure_readings) as Hids
    by (repeat constructor; by eexists).
  split_and!; [reflexivity|reflexivity|exact Hids|].
  exact (get_failure_readings_exact (Oid 21%N) failure_readings
           failure_readings_world eq_refl eq_refl Hids).
Defined.

(** X7.  On a failures collection that holds stored failures,
    [get_machine_failures] answers the failures of the given machine,
    resolved or not: all of them, each as often as it is stored, and no
    other, the latest start first. *)
Theorem get_machine_failures_exact
    (machine_id : id_arg) (stored : list Failure.t) (w : World) :
  answer 0 w = None →
  docs_of "failures" w = Failure.dict <$> stored →
  Forall (λ f, is_Some (Failure.id f)) stored →
  ∃ fs,
    get_machine_failures machine_id w = (Ok fs, next_call w) ∧
    fs ≡ₚ filter (λ f, VOid (Failure.machine_id f)
                       = id_value (normalize machine_id)) stored ∧
    StronglySorted (λ a b, Failure.start_time b ≤ Failure.start_time a) fs.
Proof.
  intros Ha Hstored Hids.
  destruct (sorted_lookup (H0 := Failure_stored) "failures"
              [("machine_id", Equals (id_value (normalize machine_id)))]
              "start_time" DESCENDING stored w Ha Hstored Hids)
    as (fs & Hrun & Hp & Hs).
  exists fs. split_and!.
  - exact Hrun.
  - rewrite Hp. apply reflexive_eq, list_filter_iff. intros f.
    rewrite hit_equals. change (dict f) with (Failure.dict f).
    destruct (Failure_dict_lookups f) as (_ & _ & _ & ->).
    split; congruence.
  - eapply StronglySorted_weaken; [|exact Hs].
    intros a b. apply precedes_start_time_desc.
Qed.

(** The theorem above on two failures of one machine and one of
    another. *)
Lemma get_machine_failures_exact_witness :
  answer 0 failures_world = None ∧
  docs_of "failures" failures_world = Failure.dict <$> stored_failures ∧
  Forall (λ f, is_Some (Failure.id f)) stored_failures ∧
  ∃ fs,
    get_machine_failures (Str oid1) failures_world
    = (Ok fs, next_call failures_world) ∧
    fs ≡ₚ filter (λ f, VOid (Failure.machine_id f)
                       = id_value (normalize (Str oid1))) stored_failures ∧
    StronglySorted (λ a b, Failure.start_time b ≤ Failure.start_time a) fs.
Proof.
  assert (Forall (λ f, is_Some (Failure.id f)) stored_failures) as Hids
    by (repeat constructor; by eexists).
  split_and!; [reflexivity|reflexivity|exact Hids|].
  exact (get_machine_failures_exact (Str oid1) stored_failures failures_world
           eq_refl eq_refl Hids).
Defined.

(** X8.  On a failures collection that holds stored failures,
    [get_active_failures] answers the failures whose [is_active] is set,
    of every machine: all of them, each as often as it is stored, and no
    resolved one, the latest start first. *)
Theorem get_active_failures_exact (stored : list Failure.t) (w : World) :
  answer 0 w = None →
  docs_of "failures" w = Failure.dict <$> stored →
  Forall (λ f, is_Some (Failure.id f)) stored →
  ∃ fs,
    get_active_failures w = (Ok fs, next_call w) ∧
    fs ≡ₚ filter (λ f, Failure.is_active f = true) stored ∧
    StronglySorted (λ a b, Failure.start_time b ≤ Failure.start_time a) fs.
Proof.
  intros Ha Hstored Hids.
  destruct (sorted_lookup (H0 := Failure_stored) "failures"
              [("is_active", Equals (VBool true))]
              "start_time" DESCENDING stored w Ha Hstored Hids)
    as (fs & Hrun & Hp & Hs).
  exists fs. split_and!.
  - exact Hrun.
  - rewrite Hp. apply reflexive_eq, list_filter_iff. intros f.
    rewrite hit_equals. change (dict f) with (Failure.dict f).
    destruct (Failure_dict_lookups f) as (_ & _ & -> & _).
    split; congruence.
  - eapply StronglySorted_weaken; [|exact Hs].
    intros a b. apply precedes_start_time_desc.
Qed.

(** The theorem above on one resolved failure and two open ones. *)
Lemma get_active_failures_exact_witness :
  answer 0 failures_world = None ∧
  docs_of "failures" failures_world = Failure.dict <$> stored_failures ∧
  Forall (λ f, is_Some (Failure.id f)) stored_failures ∧
  ∃ fs,
    get_active_failures failures_world = (Ok fs, next_call failures_world) ∧
    fs ≡ₚ filter (λ f, Failure.is_active f = true) stored_failures ∧
    StronglySorted (λ a b, Failure.start_time b ≤ Failure.start_time a) fs.
Proof.
  assert (Forall (λ f, is_Some (Failure.id f)) stored_failures) as Hids
    by (repeat constructor; by eexists).
  split_and!; [reflexivity|reflexivity|exact Hids|].
  exact (get_active_failures_exact stored_failures failures_world
           eq_refl eq_refl Hids).
Defined.

Lemma SensorPrediction_dict_reading_id (x : SensorPrediction.t) :
  SensorPrediction.dict x !! "reading_id"
  = Some (VOid (SensorPrediction.reading_id x)).
Proof. by destruct x as [[i|] c v [s|] p [r|] n rd]. Qed.

(** X9.  On a predictions collection that holds stored predictions,
    [get_reading_predictions] answers the predictions made for the given
    reading, by whatever version of the model, and no other, in the order
    in which the store holds them. *)
Theorem get_reading_predictions_exact
    (reading_id : id_arg) (stored : list SensorPrediction.t) (w : World) :
  answer 0 w = None →
  docs_of "predictions" w = SensorPrediction.dict <$> stored →
  Forall (λ p, is_Some (SensorPrediction.id p)) stored →
  get_reading_predictions reading_id w
  = (Ok (filter (λ p, VOid (SensorPrediction.reading_id p)
                      = id_value (normalize reading_id)) stored),
     next_call w).
Proof.
  intros Ha Hstored Hids.
  pose proof (unsorted_lookup (H0 := SensorPrediction_stored) "predictions"
                [("reading_id", Equals (id_value (normalize reading_id)))]
                stored w Ha Hstored Hids) as Hrun.
  etrans; [exact Hrun|]. do 2 f_equal.
  apply list_filter_iff. intros p.
  rewrite hit_equals. change (dict p) with (SensorPrediction.dict p).
  rewrite SensorPrediction_dict_reading_id. split; congruence.
Qed.

(** The theorem above on two predictions for one reading and one for
    another. *)
Lemma get_reading_predictions_exact_witness :
  answer 0 predictions_world = None ∧
  docs_of "predictions" predictions_world
  = SensorPrediction.dict <$> stored_predictions ∧
  Forall (λ p, is_Some (SensorPrediction.id p)) stored_predictions ∧
  get_reading_predictions (Oid 11%N) predictions_world
  = (Ok (filter (λ p, VOid (SensorPrediction.reading_id p)
                      = id_value (normalize (Oid 11%N))) stored_predictions),
     next_call predictions_world).
Proof.
  assert (Forall (λ p, is_Some (SensorPrediction.id p)) stored_predictions)
    as Hids by (repeat constructor; by eexists).
  split_and!; [reflexivity|reflexivity|exact Hids|].
  exact (get_reading_predictions_exact (Oid 11%N) stored_predictions
           predictions_world eq_refl eq_refl Hids).
Defined.

(** ** Fetching a document by its identifier *)

Lemma get_document_by_id_run {T} `{MongoBaseModel T} name doc_id w :
  answer 0 w = None →
  get_document_by_id (T := T) name doc_id w =
    match list_find (λ d, d !! "_id" = Some (id_value (normalize doc_id)))
            (docs_of name w) with
    | Some (_, d) =>
        (init (T := T) d ≫= λ x, mret (Some x)) (next_call w)
    | None => (Ok None, next_call w)
    end.
Proof.
  intros Ha. unfold get_document_by_id, find_one.
  rewrite bind_run, store_call_accepted by done.
  change (docs (coll (database (next_call w)) name)) with (docs_of name w).
  rewrite list_find_by_id. by destruct (list_find _ _) as [[k d]|].
Qed.

(** X10.  On a collection that holds stored entities of a class,
    [get_document_by_id] answers the first stored entity that has the
    given identifier, and nothing when there is none, as is the case for
    every string that is not a valid identifier. *)
Theorem get_document_by_id_finds {T} `{Stored T}
    (name : string) (doc_id : id_arg) (stored : list T) (w : World) :
  answer 0 w = None →
  docs_of name w = dict <$> stored →
  Forall (λ x, is_Some (identifier x)) stored →
  get_document_by_id (T := T) name doc_id w
  = (Ok (snd <$> list_find (λ x, VOid <$> identifier x
                                 = Some (id_value (normalize doc_id))) stored),
     next_call w) ∧
  (∀ s, doc_id = Str s → ObjectId.is_valid s = false →
        (get_document_by_id (T := T) name doc_id w).1 = Ok None).
Proof.
  intros Ha Hstored Hids.
  assert (get_document_by_id (T := T) name doc_id w
          = (Ok (snd <$> list_find (λ x, VOid <$> identifier x
                                         = Some (id_value (normalize doc_id)))
                           stored), next_call w)) as Hrun.
  { rewrite get_document_by_id_run, Hstored, list_find_fmap by done.
    rewrite (list_find_ext _ (λ x, VOid <$> identifier x
                                   = Some (id_value (normalize doc_id))));
      [|by intros x; simpl; rewrite dict_id].
    destruct (list_find _ stored) as [[k x]|] eqn:Hfind; [|done]. simpl.
    apply list_find_Some in Hfind as (Hk & _ & _).
    rewrite bind_run, init_dict; [done|].
    rewrite Forall_forall in Hids. apply Hids.
    by eapply list_elem_of_lookup_2. }
  split; [exact Hrun|].
  intros s -> Hs. rewrite Hrun, normalize_invalid by done. simpl.
  assert (list_find (λ x : T, VOid <$> identifier x = Some (VStr s)) stored
          = None) as ->; [|done].
  apply list_find_None, Forall_forall. intros x _.
  by destruct (identifier x).
Qed.

(** The theorem above on three readings: the second one is fetched. *)
Lemma get_document_by_id_finds_witness :
  answer 0 readings_world = None ∧
  docs_of "readings" readings_world = SensorReading.dict <$> stored_readings ∧
  Forall (λ r, is_Some (SensorReading.id r)) stored_readings ∧
  (get_document_by_id (T := SensorReading.t) "readings" (Oid 12%N)
     readings_world).1
  = Ok (Some (reading_at 12%N 300 1%N)).
Proof.
  assert (Forall (λ r, is_Some (SensorReading.id r)) stored_readings) as Hids
    by (repeat constructor; by eexists).
  split_and!; [reflexivity|reflexivity|exact Hids|].
  pose proof (get_document_by_id_finds (H0 := SensorReading_stored) "readings"
                (Oid 12%N) stored_readings readings_world eq_refl eq_refl Hids)
    as [H _].
  by rewrite H.
Defined.

(** X11.  An entity stored by [create_document] under an identifier that
    is not in its collection yet is what [get_document_by_id] answers for
    that identifier afterwards, whatever else the collection holds. *)
Theorem create_document_then_fetch {T} `{Stored T}
    (x : T) (i : ObjectId.t) (w : World) :
  identifier x = Some i →
  accepts 2 w →
  Some (VOid i) ∉ ids (docs_of (collection (T := T)) w) →
  let '(r, w1) := create_document x w in
  r = Ok (VOid i) ∧
  docs_of (collection (T := T)) w1 = docs_of (collection (T := T)) w ++ [dict x] ∧
  (get_document_by_id (T := T) (collection (T := T)) (Oid i) w1).1 = Ok (Some x).
Proof.
  intros Hi [Ha0 [Ha1 _]%accepts_S]%accepts_S Hfresh.
  assert (dict x !! "_id" = Some (VOid i)) as Hid by by rewrite dict_id, Hi.
  unfold create_document. rewrite (insert_one_run _ _ (VOid i)) by done.
  set (w1 := set_database _ _).
  assert (docs_of (collection (T := T)) w1
          = docs_of (collection (T := T)) w ++ [dict x]) as Hdocs
    by apply docs_of_set_docs.
  assert (answer 0 w1 = None) as Ha by exact Ha1.
  split_and!; [done..|].
  rewrite get_document_by_id_run, Hdocs by done. simpl normalize.
  assert (list_find (λ d, d !! "_id" = Some (id_value (Oid i)))
            (docs_of (collection (T := T)) w ++ [dict x])
          = Some (length (docs_of (collection (T := T)) w), dict x)) as ->.
  { apply list_find_Some. split_and!.
    - by rewrite lookup_app_r, Nat.sub_diag.
    - done.
    - intros j y Hj Hlt Hy. rewrite lookup_app_l in Hj by done.
      apply Hfresh. unfold ids. apply list_elem_of_fmap.
      exists y. split; [done|]. by eapply list_elem_of_lookup_2. }
  rewrite bind_run, init_dict; [done|]. by rewrite Hi.
Qed.

(** The theorem above on the sample world, for a new failure. *)
Lemma create_document_then_fetch_witness :
  accepts 2 sample_world ∧
  (Some (VOid 25%N) ∉ ids (docs_of "failures" sample_world)) ∧
  (get_document_by_id (T := Failure.t) "failures" (Oid 25%N)
     (exec (create_document (failure_at 25%N 700 None 1%N)) sample_world)).1
  = Ok (Some (failure_at 25%N 700 None 1%N)).
Proof.
  assert (accepts 2 sample_world) as Hacc by (vm_compute; constructor).
  assert (Some (VOid 25%N) ∉ ids (docs_of "failures" sample_world)) as Hfresh
    by (apply (bool_decide_unpack _); vm_compute; exact I).
  split_and!; [exact Hacc|exact Hfresh|].
  pose proof (create_document_then_fetch (H0 := Failure_stored)
                (failure_at 25%N 700 None 1%N) 25%N sample_world
                eq_refl Hacc Hfresh) as H.
  unfold exec.
  destruct (create_document _ _) as [r w1]. apply H.
Defined.

(** ** Opening and resolving a failure *)

Lemma create_failure_run machine_id start_time mo w :
  PyObjectId_validate (id_value (normalize machine_id)) = Some mo →
  answer 0 w = None →
  Some (VOid (next_oid w)) ∉ ids (docs_of "failures" w) →
  let failure :=
    {| Failure.id := Some (next_oid w);
       Failure.start_time := default (time w) start_time;
       Failure.end_time := None;
       Failure.is_active := true;
       Failure.machine_id := mo |} in
  create_failure machine_id start_time w
  = (Ok (VOid (next_oid w)),
     set_database
       (set_docs "failures" (docs_of "failures" w ++ [Failure.dict failure])
          (database w))
       (next_call (generated (clock_read start_time w)))).
Proof.
  intros Hm Ha Hfresh failure. unfold create_failure.
  rewrite bind_run, or_now_run, bind_run, Failure_init_open, Hm.
  assert (next_oid (clock_read start_time w) = next_oid w) as ->
    by by destruct start_time.
  fold failure. cbv beta iota.
  unfold create_document. simpl collection.
  change (dict failure) with (Failure.dict failure).
  assert (docs_of "failures" (generated (clock_read start_time w))
          = docs_of "failures" w) as Hd by by destruct start_time.
  assert (database (generated (clock_read start_time w)) = database w) as Hdb
    by by destruct start_time.
  rewrite (insert_one_run _ _ (VOid (next_oid w)));
    [|by destruct start_time|reflexivity|by rewrite Hd].
  by rewrite Hd, Hdb.
Qed.

(** X12.  [create_failure] stores one new failure document under a fresh
    [_id], which it answers: active, without an end time, started at the
    given time or else at the time of the clock.  It does not look for a
    failure of the machine that is still active: the collection has one
    more active failure than before, whatever it held. *)
Theorem create_failure_opens_active
    (machine_id : id_arg) (start_time : option datetime) (mo : ObjectId.t)
    (w : World) :
  PyObjectId_validate (id_value (normalize machine_id)) = Some mo →
  answer 0 w = None →
  Some (VOid (next_oid w)) ∉ ids (docs_of "failures" w) →
  let '(r, w') := create_failure machine_id start_time w in
  r = Ok (VOid (next_oid w)) ∧
  docs_of "failures" w'
  = docs_of "failures" w
    ++ [Failure.dict
          {| Failure.id := Some (next_oid w);
             Failure.start_time := default (time w) start_time;
             Failure.end_time := None;
             Failure.is_active := true;
             Failure.machine_id := mo |}] ∧
  active_count (docs_of "failures" w') = S (active_count (docs_of "failures" w)).
Proof.
  intros Hm Ha Hfresh. rewrite (create_failure_run _ _ mo) by done.
  rewrite docs_of_set_docs. split_and!; [done..|].
  rewrite active_count_snoc, decide_True by done. lia.
Qed.

(** The theorem above on the sample world, whose machine has an active
    failure already. *)
Lemma create_failure_opens_active_witness :
  PyObjectId_validate (id_value (normalize (Str oid1))) = Some 1%N ∧
  answer 0 sample_world = None ∧
  (Some (VOid (next_oid sample_world)) ∉ ids (docs_of "failures" sample_world)) ∧
  active_count
    (docs_of "failures" (exec (create_failure (Str oid1) None) sample_world))
  = S (active_count (docs_of "failures" sample_world)).
Proof.
  assert (Some (VOid (next_oid sample_world))
          ∉ ids (docs_of "failures" sample_world)) as Hfresh
    by (apply (bool_decide_unpack _); vm_compute; exact I).
  split_and!; [reflexivity|reflexivity|exact Hfresh|].
  pose proof (create_failure_opens_active (Str oid1) None 1%N sample_world
                eq_refl eq_refl Hfresh) as H.
  unfold exec. destruct (create_failure _ _ _) as [r w']. apply H.
Defined.

Lemma list_find_snoc_fresh (ds : list (gmap string value)) d i :
  Some i ∉ ids ds → d !! "_id" = Some i →
  ∀ (P : gmap string value → Prop) `{∀ x, Decision (P x)},
    (∀ x, P x → x !! "_id" = Some i) →
    list_find P (ds ++ [d]) = if decide (P d) then Some (length ds, d) else None.
Proof.
  intros Hfresh Hid P ? HP.
  assert (Forall (λ x, ¬ P x) ds) as Hds.
  { apply Forall_forall. intros x Hx HPx. apply Hfresh.
    unfold ids. apply list_elem_of_fmap. exists x. split; [|done].
    symmetry. by apply HP. }
  case_decide as Hd.
  - apply list_find_Some. split_and!.
    + by rewrite lookup_app_r, Nat.sub_diag.
    + done.
    + intros j y Hj Hlt. rewrite lookup_app_l in Hj by done.
      rewrite Forall_forall in Hds. apply Hds. by eapply list_elem_of_lookup_2.
  - apply list_find_None, Forall_app. split; [done|]. by apply Forall_singleton.
Qed.

(** X13.  A failure opened by [create_failure] is resolved by the first
    [resolve_failure] for its identifier, which answers [True] and leaves
    the stored failure inactive with the end time given (or else the time
    of the clock) and its other fields as they were; a second
    [resolve_failure] answers [False] and changes nothing: the end time of
    the first call stays. *)
Theorem opened_failure_resolves_once
    (machine_id : id_arg) (start_time end_time again : option datetime)
    (mo : ObjectId.t) (w : World) :
  PyObjectId_validate (id_value (normalize machine_id)) = Some mo →
  accepts 3 w →
  Some (VOid (next_oid w)) ∉ ids (docs_of "failures" w) →
  let '(_, w1) := create_failure machine_id start_time w in
  let '(r1, w2) := resolve_failure (Oid (next_oid w)) end_time w1 in
  let '(r2, w3) := resolve_failure (Oid (next_oid w)) again w2 in
  r1 = Ok true ∧
  docs_of "failures" w2
  = docs_of "failures" w
    ++ [Failure.dict
          {| Failure.id := Some (next_oid w);
             Failure.start_time := default (time w) start_time;
             Failure.end_time := Some (default (time w1) end_time);
             Failure.is_active := false;
             Failure.machine_id := mo |}] ∧
  r2 = Ok false ∧
  database w3 = database w2.
Proof.
  intros Hm [Ha0 [Ha1 [Ha2 _]%accepts_S]%accepts_S]%accepts_S Hfresh.
  rewrite (create_failure_run _ _ mo) by done.
  set (opened := {| Failure.id := Some (next_oid w);
                    Failure.end_time := None |}).
  set (w1 := set_database _ _).
  assert (docs_of "failures" w1 = docs_of "failures" w ++ [Failure.dict opened])
    as Hd1 by apply docs_of_set_docs.
  assert (answer 0 w1 = None) as Hb1.
  { rewrite <-Ha1. unfold w1. by destruct start_time. }
  rewrite resolve_failure_run, Hb1, Hd1. cbv zeta. simpl normalize.
  rewrite (list_find_snoc_fresh _ (Failure.dict opened) (VOid (next_oid w)));
    [|done|done|by intros x [? _]].
  rewrite decide_True by done.
  rewrite Nat.add_0_r || idtac.
  set (w2 := set_database _ _).
  assert (docs_of "failures" w2
          = docs_of "failures" w
            ++ [Failure.dict
                  {| Failure.id := Some (next_oid w);
                     Failure.start_time := default (time w) start_time;
                     Failure.end_time := Some (default (time w1) end_time);
                     Failure.is_active := false;
                     Failure.machine_id := mo |}]) as Hd2.
  { unfold w2. rewrite docs_of_set_docs.
    rewrite <-(Nat.add_0_r (length (docs_of "failures" w))), insert_app_r.
    by f_equal. }
  assert (answer 0 w2 = None) as Hb2.
  { rewrite <-Ha2. unfold w2, w1. by destruct start_time, end_time. }
  rewrite resolve_failure_run, Hb2, Hd2. cbv zeta. simpl normalize.
  rewrite (list_find_snoc_fresh _ _ (VOid (next_oid w)));
    [|done|done|by intros x [? _]].
  rewrite decide_False by (by intros [_ ?]).
  split_and!; [done..|]. by destruct again.
Qed.

(** The theorem above on the sample world and its machine. *)
Lemma opened_failure_resolves_once_witness :
  PyObjectId_validate (id_value (normalize (Str oid1))) = Some 1%N ∧
  accepts 3 sample_world ∧
  (Some (VOid (next_oid sample_world)) ∉ ids (docs_of "failures" sample_world)) ∧
  (resolve_failure (Oid (next_oid sample_world)) (Some 2000)
     (exec (create_failure (Str oid1) None) sample_world)).1 = Ok true.
Proof.
  assert (accepts 3 sample_world) as Hacc by (vm_compute; constructor).
  assert (Some (VOid (next_oid sample_world))
          ∉ ids (docs_of "failures" sample_world)) as Hfresh
    by (apply (bool_decide_unpack _); vm_compute; exact I).
  split_and!; [reflexivity|exact Hacc|exact Hfresh|].
  pose proof (opened_failure_resolves_once (Str oid1) None (Some 2000) None
                1%N sample_world eq_refl Hacc Hfresh) as H.
  unfold exec. destruct (create_failure _ _ _) as [r w1]. cbn [snd].
  destruct (resolve_failure _ _ w1) as [r1 w2].
  destruct (resolve_failure _ _ w2) as [r2 w3]. apply H.
Defined.

(** ** Errors of the store *)

Lemma surfaces_intro {A} e w (rw : result A * World) w' :
  rw = (Raise e, w') → database w' = database w → surfaces e w rw.
Proof. by intros -> Hd. Qed.

Lemma insert_one_rejected name doc e w :
  answer 0 w = Some e → insert_one name doc w = (Raise e, next_call w).
Proof. intros Ha. unfold insert_one. by rewrite (store_call_rejected _ _ e). Qed.

Lemma update_one_rejected name q upd e w :
  answer 0 w = Some e → update_one name q upd w = (Raise e, next_call w).
Proof. intros Ha. unfold update_one. by rewrite (store_call_rejected _ _ e). Qed.

Lemma to_list_rejected c e w :
  answer 0 w = Some e → to_list c w = (Raise e, next_call w).
Proof. intros Ha. unfold to_list. by rewrite (store_call_rejected _ _ e). Qed.

(** X14.  An error of the store reaches the caller as it is: when the
    store rejects the one call a helper makes, or the first of them, the
    helper raises the error of the store and the database is left as it
    was.  Nothing is retried and nothing is swallowed. *)
Theorem store_errors_surface {T} `{MongoBaseModel T}
    (e : exception) (name machine version run_id : string)
    (doc_id machine_id failure_id : id_arg) (mo : ObjectId.t)
    (update_data : gmap string value) (start_time end_time : option datetime)
    (drift_score : float)
    (reference_distribution current_distribution : list (string * value))
    (is_processed : bool) (w : World) :
  answer 0 w = Some e →
  PyObjectId_validate (id_value (normalize machine_id)) = Some mo →
  surfaces e w (update_document name doc_id update_data w) ∧
  surfaces e w (delete_document name doc_id w) ∧
  surfaces e w (create_machine machine w) ∧
  surfaces e w (update_machine_last_seen machine_id w) ∧
  surfaces e w (create_failure machine_id start_time w) ∧
  surfaces e w (resolve_failure failure_id end_time w) ∧
  surfaces e w (create_drift_event drift_score reference_distribution
                  current_distribution w) ∧
  surfaces e w (create_model_version version run_id is_processed w) ∧
  surfaces e w (mark_model_version_processed doc_id w) ∧
  surfaces e w (init_db w) ∧
  surfaces e w (get_active_failures w) ∧
  surfaces e w (get_machine_readings machine_id w) ∧
  surfaces e w (get_document_by_id (T := T) name doc_id w).
Proof.
  intros Ha Hm.
  assert (∀ x, answer 0 (clock_read x w) = Some e) as Hclock
    by (by intros [t|]).
  split_and!.
  - eapply (surfaces_intro _ _ _ (next_call w)); [|reflexivity].
    unfold update_document. by rewrite bind_run, (update_one_rejected _ _ _ e).
  - eapply (surfaces_intro _ _ _ (next_call w)); [|reflexivity].
    unfold delete_document, delete_one.
    by rewrite bind_run, (store_call_rejected _ _ e).
  - eapply (surfaces_intro _ _ _ (next_call (generated (tick (tick w)))));
      [|reflexivity].
    unfold create_machine.
    rewrite bind_run. unfold datetime_now at 1. cbv beta iota.
    rewrite bind_run. unfold datetime_now at 1. cbv beta iota.
    rewrite bind_run.
    change (Machine.init _ (tick (tick w)))
      with (Ok {| Machine.id := Some (next_oid w);
                  Machine.machine_id := machine;
                  Machine.first_seen := time w;
                  Machine.last_seen := time (tick w) |},
            generated (tick (tick w))).
    cbv beta iota. unfold create_document.
    by rewrite (insert_one_rejected _ _ e).
  - eapply (surfaces_intro _ _ _ (next_call (tick w))); [|reflexivity].
    unfold update_machine_last_seen.
    rewrite bind_run. unfold datetime_now at 1. cbv beta iota.
    by rewrite bind_run, (update_one_rejected _ _ _ e).
  - eapply (surfaces_intro _ _ _
              (next_call (generated (clock_read start_time w))));
      [|by destruct start_time].
    unfold create_failure.
    rewrite bind_run, or_now_run, bind_run, Failure_init_open, Hm.
    cbv beta iota. unfold create_document.
    rewrite (insert_one_rejected _ _ e); [done|]. apply Hclock.
  - eapply (surfaces_intro _ _ _ (next_call (clock_read end_time w)));
      [|by destruct end_time].
    by rewrite resolve_failure_run, Ha.
  - eapply (surfaces_intro _ _ _ (next_call (generated (tick w))));
      [|reflexivity].
    unfold create_drift_event.
    rewrite bind_run. unfold datetime_now at 1. cbv beta iota.
    rewrite bind_run.
    change (DriftEvent.init _ (tick w))
      with (Ok {| DriftEvent.id := Some (next_oid w);
                  DriftEvent.detection_time := time w;
                  DriftEvent.drift_score := drift_score;
                  DriftEvent.reference_distribution := reference_distribution;
                  DriftEvent.current_distribution := current_distribution |},
            generated (tick w)).
    cbv beta iota. unfold create_document.
    by rewrite (insert_one_rejected _ _ e).
  - eapply (surfaces_intro _ _ _ (next_call (generated (tick w))));
      [|reflexivity].
    unfold create_model_version.
    rewrite bind_run. unfold datetime_now at 1. cbv beta iota.
    rewrite bind_run.
    change (ModelVersion.init _ (tick w))
      with (Ok {| ModelVersion.id := Some (next_oid w);
                  ModelVersion.version := version;
                  ModelVersion.run_id := run_id;
                  ModelVersion.created_at := time w;
                  ModelVersion.is_processed := is_processed |},
            generated (tick w)).
    cbv beta iota. unfold create_document.
    by rewrite (insert_one_rejected _ _ e).
  - eapply (surfaces_intro _ _ _ (next_call w)); [|reflexivity].
    unfold mark_model_version_processed.
    by rewrite bind_run, (update_one_rejected _ _ _ e).
  - eapply (surfaces_intro _ _ _ (next_call w)); [|reflexivity].
    unfold init_db, create_indexes.
    by rewrite bind_run, (store_call_rejected _ _ e).
  - eapply (surfaces_intro _ _ _ (next_call w)); [|reflexivity].
    unfold get_active_failures. by rewrite bind_run, (to_list_rejected _ e).
  - eapply (surfaces_intro _ _ _ (next_call w)); [|reflexivity].
    unfold get_machine_readings. by rewrite bind_run, (to_list_rejected _ e).
  - eapply (surfaces_intro _ _ _ (next_call w)); [|reflexivity].
    unfold get_document_by_id, find_one.
    by rewrite bind_run, (store_call_rejected _ _ e).
Qed.

(** The theorem above on the sample world, with a store that cannot be
    reached. *)
Lemma store_errors_surface_witness :
  answer 0 (set_faults [Some ConnectionFailure] sample_world)
  = Some ConnectionFailure ∧
  PyObjectId_validate (id_value (normalize (Str oid1))) = Some 1%N ∧
  surfaces ConnectionFailure (set_faults [Some ConnectionFailure] sample_world)
    (create_failure (Str oid1) None
       (set_faults [Some ConnectionFailure] sample_world)).
Proof.
  split_and!; [reflexivity..|].
  pose proof (store_errors_surface (T := Machine.t) ConnectionFailure
                "machines" "M-2" "v2" "run-2" (Oid 1%N) (Str oid1) (Oid 3%N)
                1%N ∅ None None 0 [] [] false
                (set_faults [Some ConnectionFailure] sample_world)
                eq_refl eq_refl) as H.
  destruct H as (_ & _ & _ & _ & H & _). exact H.
Defined.

(** ** Provisioning the indexes again *)

Lemma elem_of_foldl_add_index_l ms : ∀ l ix,
  ix ∈ l → ix ∈ foldl add_index l ms.
Proof.
  induction ms as [|m ms IH]; intros l ix Hix; [done|].
  simpl. apply IH. unfold add_index. case_decide; [done|].
  apply elem_of_app. by left.
Qed.

Lemma elem_of_foldl_add_index_r ms : ∀ l ix,
  ix ∈ ms → ix ∈ foldl add_index l ms.
Proof.
  induction ms as [|m ms IH]; intros l ix Hix; [by apply not_elem_of_nil in Hix|].
  simpl. apply elem_of_cons in Hix as [->|Hix]; [|by apply IH].
  apply elem_of_foldl_add_index_l. unfold add_index. case_decide; [done|].
  apply elem_of_app. right. by apply list_elem_of_singleton.
Qed.

Lemma foldl_add_index_present ms : ∀ l,
  (∀ ix, ix ∈ ms → ix ∈ l) → foldl add_index l ms = l.
Proof.
  induction ms as [|m ms IH]; intros l Hl; [done|].
  simpl. unfold add_index at 2. rewrite decide_True by (apply Hl; left).
  apply IH. intros ix Hix. apply Hl. by right.
Qed.

Lemma foldl_add_index_twice l ms :
  foldl add_index (foldl add_index l ms) ms = foldl add_index l ms.
Proof.
  apply foldl_add_index_present. intros ix Hix.
  by apply elem_of_foldl_add_index_r.
Qed.

Lemma accepts_next_call n w : accepts (S n) w → accepts n (next_call w).
Proof. by intros [_ ?]%accepts_S. Qed.

(** What [init_db] leaves when the store accepts its seven calls. *)
Lemma init_db_effect w :
  accepts 7 w →
  ∃ w',
    init_db w = (Ok (), w') ∧
    (∀ n, accepts (7 + n) w → accepts n w') ∧
    (∀ name, indexes_of name w'
             = foldl add_index (indexes_of name w) (provisioned name)) ∧
    (∀ name, docs_of name w' = docs_of name w).
Proof.
  intros Hacc. unfold init_db. simpl collection.
  assert (Hacc' := Hacc).
  rewrite bind_run. create_indexes_step Hacc w1.
  rewrite bind_run. create_indexes_step Hacc w2.
  rewrite bind_run. create_indexes_step Hacc w3.
  rewrite bind_run. create_indexes_step Hacc w4.
  rewrite bind_run. create_indexes_step Hacc w5.
  rewrite bind_run. create_indexes_step Hacc w6.
  create_indexes_step Hacc w7.
  exists w7. split_and!; [done|..].
  - intros n Hn.
    apply Hacc6, accepts_next_call, Hacc5, accepts_next_call, Hacc4,
      accepts_next_call, Hacc3, accepts_next_call, Hacc2, accepts_next_call,
      Hacc1, accepts_next_call, Hacc0, accepts_next_call. exact Hn.
  - intros name. unfold provisioned.
    repeat (destruct (decide (name = _)) as [->|?];
            [rewrite ?Hix5, ?Hne5, ?Hix4, ?Hne4, ?Hix3, ?Hne3, ?Hix2, ?Hne2,
               ?Hix1, ?Hne1, ?Hix0, ?Hne0, ?Hix, ?Hne by done; done|]).
    by rewrite Hne5, Hne4, Hne3, Hne2, Hne1, Hne0, Hne by congruence.
  - intros name. by rewrite Hd5, Hd4, Hd3, Hd2, Hd1, Hd0, Hd.
Qed.

(** X15.  Provisioning is idempotent: on any database, a second run of
    [init_db] succeeds like the first and leaves the indexes of every
    collection as the first run left them.  The first run keeps the indexes
    that were there, and neither run changes a document. *)
Theorem init_db_idempotent (w : World) :
  accepts 14 w →
  let '(r1, w1) := init_db w in
  let '(r2, w2) := init_db w1 in
  r1 = Ok () ∧ r2 = Ok () ∧
  (∀ name, indexes_of name w2 = indexes_of name w1) ∧
  (∀ name ix, ix ∈ indexes_of name w → ix ∈ indexes_of name w1) ∧
  (∀ name, docs_of name w2 = docs_of name w).
Proof.
  intros Hacc.
  destruct (init_db_effect w) as (w1 & -> & Hacc1 & Hix1 & Hd1).
  { unfold accepts in *.
    replace (take 7 (faults w)) with (take 7 (take 14 (faults w)))
      by (by rewrite take_take).
    by apply Forall_take. }
  destruct (init_db_effect w1) as (w2 & -> & _ & Hix2 & Hd2).
  { by apply Hacc1. }
  split_and!; [done..| | |].
  - intros name. by rewrite Hix2, Hix1, foldl_add_index_twice.
  - intros name ix Hin. rewrite Hix1. by apply elem_of_foldl_add_index_l.
  - intros name. by rewrite Hd2, Hd1.
Qed.

(** The theorem above on an empty database. *)
Lemma init_db_idempotent_witness :
  accepts 14 empty_world ∧
  (init_db (exec init_db empty_world)).1 = Ok ().
Proof.
  assert (accepts 14 empty_world) as Hacc by (vm_compute; constructor).
  split; [exact Hacc|].
  pose proof (init_db_idempotent empty_world Hacc) as H.
  unfold exec. destruct (init_db empty_world) as [r1 w1]. cbn [snd].
  destruct (init_db w1) as [r2 w2]. apply H.
Defined.

(** ** Registering an active clustering model, when the insert fails *)

(** X16.  The deactivation and the insert of [create_cluster_model] are
    two calls to the store, and the first is not undone when the second
    fails: when the store accepts the deactivation and rejects the insert,
    the helper raises the error of the store and no clustering model is
    active any more. *)
Theorem create_cluster_model_not_atomic
    (mlflow_run_id : string) (mlflow_model_version n_clusters : Z)
    (silhouette_score : float) (cluster_profiles : list (string * value))
    (e : exception) (w : World) :
  answer 0 w = None →
  answer 1 w = Some e →
  let '(r, w') :=
    create_cluster_model mlflow_run_id mlflow_model_version n_clusters
      silhouette_score cluster_profiles true w in
  r = Raise e ∧
  docs_of "clusters" w' = deactivated <$> docs_of "clusters" w ∧
  active_count (docs_of "clusters" w') = 0%nat.
Proof.
  intros Ha0 Ha1. unfold create_cluster_model.
  destruct (update_many_run "clusters" [("is_active", Equals (VBool true))]
              {["is_active" := VBool false]} w Ha0) as (D & Hrun & HD & _).
  rewrite deactivate_all in HD.
  rewrite bind_run. simpl collection. rewrite Hrun.
  rewrite bind_run. unfold datetime_now at 1.
  rewrite bind_run, Cluster_init_run.
  unfold create_document. simpl collection.
  set (w2 := generated (tick (set_database D (next_call w)))).
  assert (answer 0 w2 = Some e) as Ha2.
  { rewrite <-Ha1. apply (answer_next_call 0 w). }
  rewrite (insert_one_rejected _ _ e) by done.
  assert (docs_of "clusters" (next_call w2) = deactivated <$> docs_of "clusters" w)
    as Hd by exact HD.
  split_and!; [done..|]. rewrite Hd. apply active_count_deactivated.
Qed.

(** The theorem above on the sample world, whose one clustering model is
    active, with a store that cannot be reached for the insert. *)
Lemma create_cluster_model_not_atomic_witness :
  answer 0 unreachable_world = None ∧
  answer 1 unreachable_world = Some ConnectionFailure ∧
  active_count (docs_of "clusters" unreachable_world) = 1%nat ∧
  active_count
    (docs_of "clusters"
       (exec (create_cluster_model "run-2" 2 4 0 [] true) unreachable_world))
  = 0%nat.
Proof.
  split_and!; [reflexivity..|].
  pose proof (create_cluster_model_not_atomic "run-2" 2 4 0 []
                ConnectionFailure unreachable_world eq_refl eq_refl) as H.
  unfold exec. destruct (create_cluster_model _ _ _ _ _ _ _) as [r w'].
  apply H.
Defined.

(** ** The generic query *)

#[global] Instance precedes_by_total keys : Total (precedes_by keys).
Proof.
  induction keys as [|[field dir] rest IH]; intros a b; simpl; [by left|].
  destruct (decide (precedes field dir a b)) as [Hab|Hab],
    (decide (precedes field dir b a)) as [Hba|Hba].
  - destruct (IH a b); [left|right]; done.
  - by left.
  - by right.
  - destruct (total (precedes field dir) a b); done.
Qed.

#[global] Instance precedes_by_trans keys : Transitive (precedes_by keys).
Proof.
  induction keys as [|[field dir] rest IH]; intros a b c; simpl; [done|].
  intros [Hab Hab'] [Hbc Hbc']. split; [by etrans|].
  intros Hca. eapply IH.
  - apply Hab'. by etrans.
  - apply Hbc'. by etrans.
Qed.

(** X17.  On a collection that holds stored entities of a class, for a
    query and sort keys within what the model covers (top-level fields
    named once, matched against booleans, strings, identifiers and dates,
    bounded by booleans, identifiers and dates, and sorted on fields that
    hold integers, booleans, identifiers or dates, or are missing),
    [get_documents] answers the entities that match the query (all of
    them when no query is given), ordered by the keys of [sort_by] (in the
    order of the store when there are none and the query is by equality
    alone), without the first [skip] of them and cut to [limit] when
    [limit] is not zero; so a page never has more than [limit] entities
    and each of them is stored and matches. *)
Theorem get_documents_pages_the_matches {T} `{Stored T}
    (name : string) (query : option (list (string * condition)))
    (sort_by : option (list (string * direction))) (limit skip : nat)
    (stored : list T) (w : World) :
  covered_query (default [] query) = true →
  covered_sort (default [] sort_by) = true →
  Forall (λ x, sortable_by (default [] sort_by) (dict x) = true) stored →
  answer 0 w = None →
  docs_of name w = dict <$> stored →
  Forall (λ x, is_Some (identifier x)) stored →
  let matching := filter (λ x, hit (default [] query) (dict x)) stored in
  ∃ ordered xs,
    get_documents (T := T) name query sort_by limit skip w
    = (Ok xs, next_call w) ∧
    ordered ≡ₚ matching ∧
    match sort_by with
    | Some (key :: keys) =>
        StronglySorted
          (λ a b, precedes_by (key :: keys) (dict a) (dict b)) ordered
    | _ => by_equality (default [] query) = true → ordered = matching
    end ∧
    xs = match limit with
         | O => drop skip ordered
         | n => take n (drop skip ordered)
         end ∧
    (limit ≠ 0%nat → (length xs ≤ limit)%nat) ∧
    (∀ x, x ∈ xs → x ∈ stored ∧ hit (default [] query) (dict x)).
Proof.
  intros _ _ _ Ha Hstored Hids matching.
  assert (Forall (λ x, is_Some (identifier x)) matching) as Hmatching.
  { apply Forall_forall. intros x [_ Hx]%list_elem_of_filter.
    rewrite Forall_forall in Hids. by apply Hids. }
  assert (∃ ordered,
    ordered ≡ₚ matching ∧
    match sort_by with
    | Some (key :: keys) =>
        StronglySorted
          (λ a b, precedes_by (key :: keys) (dict a) (dict b)) ordered
    | _ => ordered = matching
    end ∧
    match sort_by with
    | Some (key :: keys) =>
        merge_sort (precedes_by (key :: keys)) (dict <$> matching)
    | _ => dict <$> matching
    end = dict <$> ordered) as (ordered & Hperm & Hsorted & Hordered).
  { destruct sort_by as [[|key keys]|]; [by exists matching| |by exists matching].
    pose proof (merge_sort_Permutation (precedes_by (key :: keys))
                  (dict <$> matching)) as Hp.
    pose proof (StronglySorted_merge_sort (precedes_by (key :: keys))
                  (dict <$> matching)) as Hs.
    destruct (Permutation_map_inv _ _ Hp) as (ordered & Hxs & Hp').
    change (map dict ordered) with (dict <$> ordered) in Hxs.
    rewrite Hxs in Hs. exists ordered. split_and!; [done| |done].
    by eapply StronglySorted_fmap_inv. }
  set (xs := match limit with
             | O => drop skip ordered
             | n => take n (drop skip ordered)
             end).
  assert (xs ⊆ ordered) as Hsub.
  { intros x Hx. unfold xs in Hx. destruct limit.
    - by eapply subseteq_drop.
    - eapply subseteq_drop, subseteq_take, Hx. }
  exists ordered, xs. split_and!; [|done| |done| |].
  2:{ by destruct sort_by as [[|key keys]|]. }
  - unfold get_documents, page_to_list.
    rewrite bind_run, store_call_accepted by done.
    assert (∀ c, docs (coll (database w) (page_source c))
                 = docs_of (page_source c) w) as Hdocs by done.
    rewrite Hdocs.
    assert (mapM (init (T := T)) (dict <$> xs) (next_call w)
            = (Ok xs, next_call w)) as Hread.
    { apply mapM_init_dict, Forall_forall. intros x Hx%Hsub.
      rewrite Hperm in Hx. rewrite Forall_forall in Hmatching.
      by apply Hmatching. }
    rewrite <-Hread. f_equal. unfold xs.
    destruct sort_by as [[|key keys]|], (skip =? 0)%nat eqn:Hskip,
      limit as [|limit];
      unfold find_page, sort_page, skip_page, limit_page;
      cbn [page_source page_query page_sort page_skip page_limit Nat.eqb];
      rewrite ?Hstored, ?filter_fmap;
      change (filter (hit (default [] query) ∘ dict) stored) with matching;
      rewrite ?Hordered;
      try (apply Nat.eqb_eq in Hskip; subst skip);
      by rewrite ?fmap_take, ?fmap_drop, ?drop_0.
  - intros Hlimit. unfold xs. destruct limit; [done|].
    rewrite length_take. lia.
  - intros x Hx%Hsub. rewrite Hperm in Hx.
    by apply list_elem_of_filter in Hx as [? ?].
Qed.

(** The theorem above on four readings: the second page of two of the
    readings of machine 1, latest first. *)
Lemma get_documents_pages_the_matches_witness :
  covered_query [("machine_id", Equals (VOid 1%N))] = true ∧
  covered_sort [("timestamp", DESCENDING)] = true ∧
  Forall (λ r, sortable_by [("timestamp", DESCENDING)] (SensorReading.dict r)
               = true) stored_readings ∧
  answer 0 readings_world = None ∧
  docs_of "readings" readings_world = SensorReading.dict <$> stored_readings ∧
  Forall (λ r, is_Some (SensorReading.id r)) stored_readings ∧
  ∃ xs,
    get_documents (T := SensorReading.t) "readings"
      (Some [("machine_id", Equals (VOid 1%N))])
      (Some [("timestamp", DESCENDING)]) 2 1 readings_world
    = (Ok xs, next_call readings_world) ∧
    (length xs ≤ 2)%nat.
Proof.
  assert (Forall (λ r, is_Some (SensorReading.id r)) stored_readings) as Hids
    by (repeat constructor; by eexists).
  assert (Forall (λ r, sortable_by [("timestamp", DESCENDING)]
                         (SensorReading.dict r) = true) stored_readings)
    as Hsortable by (repeat constructor).
  split_and!;
    [reflexivity|reflexivity|exact Hsortable|reflexivity|reflexivity|
     exact Hids|].
  pose proof (get_documents_pages_the_matches (H0 := SensorReading_stored)
                "readings" (Some [("machine_id", Equals (VOid 1%N))])
                (Some [("timestamp", DESCENDING)]) 2 1 stored_readings
                readings_world eq_refl eq_refl Hsortable eq_refl eq_refl Hids)
    as H.
  cbv zeta in H. destruct H as (ordered & xs & Hrun & _ & _ & _ & Hlen & _).
  exists xs. split; [exact Hrun|]. by apply Hlen.
Defined.

(** ** Registering a model version and marking it processed *)

Lemma create_model_version_run version run_id is_processed w :
  answer 0 w = None →
  Some (VOid (next_oid w)) ∉ ids (docs_of "versions" w) →
  let created :=
    {| ModelVersion.id := Some (next_oid w);
       ModelVersion.version := version;
       ModelVersion.run_id := run_id;
       ModelVersion.created_at := time w;
       ModelVersion.is_processed := is_processed |} in
  create_model_version version run_id is_processed w
  = (Ok (VOid (next_oid w)),
     set_database
       (set_docs "versions" (docs_of "versions" w ++ [ModelVersion.dict created])
          (database w))
       (next_call (generated (tick w)))).
Proof.
  intros Ha Hfresh created. unfold create_model_version.
  unfold datetime_now at 1. rewrite bind_run. cbv beta iota.
  rewrite bind_run.
  assert (ModelVersion.init
            (<["version" := VStr version]>
               (<["run_id" := VStr run_id]>
                  (<["created_at" := VDate (time w)]>
                     {["is_processed" := VBool is_processed]}))) (tick w)
          = (Ok created, generated (tick w))) as -> by reflexivity.
  cbv beta iota. unfold create_document. simpl collection.
  change (dict created) with (ModelVersion.dict created).
  by rewrite (insert_one_run _ _ (VOid (next_oid w))).
Qed.

(** X18.  [create_model_version] stores one new version under a fresh
    [_id], which it answers, with the time of the clock as its creation
    time.  [mark_model_version_processed] for that identifier then answers
    [True], and the version read back by [get_document_by_id] is the one
    created with [is_processed] set, whatever it was created with. *)
Theorem created_version_is_marked_processed
    (version run_id : string) (is_processed : bool) (w : World) :
  accepts 3 w →
  Some (VOid (next_oid w)) ∉ ids (docs_of "versions" w) →
  let '(created, w1) := create_model_version version run_id is_processed w in
  let '(marked, w2) := mark_model_version_processed (Oid (next_oid w)) w1 in
  created = Ok (VOid (next_oid w)) ∧
  docs_of "versions" w1
  = docs_of "versions" w
    ++ [ModelVersion.dict
          {| ModelVersion.id := Some (next_oid w);
             ModelVersion.version := version;
             ModelVersion.run_id := run_id;
             ModelVersion.created_at := time w;
             ModelVersion.is_processed := is_processed |}] ∧
  marked = Ok true ∧
  length (docs_of "versions" w2) = S (length (docs_of "versions" w)) ∧
  (get_document_by_id (T := ModelVersion.t) "versions" (Oid (next_oid w)) w2).1
  = Ok (Some {| ModelVersion.id := Some (next_oid w);
                ModelVersion.version := version;
                ModelVersion.run_id := run_id;
                ModelVersion.created_at := time w;
                ModelVersion.is_processed := true |}).
Proof.
  intros [Ha0 [Ha1 [Ha2 _]%accepts_S]%accepts_S]%accepts_S Hfresh.
  rewrite create_model_version_run by done.
  set (created := {| ModelVersion.id := Some (next_oid w) |}).
  set (w1 := set_database _ _).
  assert (docs_of "versions" w1
          = docs_of "versions" w ++ [ModelVersion.dict created]) as Hd1
    by apply docs_of_set_docs.
  assert (answer 0 w1 = None) as Hb1 by exact Ha1.
  rewrite mark_model_version_processed_run, update_document_run, Hd1 by done.
  simpl normalize.
  rewrite (list_find_snoc_fresh _ (ModelVersion.dict created)
             (VOid (next_oid w))); [|done|done|done].
  rewrite decide_True by done.
  set (w2 := set_database _ _).
  set (marked := {| ModelVersion.id := Some (next_oid w);
                    ModelVersion.version := version;
                    ModelVersion.run_id := run_id;
                    ModelVersion.created_at := time w;
                    ModelVersion.is_processed := true |}).
  assert (docs_of "versions" w2
          = docs_of "versions" w ++ [ModelVersion.dict marked]) as Hd2.
  { unfold w2. rewrite docs_of_set_docs.
    rewrite <-(Nat.add_0_r (length (docs_of "versions" w))), insert_app_r.
    by f_equal. }
  assert (answer 0 w2 = None) as Hb2 by exact Ha2.
  split_and!; [done..| |].
  - rewrite Hd2, !length_app. simpl. lia.
  - rewrite get_document_by_id_run, Hd2 by done. simpl normalize.
    rewrite (list_find_snoc_fresh _ (ModelVersion.dict marked)
               (VOid (next_oid w))); [|done|done|done].
    rewrite decide_True by done. by destruct is_processed.
Qed.

(** The theorem above on the sample world, for a second version. *)
Lemma created_version_is_marked_processed_witness :
  accepts 3 sample_world ∧
  (Some (VOid (next_oid sample_world)) ∉ ids (docs_of "versions" sample_world)) ∧
  (mark_model_version_processed (Oid (next_oid sample_world))
     (exec (create_model_version "v2" "run-2" false) sample_world)).1 = Ok true.
Proof.
  assert (accepts 3 sample_world) as Hacc by (vm_compute; constructor).
  assert (Some (VOid (next_oid sample_world))
          ∉ ids (docs_of "versions" sample_world)) as Hfresh
    by (apply (bool_decide_unpack _); vm_compute; exact I).
  split_and!; [exact Hacc|exact Hfresh|].
  pose proof (created_version_is_marked_processed "v2" "run-2" false
                sample_world Hacc Hfresh) as H.
  unfold exec. destruct (create_model_version _ _ _ _) as [r w1]. cbn [snd].
  destruct (mark_model_version_processed _ w1) as [r1 w2].
  destruct H as (_ & _ & H & _). exact H.
Defined.

(** ** Recording a prediction *)

Lemma SensorPrediction_init_run cluster_id model_version confidence_score
    now mlflow_run_id model_name (rd : value) ro w :
  PyObjectId_validate rd = Some ro →
  SensorPrediction.init
    (<["cluster_id" := VInt cluster_id]>
       (<["model_version" := VStr model_version]>
          (set_opt "confidence_score" (VFloat <$> confidence_score)
             (<["prediction_time" := VDate now]>
                (set_opt "mlflow_run_id" (VStr <$> mlflow_run_id)
                   (<["model_name" := VStr model_name]>
                      {["reading_id" := rd]})))))) w
  = (Ok {| SensorPrediction.id := Some (next_oid w);
           SensorPrediction.cluster_id := cluster_id;
           SensorPrediction.model_version := model_version;
           SensorPrediction.confidence_score := confidence_score;
           SensorPrediction.prediction_time := now;
           SensorPrediction.mlflow_run_id := mlflow_run_id;
           SensorPrediction.model_name := model_name;
           SensorPrediction.reading_id := ro |}, generated w).
Proof.
  intros Hrd. unfold SensorPrediction.init.
  set (kwargs := <["cluster_id" := _]> _).
  assert (kwargs !! "_id" = None) as H1
    by by destruct confidence_score, mlflow_run_id.
  assert (kwargs !! "cluster_id" = Some (VInt cluster_id)) as H2
    by by destruct confidence_score, mlflow_run_id.
  assert (kwargs !! "model_version" = Some (VStr model_version)) as H3
    by by destruct confidence_score, mlflow_run_id.
  assert (kwargs !! "confidence_score" = VFloat <$> confidence_score) as H4
    by by destruct confidence_score, mlflow_run_id.
  assert (kwargs !! "prediction_time" = Some (VDate now)) as H5
    by by destruct confidence_score, mlflow_run_id.
  assert (kwargs !! "mlflow_run_id" = VStr <$> mlflow_run_id) as H6
    by by destruct confidence_score, mlflow_run_id.
  assert (kwargs !! "model_name" = Some (VStr model_name)) as H7
    by by destruct confidence_score, mlflow_run_id.
  assert (kwargs !! "reading_id" = Some rd) as H8
    by by destruct confidence_score, mlflow_run_id.
  clearbody kwargs.
  unfold id_field, required, optional, defaulted, check.
  rewrite H1, H2, H3, H4, H5, H6, H7, H8, Hrd.
  by destruct confidence_score, mlflow_run_id.
Qed.

Lemma validated_normalized x o :
  PyObjectId_validate (id_value (normalize x)) = Some o →
  id_value (normalize x) = VOid o.
Proof.
  destruct x as [s|o']; simpl; [|congruence].
  unfold ObjectId.is_valid.
  destruct (ObjectId.of_str s) as [o'|] eqn:E; simpl; [congruence|].
  unfold ObjectId.is_valid. by rewrite E.
Qed.

(** X19.  For a reading identifier that is one, [create_prediction] stores
    one new prediction under a fresh [_id], which it answers, stamped with
    the time of the clock; it does not look the reading up, so the
    prediction is stored whether or not the reading exists.
    [get_reading_predictions] for that reading then answers the
    predictions it had before, followed by the new one. *)
Theorem created_prediction_is_listed
    (reading_id : id_arg) (cluster_id : Z) (model_version : string)
    (confidence_score : option float) (mlflow_run_id : option string)
    (model_name : string) (ro : ObjectId.t)
    (stored : list SensorPrediction.t) (w : World) :
  PyObjectId_validate (id_value (normalize reading_id)) = Some ro →
  accepts 2 w →
  docs_of "predictions" w = SensorPrediction.dict <$> stored →
  Forall (λ p, is_Some (SensorPrediction.id p)) stored →
  Some (VOid (next_oid w)) ∉ ids (docs_of "predictions" w) →
  let prediction :=
    {| SensorPrediction.id := Some (next_oid w);
       SensorPrediction.cluster_id := cluster_id;
       SensorPrediction.model_version := model_version;
       SensorPrediction.confidence_score := confidence_score;
       SensorPrediction.prediction_time := time w;
       SensorPrediction.mlflow_run_id := mlflow_run_id;
       SensorPrediction.model_name := model_name;
       SensorPrediction.reading_id := ro |} in
  let '(created, w1) :=
    create_prediction reading_id cluster_id model_version confidence_score
      mlflow_run_id model_name w in
  created = Ok (VOid (next_oid w)) ∧
  docs_of "predictions" w1
  = docs_of "predictions" w ++ [SensorPrediction.dict prediction] ∧
  (∀ name, name ≠ "predictions" → docs_of name w1 = docs_of name w) ∧
  (get_reading_predictions reading_id w1).1
  = Ok (filter (λ p, SensorPrediction.reading_id p = ro) stored
        ++ [prediction]).
Proof.
  intros Hro [Ha0 [Ha1 _]%accepts_S]%accepts_S Hstored Hids Hfresh prediction.
  pose proof (validated_normalized _ _ Hro) as Hrd.
  unfold create_prediction. unfold datetime_now at 1.
  rewrite bind_run. cbv beta iota. rewrite bind_run.
  rewrite (SensorPrediction_init_run _ _ _ _ _ _ _ ro) by done.
  change (next_oid (tick w)) with (next_oid w). fold prediction.
  cbv beta iota. unfold create_document. simpl collection.
  change (dict prediction) with (SensorPrediction.dict prediction).
  rewrite (insert_one_run _ _ (VOid (next_oid w)));
    [|done|exact (dict_id (Stored := SensorPrediction_stored) prediction)|done].
  change (docs_of "predictions" (generated (tick w)))
    with (docs_of "predictions" w).
  change (database (generated (tick w))) with (database w).
  set (w1 := set_database _ _).
  assert (docs_of "predictions" w1
          = SensorPrediction.dict <$> (stored ++ [prediction])) as Hd1.
  { unfold w1. by rewrite docs_of_set_docs, Hstored, fmap_app. }
  split_and!.
  - done.
  - by rewrite Hd1, Hstored, fmap_app.
  - intros name Hname. unfold w1. by rewrite docs_of_set_docs_ne.
  - pose proof (unsorted_lookup (H0 := SensorPrediction_stored) "predictions"
                  [("reading_id", Equals (id_value (normalize reading_id)))]
                  (stored ++ [prediction]) w1 Ha1 Hd1) as Hrun.
    rewrite (Hrun : _ → get_reading_predictions reading_id w1 = _).
    2:{ apply Forall_app. split; [done|]. by repeat constructor. }
    simpl. f_equal. rewrite filter_app. f_equal.
    + apply list_filter_iff. intros p. rewrite hit_equals.
      change (dict p) with (SensorPrediction.dict p).
      rewrite SensorPrediction_dict_reading_id, Hrd. naive_solver.
    + rewrite filter_cons_True; [done|].
      rewrite hit_equals. change (dict prediction)
        with (SensorPrediction.dict prediction).
      by rewrite SensorPrediction_dict_reading_id, Hrd.
Qed.

(** The theorem above on three stored predictions: a third prediction for
    reading 11 is listed after the two it had. *)
Lemma created_prediction_is_listed_witness :
  PyObjectId_validate (id_value (normalize (Oid 11%N))) = Some 11%N ∧
  accepts 2 predictions_world ∧
  docs_of "predictions" predictions_world
  = SensorPrediction.dict <$> stored_predictions ∧
  Forall (λ p, is_Some (SensorPrediction.id p)) stored_predictions ∧
  (Some (VOid (next_oid predictions_world))
   ∉ ids (docs_of "predictions" predictions_world)) ∧
  (create_prediction (Oid 11%N) 0 "v3" None None "sensor_failure_clustering"
     predictions_world).1 = Ok (VOid (next_oid predictions_world)).
Proof.
  assert (accepts 2 predictions_world) as Hacc by (vm_compute; constructor).
  assert (Forall (λ p, is_Some (SensorPrediction.id p)) stored_predictions)
    as Hids by (repeat constructor; by eexists).
  assert (Some (VOid (next_oid predictions_world))
          ∉ ids (docs_of "predictions" predictions_world)) as Hfresh
    by (apply (bool_decide_unpack _); vm_compute; exact I).
  split_and!; [reflexivity|exact Hacc|reflexivity|exact Hids|exact Hfresh|].
  pose proof (created_prediction_is_listed (Oid 11%N) 0 "v3" None None
                "sensor_failure_clustering" 11%N stored_predictions
                predictions_world eq_refl Hacc eq_refl Hids Hfresh) as H.
  cbv zeta in H. destruct (create_prediction _ _ _ _ _ _ _) as [r w1].
  destruct H as [H _]. exact H.
Defined.

(** ** Recording a drift event *)

(** The empty query matches every document. *)
Lemma filter_hit_nil (ds : list (gmap string value)) : filter (hit []) ds = ds.
Proof.
  induction ds as [|d ds IH]; [done|].
  rewrite filter_cons_True by done. by rewrite IH.
Qed.

(** X20.  [create_drift_event] stores one new event under a fresh [_id],
    which it answers, with the score and the two distributions given and
    the time of the clock as detection time, and leaves the other
    collections as they are.  [get_documents] without a query, a sort or a
    page then answers the events stored before followed by the new one. *)
Theorem created_drift_event_is_listed
    (drift_score : float)
    (reference_distribution current_distribution : list (string * value))
    (stored : list DriftEvent.t) (w : World) :
  accepts 2 w →
  docs_of "drift" w = DriftEvent.dict <$> stored →
  Forall (λ d, is_Some (DriftEvent.id d)) stored →
  Some (VOid (next_oid w)) ∉ ids (docs_of "drift" w) →
  let drift :=
    {| DriftEvent.id := Some (next_oid w);
       DriftEvent.detection_time := time w;
       DriftEvent.drift_score := drift_score;
       DriftEvent.reference_distribution := reference_distribution;
       DriftEvent.current_distribution := current_distribution |} in
  let '(created, w1) :=
    create_drift_event drift_score reference_distribution
      current_distribution w in
  created = Ok (VOid (next_oid w)) ∧
  docs_of "drift" w1 = docs_of "drift" w ++ [DriftEvent.dict drift] ∧
  (∀ name, name ≠ "drift" → docs_of name w1 = docs_of name w) ∧
  (get_documents (T := DriftEvent.t) "drift" None None 0 0 w1).1
  = Ok (stored ++ [drift]).
Proof.
  intros [Ha0 [Ha1 _]%accepts_S]%accepts_S Hstored Hids Hfresh drift.
  unfold create_drift_event. unfold datetime_now at 1.
  rewrite bind_run. cbv beta iota. rewrite bind_run.
  assert (DriftEvent.init
            (<["detection_time" := VDate (time w)]>
               (<["drift_score" := VFloat drift_score]>
                  (<["reference_distribution" := VDict reference_distribution]>
                     {["current_distribution" := VDict current_distribution]})))
            (tick w)
          = (Ok drift, generated (tick w))) as -> by reflexivity.
  cbv beta iota. unfold create_document. simpl collection.
  change (dict drift) with (DriftEvent.dict drift).
  rewrite (insert_one_run _ _ (VOid (next_oid w))); [|done|done|done].
  change (docs_of "drift" (generated (tick w))) with (docs_of "drift" w).
  change (database (generated (tick w))) with (database w).
  set (w1 := set_database _ _).
  assert (docs_of "drift" w1 = DriftEvent.dict <$> (stored ++ [drift])) as Hd1.
  { unfold w1. by rewrite docs_of_set_docs, Hstored, fmap_app. }
  split_and!.
  - done.
  - by rewrite Hd1, Hstored, fmap_app.
  - intros name Hname. unfold w1. by rewrite docs_of_set_docs_ne.
  - unfold get_documents, page_to_list.
    rewrite bind_run, store_call_accepted by exact Ha1.
    unfold find_page.
    cbn [page_source page_query page_sort page_skip page_limit Nat.eqb default].
    change (docs (coll (database (next_call w1)) "drift"))
      with (docs_of "drift" w1).
    rewrite Hd1, drop_0.
    rewrite filter_hit_nil.
    rewrite (mapM_init_dict (H0 := DriftEvent_stored)); [done|].
    apply Forall_app. split; [done|]. by repeat constructor.
Qed.

(** The theorem above on a store with one event on record. *)
Lemma created_drift_event_is_listed_witness :
  accepts 2 drift_world ∧
  docs_of "drift" drift_world = DriftEvent.dict <$> stored_drift ∧
  Forall (λ d, is_Some (DriftEvent.id d)) stored_drift ∧
  (Some (VOid (next_oid drift_world)) ∉ ids (docs_of "drift" drift_world)) ∧
  (create_drift_event 7 [("mean", VFloat 1)] [("mean", VFloat 9)]
     drift_world).1 = Ok (VOid (next_oid drift_world)).
Proof.
  assert (accepts 2 drift_world) as Hacc by (vm_compute; constructor).
  assert (Forall (λ d, is_Some (DriftEvent.id d)) stored_drift) as Hids
    by (repeat constructor; by eexists).
  assert (Some (VOid (next_oid drift_world))
          ∉ ids (docs_of "drift" drift_world)) as Hfresh
    by (apply (bool_decide_unpack _); vm_compute; exact I).
  split_and!; [exact Hacc|reflexivity|exact Hids|exact Hfresh|].
  pose proof (created_drift_event_is_listed 7 [("mean", VFloat 1)]
                [("mean", VFloat 9)] stored_drift drift_world Hacc eq_refl
                Hids Hfresh) as H.
  cbv zeta in H. destruct (create_drift_event _ _ _ _) as [r w1].
  destruct H as [H _]. exact H.
Defined.

(** ** The lookups of db.py as queries of [get_documents] *)

Section merge_sort_ext.
Context {A} (R1 R2 : relation A).
Context `{∀ x y, Decision (R1 x y)} `{∀ x y, Decision (R2 x y)}.
Hypothesis same : ∀ x y, R1 x y ↔ R2 x y.

Lemma list_merge_ext l1 l2 : list_merge R1 l1 l2 = list_merge R2 l1 l2.
Proof using same.
  revert l2. induction l1 as [|x1 l1 IH1]; intros l2.
  { by rewrite !list_merge_nil_l. }
  induction l2 as [|x2 l2 IH2]; [by rewrite !list_merge_nil_r|].
  rewrite !list_merge_cons.
  destruct (decide (R1 x1 x2)) as [H1|H1], (decide (R2 x1 x2)) as [H2|H2].
  - by rewrite IH1.
  - by apply same in H1.
  - by apply same in H2.
  - by rewrite IH2.
Qed.

Lemma merge_list_to_stack_ext st l :
  merge_list_to_stack R1 st l = merge_list_to_stack R2 st l.
Proof using same.
  revert l. induction st as [|[l'|] st IH]; intros l; simpl; [done..| |done].
  by rewrite list_merge_ext, IH.
Qed.

Lemma merge_stack_ext st : merge_stack R1 st = merge_stack R2 st.
Proof using same.
  induction st as [|[l|] st IH]; simpl; [done| |done].
  by rewrite list_merge_ext, IH.
Qed.

Lemma merge_sort_ext l : merge_sort R1 l = merge_sort R2 l.
Proof using same.
  unfold merge_sort. generalize (@nil (option (list A))).
  induction l as [|x l IH]; intros st; simpl; [apply merge_stack_ext|].
  by rewrite merge_list_to_stack_ext, IH.
Qed.

End merge_sort_ext.

Lemma merge_sort_one_key field dir (ds : list (gmap string value)) :
  merge_sort (precedes_by [(field, dir)]) ds = merge_sort (precedes field dir) ds.
Proof. apply merge_sort_ext. intros x y. simpl. tauto. Qed.

(** X21.  Each lookup of db.py answers what [get_documents] answers for
    its collection, its query and its sort key, without a page: in every
    state of the store, errors included. *)
Theorem lookups_are_get_documents
    (i : id_arg) (start_time end_time : value) (w : World) :
  get_machine_readings i w
  = get_documents (T := SensorReading.t) "readings"
      (Some [("machine_id", Equals (id_value (normalize i)))])
      (Some [("timestamp", DESCENDING)]) 0 0 w ∧
  get_machine_failures i w
  = get_documents (T := Failure.t) "failures"
      (Some [("machine_id", Equals (id_value (normalize i)))])
      (Some [("start_time", DESCENDING)]) 0 0 w ∧
  get_failure_readings i w
  = get_documents (T := SensorReading.t) "readings"
      (Some [("failure_id", Equals (id_value (normalize i)))])
      (Some [("timestamp", DESCENDING)]) 0 0 w ∧
  get_reading_predictions i w
  = get_documents (T := SensorPrediction.t) "predictions"
      (Some [("reading_id", Equals (id_value (normalize i)))]) None 0 0 w ∧
  get_active_failures w
  = get_documents (T := Failure.t) "failures"
      (Some [("is_active", Equals (VBool true))])
      (Some [("start_time", DESCENDING)]) 0 0 w ∧
  get_readings_in_timerange i start_time end_time w
  = get_documents (T := SensorReading.t) "readings"
      (Some [("machine_id", Equals (id_value (normalize i)));
             ("timestamp", Compare [(Gte, start_time); (Lte, end_time)])])
      (Some [("timestamp", DESCENDING)]) 0 0 w.
Proof.
  unfold get_machine_readings, get_machine_failures, get_failure_readings,
    get_reading_predictions, get_active_failures, get_readings_in_timerange,
    get_documents, to_list, page_to_list, sort, find, sort_page, find_page.
  cbn [source query order page_source page_query page_sort page_skip
       page_limit Nat.eqb default collection].
  rewrite !bind_run. unfold store_call.
  destruct (answer 0 w); [done|].
  by rewrite !merge_sort_one_key, !drop_0.
Qed.

(** ** Touching a machine *)

Lemma Machine_dict_touched (m : Machine.t) (t : datetime) :
  <["last_seen" := VDate t]> (Machine.dict m)
  = Machine.dict {| Machine.id := Machine.id m;
                    Machine.machine_id := Machine.machine_id m;
                    Machine.first_seen := Machine.first_seen m;
                    Machine.last_seen := t |}.
Proof. by destruct m as [[i|] mid f l]. Qed.

(** X22.  On a machines collection that holds stored machines,
    [update_machine_last_seen] sets the last-seen time of the first
    machine with the given identifier to the time of the clock, keeps its
    name and its first-seen time, and answers [True]; when no machine has
    the identifier it answers [False] and the database stays as it was:
    no machine is created.  The other machines and the other collections
    are never touched. *)
Theorem update_machine_last_seen_touches_one
    (machine_id : id_arg) (stored : list Machine.t) (w : World) :
  answer 0 w = None →
  docs_of "machines" w = Machine.dict <$> stored →
  let '(r, w1) := update_machine_last_seen machine_id w in
  match list_find (λ m, VOid <$> Machine.id m
                        = Some (id_value (normalize machine_id))) stored with
  | Some (k, m) =>
      r = Ok true ∧
      docs_of "machines" w1
      = Machine.dict <$>
          <[k := {| Machine.id := Machine.id m;
                    Machine.machine_id := Machine.machine_id m;
                    Machine.first_seen := Machine.first_seen m;
                    Machine.last_seen := time w |}]> stored
  | None => r = Ok false ∧ database w1 = database w
  end ∧
  (∀ name, name ≠ "machines" → docs_of name w1 = docs_of name w).
Proof.
  intros Ha Hstored.
  rewrite update_machine_last_seen_run, Hstored, list_find_fmap by done.
  rewrite (list_find_ext _ (λ m, VOid <$> Machine.id m
                                 = Some (id_value (normalize machine_id))));
    [|by intros m; simpl; rewrite (dict_id (Stored := Machine_stored))].
  destruct (list_find _ stored) as [[k m]|] eqn:Hfind; simpl.
  - split_and!; [done| |].
    + rewrite docs_of_set_docs, Machine_dict_touched.
      by rewrite list_fmap_insert.
    + intros name Hname. by rewrite docs_of_set_docs_ne.
  - done.
Qed.

(** The theorem above on the sample world and its machine. *)
Lemma update_machine_last_seen_touches_one_witness :
  answer 0 sample_world = None ∧
  (∃ stored, docs_of "machines" sample_world = Machine.dict <$> stored ∧
     (update_machine_last_seen (Str oid1) sample_world).1 = Ok true).
Proof.
  split; [reflexivity|].
  exists [{| Machine.id := Some 1%N; Machine.machine_id := "M-1";
             Machine.first_seen := 1000; Machine.last_seen := 1023 |}].
  assert (docs_of "machines" sample_world
          = Machine.dict <$>
              [{| Machine.id := Some 1%N; Machine.machine_id := "M-1";
                  Machine.first_seen := 1000; Machine.last_seen := 1023 |}])
    as Hstored by (vm_compute; reflexivity).
  split; [exact Hstored|].
  pose proof (update_machine_last_seen_touches_one (Str oid1) _ sample_world
                eq_refl Hstored) as H.
  destruct (update_machine_last_seen _ _) as [r w1].
  destruct (list_find _ _) as [[k m]|] eqn:Hfind; [|by vm_compute in Hfind].
  destruct H as [[H _] _]. exact H.
Defined.
